(** * ndo_epg_migration: the migration orchestrator and the export of [main]

    A shallow embedding of [src/ndo_epg_migration.py]: the JSON objects the
    script handles, the Python operations it applies to them, the decorated
    remote calls, the per-unit phase sequence of [main] (the [--put]
    branch), and the functions of the [--get] branch that turn the
    documents of the NDO into rows and write them to a sheet; followed by
    the properties of the specification that were checked against it and
    by further properties of the code. *)

From Stdlib Require Import ZArith List String Ascii Bool Lia.
Import ListNotations.

Set Warnings "-register-all".

Local Open Scope string_scope.
Local Open Scope Z_scope.
Local Open Scope list_scope.

(** ** JSON values, as [json.loads] / [response.json()] produce them *)

Inductive json : Type :=
| JNone
| JBool (b : bool)
| JInt (z : Z)
| JStr (s : string)
| JList (l : list json)
| JDict (d : list (string * json)).

(** A Python [dict] with string keys; insertion order is kept, as in Python. *)
Definition dict := list (string * json).

(** The exception classes that can reach the code under study. *)
Inductive Exn :=
| IndexError | KeyError | TypeError | AttributeError | ValueError
| RequestException | SystemExit | NameError.

Definition Exn_eqb (a b : Exn) : bool :=
  match a, b with
  | IndexError, IndexError | KeyError, KeyError | TypeError, TypeError
  | AttributeError, AttributeError | ValueError, ValueError
  | RequestException, RequestException | SystemExit, SystemExit
  | NameError, NameError => true
  | _, _ => false
  end.

(** Result of a Python expression without side effect. *)
Inductive result (A : Type) :=
| Ok (a : A)
| Err (e : Exn).
Arguments Ok {A} a.
Arguments Err {A} e.

Definition rbind {A B} (r : result A) (k : A -> result B) : result B :=
  match r with
  | Ok a => k a
  | Err e => Err e
  end.

(** ** Python operations on these values *)

Module Py.

Fixpoint dict_get (k : string) (d : dict) : option json :=
  match d with
  | [] => None
  | (k', v) :: d' => if String.eqb k k' then Some v else dict_get k d'
  end.

(** [d[k] = v]: an existing key keeps its position, a new key goes last. *)
Fixpoint dict_set (k : string) (v : json) (d : dict) : dict :=
  match d with
  | [] => [(k, v)]
  | (k', v') :: d' =>
      if String.eqb k k' then (k', v) :: d' else (k', v') :: dict_set k v d'
  end.

Definition keys (d : dict) : list string := map fst d.

(** [d.setdefault(k, v)] for its effect on [d]. *)
Definition setdefault (k : string) (v : json) (d : dict) : dict :=
  match dict_get k d with
  | Some _ => d
  | None => dict_set k v d
  end.

(** [j[k]] with a string key. *)
Definition getitem (j : json) (k : string) : result json :=
  match j with
  | JDict d => match dict_get k d with
               | Some v => Ok v
               | None => Err KeyError
               end
  | _ => Err TypeError
  end.

(** Position designated by a Python index in a sequence of length [n]. *)
Definition norm_index (n : nat) (i : Z) : option nat :=
  if (0 <=? i) && (i <? Z.of_nat n) then Some (Z.to_nat i)
  else if (i <? 0) && (- Z.of_nat n <=? i) then Some (Z.to_nat (Z.of_nat n + i))
  else None.

Definition seq_index {A} (l : list A) (i : Z) : result A :=
  match norm_index (List.length l) i with
  | Some n => match nth_error l n with
              | Some a => Ok a
              | None => Err IndexError
              end
  | None => Err IndexError
  end.

Fixpoint chars (s : string) : list json :=
  match s with
  | EmptyString => []
  | String a s' => JStr (String a EmptyString) :: chars s'
  end.

(** [j[i]] with an integer index. *)
Definition getindex (j : json) (i : Z) : result json :=
  match j with
  | JList l => seq_index l i
  | JStr s => seq_index (chars s) i
  | JDict _ => Err KeyError
  | _ => Err TypeError
  end.

(** The elements a [for x in j] loop visits. *)
Definition iter (j : json) : result (list json) :=
  match j with
  | JList l => Ok l
  | JStr s => Ok (chars s)
  | JDict d => Ok (map (fun kv => JStr (fst kv)) d)
  | _ => Err TypeError
  end.

(** The receiver of a [str] method such as [.split] or [.startswith]. *)
Definition str_method (j : json) : result string :=
  match j with
  | JStr s => Ok s
  | _ => Err AttributeError
  end.

Definition startswith (s p : string) : bool := String.prefix p s.

(** [s.split("/")]. *)
Fixpoint split_slash (s : string) : list string :=
  match s with
  | EmptyString => [EmptyString]
  | String a s' =>
      if Ascii.eqb a "/"%char then EmptyString :: split_slash s'
      else match split_slash s' with
           | [] => [String a EmptyString]
           | h :: t => String a h :: t
           end
  end.

(** [j is True], [j is False]. *)
Definition is_True (j : json) : bool :=
  match j with JBool true => true | _ => false end.
Definition is_False (j : json) : bool :=
  match j with JBool false => true | _ => false end.

(** [j == s] for a [str] [s]. *)
Definition eq_str (j : json) (s : string) : bool :=
  match j with JStr s' => String.eqb s' s | _ => false end.

(** [j[:-3]] (a [dict] receiver raises [TypeError]: slices are not
    hashable before CPython 3.12). *)
Definition drop_last3 (j : json) : result json :=
  match j with
  | JStr s => Ok (JStr (String.substring 0 (String.length s - 3)%nat s))
  | JList l => Ok (JList (firstn (List.length l - 3)%nat l))
  | _ => Err TypeError
  end.

End Py.

(** ** Locations inside the fetched schema tree

    [src_bd_tmpl_data] is a reference to an object of [ndo_schemas_json];
    [setdefault] on it changes the tree.  A location is the access path of
    the object from the root. *)

Inductive step := SKey (k : string) | SIdx (n : nat).
Definition loc := list step.

Fixpoint dict_alter (f : json -> json) (k : string) (d : dict) : dict :=
  match d with
  | [] => []
  | (k', v) :: d' =>
      if String.eqb k k' then (k', f v) :: d' else (k', v) :: dict_alter f k d'
  end.

Fixpoint list_alter {A} (f : A -> A) (n : nat) (l : list A) : list A :=
  match l, n with
  | [], _ => []
  | x :: l', O => f x :: l'
  | x :: l', S n' => x :: list_alter f n' l'
  end.

Fixpoint json_at (p : loc) (j : json) : option json :=
  match p with
  | [] => Some j
  | SKey k :: p' =>
      match j with
      | JDict d => match Py.dict_get k d with
                   | Some v => json_at p' v
                   | None => None
                   end
      | _ => None
      end
  | SIdx n :: p' =>
      match j with
      | JList l => match nth_error l n with
                   | Some v => json_at p' v
                   | None => None
                   end
      | _ => None
      end
  end.

Fixpoint json_alter (f : json -> json) (p : loc) (j : json) : json :=
  match p with
  | [] => f j
  | SKey k :: p' =>
      match j with
      | JDict d => JDict (dict_alter (json_alter f p') k d)
      | _ => j
      end
  | SIdx n :: p' =>
      match j with
      | JList l => JList (list_alter (json_alter f p') n l)
      | _ => j
      end
  end.

(** ** Migration units: the rows read from the "EPG Selection" sheet

    A row is [dict(zip(columns, row))]; only the columns [main] reads are
    kept.  Identifiers and names are [str] cells, the positions of the
    source objects in the schema tree are [int] cells. *)

Module Src.
Record row := {
  siteId : string; schemaId : string; templName : string; templId : string;
  bdTemplId : Z; bdSiteId : Z; anpTemplId : Z; anpSiteId : Z;
  epgName : string; epgTemplId : Z; epgSiteId : Z
}.
End Src.

Module Dst.
Record row := {
  siteId : string; schemaId : string; templName : string; vrfRef : string;
  bdName : string; bdL3Out1 : string; bdL3OutRef1 : string;
  bdL3Out2 : string; bdL3OutRef2 : string; anpRef : string;
  epgName : string; consContract : string
}.
End Dst.

(** ** Requests to the NDO, replies, and what a run leaves behind *)

(** The [path] of a JSON-Patch operation, by its format string. *)
Inductive patch_path :=
| tmpl_bds_new (templ_name : string)
    (* "/templates/%s/bds/-" *)
| tmpl_bds_at (templ_name : string) (name : json)
    (* "/templates/%s/bds/%s" *)
| site_bds_at (siteId templ_name bd_name : string)
    (* "/sites/%s-%s/bds/%s" *)
| tmpl_epgs_new (templ_name anp_name : string)
    (* "/templates/%s/anps/%s/epgs/-" *)
| tmpl_epgs_at (templ_name anp_name : string) (name : json)
    (* "/templates/%s/anps/%s/epgs/%s" *)
| site_epgs_at (siteId templ_name anp_name epg_name : string)
    (* "/sites/%s-%s/anps/%s/epgs/%s" *)
| site_epgs_staticPorts (siteId templ_name anp_name epg_name : string).
    (* "/sites/%s-%s/anps/%s/epgs/%s/staticPorts" *)

Record patch_op := { op : string; path : patch_path; value : option json }.

Inductive Request :=
| POST_login
    (* POST /login *)
| GET_schemas
    (* GET /mso/api/v1/schemas *)
| PATCH_schemas (schema_id : string) (payload : list patch_op)
    (* PATCH /mso/api/v1/schemas/%s *)
| POST_task (schemaId : string) (templateName : string)
    (* POST /mso/api/v1/task, {"isRedeploy": False, ...} *)
| GET_deployments (id : json).
    (* GET /mso/api/v1/deployments/%s *)

Record Response := { status_code : Z; body : json }.

(** What the NDO answers: nothing (the transport raises a
    [RequestException]) or a response. *)
Inductive Reply :=
| NoReply
| Replied (r : Response).

Inductive Level := DEBUG | INFO | WARNING | ERROR | CRITICAL.

Inductive Event :=
| Http (rq : Request) (rp : Reply)
| Log (lvl : Level) (fmt : string) (args : list json)
| Sleep (ms : Z)
| Input (prompt : string).

Inductive Session := session_cookie.

(** The variables of [main] that live across migration units, the fetched
    schema tree they point into, and the events of the run so far. *)
Record State := {
  ndo_schemas_json : json;
  ndo_bd_tmpl_dict : dict;
  ndo_bd_site_dict : dict;
  ndo_epg_tmpl_dict : dict;
  ndo_epg_site_dict : dict;
  src_bd_tmpl_data : json;
  src_bd_tmpl_loc : option loc;   (* where [src_bd_tmpl_data] lives in the tree *)
  src_bd_site_data : json;
  src_epg_tmpl_data : json;
  src_epg_site_data : json;
  sent : nat;                     (* number of requests issued *)
  trace : list Event              (* oldest first *)
}.

(** The state when the unit loop is reached for the first time (lines 796-835). *)
Definition initial_state : State := {|
  ndo_schemas_json := JNone;
  ndo_bd_tmpl_dict :=
    [("arpFlood", JNone); ("description", JStr ""); ("dhcpLabels", JList []);
     ("displayName", JStr ""); ("intersiteBumTrafficAllow", JNone);
     ("l2Stretch", JNone); ("l2UnknownUnicast", JStr ""); ("l3MCast", JNone);
     ("multiDstPktAct", JStr ""); ("name", JStr "");
     ("optimizeWanBandwidth", JNone); ("subnets", JList []);
     ("unicastRouting", JNone); ("unkMcastAct", JStr "");
     ("v6unkMcastAct", JStr ""); ("vmac", JStr ""); ("vrfRef", JStr "")];
  ndo_bd_site_dict :=
    [("bdRef", JStr ""); ("hostBasedRouting", JNone); ("l3OutRefs", JList []);
     ("l3Outs", JList []); ("mac", JStr ""); ("subnets", JList [])];
  ndo_epg_tmpl_dict :=
    [("bdRef", JStr ""); ("contractRelationships", JList []);
     ("description", JStr ""); ("displayName", JStr ""); ("epgType", JStr "");
     ("intraEpg", JStr ""); ("mCastSource", JNone); ("name", JStr "");
     ("preferredGroup", JNone); ("proxyArp", JNone); ("selectors", JList []);
     ("subnets", JList []); ("uSegAttrs", JList []); ("uSegEpg", JNone)];
  ndo_epg_site_dict :=
    [("domainAssociations", JList []); ("epgRef", JStr "");
     ("selectors", JList []); ("staticLeafs", JList []);
     ("staticPorts", JList []); ("subnets", JList []); ("uSegAttrs", JList [])];
  src_bd_tmpl_data := JDict [];
  src_bd_tmpl_loc := None;
  src_bd_site_data := JDict [];
  src_epg_tmpl_data := JDict [];
  src_epg_site_data := JDict [];
  sent := 0%nat;
  trace := []
|}.

(** [dst_bd_tmpl_data: dict = ndo_bd_tmpl_dict] and its three siblings bind a
    second name to the skeleton dictionary: no copy is made. *)
Inductive alias :=
| dst_bd_tmpl_data | dst_bd_site_data | dst_epg_tmpl_data | dst_epg_site_data.

Definition deref (a : alias) (st : State) : dict :=
  match a with
  | dst_bd_tmpl_data => ndo_bd_tmpl_dict st
  | dst_bd_site_data => ndo_bd_site_dict st
  | dst_epg_tmpl_data => ndo_epg_tmpl_dict st
  | dst_epg_site_data => ndo_epg_site_dict st
  end.

Definition store (a : alias) (d : dict) (st : State) : State :=
  let bt := match a with dst_bd_tmpl_data => d | _ => ndo_bd_tmpl_dict st end in
  let bs := match a with dst_bd_site_data => d | _ => ndo_bd_site_dict st end in
  let et := match a with dst_epg_tmpl_data => d | _ => ndo_epg_tmpl_dict st end in
  let es := match a with dst_epg_site_data => d | _ => ndo_epg_site_dict st end in
  {| ndo_schemas_json := ndo_schemas_json st;
     ndo_bd_tmpl_dict := bt; ndo_bd_site_dict := bs;
     ndo_epg_tmpl_dict := et; ndo_epg_site_dict := es;
     src_bd_tmpl_data := src_bd_tmpl_data st;
     src_bd_tmpl_loc := src_bd_tmpl_loc st;
     src_bd_site_data := src_bd_site_data st;
     src_epg_tmpl_data := src_epg_tmpl_data st;
     src_epg_site_data := src_epg_site_data st;
     sent := sent st; trace := trace st |}.

Definition emit (e : Event) (st : State) : State :=
  {| ndo_schemas_json := ndo_schemas_json st;
     ndo_bd_tmpl_dict := ndo_bd_tmpl_dict st;
     ndo_bd_site_dict := ndo_bd_site_dict st;
     ndo_epg_tmpl_dict := ndo_epg_tmpl_dict st;
     ndo_epg_site_dict := ndo_epg_site_dict st;
     src_bd_tmpl_data := src_bd_tmpl_data st;
     src_bd_tmpl_loc := src_bd_tmpl_loc st;
     src_bd_site_data := src_bd_site_data st;
     src_epg_tmpl_data := src_epg_tmpl_data st;
     src_epg_site_data := src_epg_site_data st;
     sent := sent st; trace := trace st ++ [e] |}.

Definition count_request (st : State) : State :=
  {| ndo_schemas_json := ndo_schemas_json st;
     ndo_bd_tmpl_dict := ndo_bd_tmpl_dict st;
     ndo_bd_site_dict := ndo_bd_site_dict st;
     ndo_epg_tmpl_dict := ndo_epg_tmpl_dict st;
     ndo_epg_site_dict := ndo_epg_site_dict st;
     src_bd_tmpl_data := src_bd_tmpl_data st;
     src_bd_tmpl_loc := src_bd_tmpl_loc st;
     src_bd_site_data := src_bd_site_data st;
     src_epg_tmpl_data := src_epg_tmpl_data st;
     src_epg_site_data := src_epg_site_data st;
     sent := S (sent st); trace := trace st |}.

Definition set_schemas (j : json) (st : State) : State :=
  {| ndo_schemas_json := j;
     ndo_bd_tmpl_dict := ndo_bd_tmpl_dict st;
     ndo_bd_site_dict := ndo_bd_site_dict st;
     ndo_epg_tmpl_dict := ndo_epg_tmpl_dict st;
     ndo_epg_site_dict := ndo_epg_site_dict st;
     src_bd_tmpl_data := src_bd_tmpl_data st;
     src_bd_tmpl_loc := src_bd_tmpl_loc st;
     src_bd_site_data := src_bd_site_data st;
     src_epg_tmpl_data := src_epg_tmpl_data st;
     src_epg_site_data := src_epg_site_data st;
     sent := sent st; trace := trace st |}.

(** The four source variables, assigned by the resolve loops. *)
Inductive src_var := v_src_bd_tmpl | v_src_bd_site | v_src_epg_tmpl | v_src_epg_site.

Definition assign (x : src_var) (j : json) (p : option loc) (st : State) : State :=
  {| ndo_schemas_json := ndo_schemas_json st;
     ndo_bd_tmpl_dict := ndo_bd_tmpl_dict st;
     ndo_bd_site_dict := ndo_bd_site_dict st;
     ndo_epg_tmpl_dict := ndo_epg_tmpl_dict st;
     ndo_epg_site_dict := ndo_epg_site_dict st;
     src_bd_tmpl_data :=
       match x with v_src_bd_tmpl => j | _ => src_bd_tmpl_data st end;
     src_bd_tmpl_loc :=
       match x with v_src_bd_tmpl => p | _ => src_bd_tmpl_loc st end;
     src_bd_site_data :=
       match x with v_src_bd_site => j | _ => src_bd_site_data st end;
     src_epg_tmpl_data :=
       match x with v_src_epg_tmpl => j | _ => src_epg_tmpl_data st end;
     src_epg_site_data :=
       match x with v_src_epg_site => j | _ => src_epg_site_data st end;
     sent := sent st; trace := trace st |}.

Definition on_dict (f : dict -> dict) (j : json) : json :=
  match j with
  | JDict d => JDict (f d)
  | _ => j
  end.

(** A method of [src_bd_tmpl_data] that changes the object: the tree sees it. *)
Definition mutate_src_bd_tmpl (f : dict -> dict) (st : State) : State :=
  set_schemas
    (match src_bd_tmpl_loc st with
     | Some p => json_alter (on_dict f) p (ndo_schemas_json st)
     | None => ndo_schemas_json st
     end)
    (assign v_src_bd_tmpl (on_dict f (src_bd_tmpl_data st)) (src_bd_tmpl_loc st) st).

(** ** The monad of the script: state, exceptions, and loops that may not end *)

Inductive Outcome (A : Type) :=
| Normal (a : A)
| Raised (e : Exn)
| Unfinished.            (* the polling budget ran out *)
Arguments Normal {A} a.
Arguments Raised {A} e.
Arguments Unfinished {A}.

Definition M (A : Type) := State -> Outcome A * State.

Definition ret {A} (a : A) : M A := fun st => (Normal a, st).

Definition bind {A B} (m : M A) (k : A -> M B) : M B :=
  fun st =>
    match m st with
    | (Normal a, st') => k a st'
    | (Raised e, st') => (Raised e, st')
    | (Unfinished, st') => (Unfinished, st')
    end.

Definition raise {A} (e : Exn) : M A := fun st => (Raised e, st).

Definition lift {A} (r : result A) : M A :=
  fun st => match r with
            | Ok a => (Normal a, st)
            | Err e => (Raised e, st)
            end.

Definition gets {A} (f : State -> A) : M A := fun st => (Normal (f st), st).

Definition modify (f : State -> State) : M unit := fun st => (Normal tt, f st).

Notation "x <- m ;; k" := (bind m (fun x => k))
  (at level 61, m at next level, right associativity).
Notation "m ;; k" := (bind m (fun _ => k))
  (at level 61, right associativity).

Fixpoint for_each {A} (l : list A) (body : A -> M unit) : M unit :=
  match l with
  | [] => ret tt
  | x :: l' => body x ;; for_each l' body
  end.

(** [enumerate(l)]. *)
Definition enumerate {A} (l : list A) : list (nat * A) :=
  combine (seq 0 (List.length l)) l.

Definition log (lvl : Level) (fmt : string) (args : list json) : M unit :=
  modify (emit (Log lvl fmt args)).

Definition sleep (ms : Z) : M unit := modify (emit (Sleep ms)).

(** [try: m except exc: handler]. *)
Definition try_except {A} (m : M A) (exc : Exn) (handler : M A) : M A :=
  fun st =>
    match m st with
    | (Raised e, st') => if Exn_eqb e exc then handler st' else (Raised e, st')
    | r => r
    end.

(** ** The mapping loops of [main], as functions of the dictionaries *)

(** [for key, value in dst.items(): dst[key] = src[key]], over the keys
    [ks] still to visit: the dictionary reached, and the exception that
    stopped the loop if one did. *)
Fixpoint copy_items (ks : list string) (src : json) (dst : dict)
  : dict * option Exn :=
  match ks with
  | [] => (dst, None)
  | key :: ks' =>
      match Py.getitem src key with
      | Ok v => copy_items ks' src (Py.dict_set key v dst)
      | Err e => (dst, Some e)
      end
  end.

(** The test of lines 941-946 on one subnet. *)
Definition hostBasedRouting_of (subnet : json) (bdName : string) : result bool :=
  rbind (Py.getitem subnet "ip") (fun ip =>
  rbind (Py.str_method ip) (fun ip =>
    Ok (if Py.startswith ip "10.14" && Py.startswith bdName "WB" then true
        else if Py.startswith ip "10.17" && Py.startswith bdName "YK" then true
        else false))).

(** [for subnet in dst_bd_tmpl_data['subnets']: ...] (lines 940-946), on the
    site dictionary. *)
Fixpoint hostBasedRouting_items (subnets : list json) (bdName : string)
  (site : dict) : dict * option Exn :=
  match subnets with
  | [] => (site, None)
  | subnet :: rest =>
      match hostBasedRouting_of subnet bdName with
      | Ok b =>
          hostBasedRouting_items rest bdName
            (Py.dict_set "hostBasedRouting" (JBool b) site)
      | Err e => (site, Some e)
      end
  end.

Definition dst_bd_ref_of (dst : Dst.row) : string :=
  String.concat ""
    ["/schemas/"; Dst.schemaId dst; "/templates/"; Dst.templName dst;
     "/bds/"; Dst.bdName dst].

Definition dst_epg_ref_of (dst : Dst.row) (name : string) : string :=
  String.concat "" [Dst.anpRef dst; "/epgs/"; name].

(** ** The request each patch function builds (lines 142-158, 167-183,
    192-209, 218-236, 245-261): the check of [oper], the components of the
    reference, and the JSON-Patch payload. *)

Notation "x <-- r ;; k" := (rbind r (fun x => k))
  (at level 61, r at next level, right associativity).

Definition allowed (oper : string) (allowed_ops : list string) : result unit :=
  if existsb (String.eqb oper) allowed_ops then Ok tt else Err ValueError.

(** [ref.split("/")[i]] *)
Definition split_at (ref : json) (i : Z) : result string :=
  s <-- Py.str_method ref ;;
  Py.seq_index (Py.split_slash s) i.

Definition tmpl_bds_request (data bdRef : json) (oper : string)
  : result Request :=
  _ <-- allowed oper ["add"; "remove"] ;;
  schema_id <-- split_at bdRef 2 ;;
  templ_name <-- split_at bdRef 4 ;;
  payload <--
    (if String.eqb oper "add" then
       Ok [{| op := "add"; path := tmpl_bds_new templ_name;
              value := Some data |}]
     else if String.eqb oper "remove" then
       name <-- Py.getitem data "name" ;;
       Ok [{| op := "remove"; path := tmpl_bds_at templ_name name;
              value := None |}]
     else Ok []) ;;
  Ok (PATCH_schemas schema_id payload).

Definition site_bds_request (data : json) (siteId oper : string)
  : result Request :=
  _ <-- allowed oper ["remove"; "replace"] ;;
  ref <-- Py.getitem data "bdRef" ;;
  schema_id <-- split_at ref 2 ;;
  ref <-- Py.getitem data "bdRef" ;;
  templ_name <-- split_at ref 4 ;;
  ref <-- Py.getitem data "bdRef" ;;
  bd_name <-- split_at ref (-1) ;;
  let payload :=
    if String.eqb oper "remove" then
      [{| op := oper; path := site_bds_at siteId templ_name bd_name;
          value := None |}]
    else if String.eqb oper "replace" then
      [{| op := oper; path := site_bds_at siteId templ_name bd_name;
          value := Some data |}]
    else [] in
  Ok (PATCH_schemas schema_id payload).

Definition tmpl_epgs_request (data epgRef : json) (oper : string)
  : result Request :=
  _ <-- allowed oper ["add"; "remove"] ;;
  schema_id <-- split_at epgRef 2 ;;
  templ_name <-- split_at epgRef 4 ;;
  anp_name <-- split_at epgRef 6 ;;
  payload <--
    (if String.eqb oper "add" then
       Ok [{| op := "add"; path := tmpl_epgs_new templ_name anp_name;
              value := Some data |}]
     else if String.eqb oper "remove" then
       name <-- Py.getitem data "name" ;;
       Ok [{| op := "remove"; path := tmpl_epgs_at templ_name anp_name name;
              value := None |}]
     else Ok []) ;;
  Ok (PATCH_schemas schema_id payload).

(** The four components [data['epgRef'].split("/")] is read for. *)
Definition epgRef_parts (data : json)
  : result (string * string * string * string) :=
  ref <-- Py.getitem data "epgRef" ;;
  schema_id <-- split_at ref 2 ;;
  ref <-- Py.getitem data "epgRef" ;;
  templ_name <-- split_at ref 4 ;;
  ref <-- Py.getitem data "epgRef" ;;
  anp_name <-- split_at ref 6 ;;
  ref <-- Py.getitem data "epgRef" ;;
  epg_name <-- split_at ref (-1) ;;
  Ok (schema_id, templ_name, anp_name, epg_name).

Definition site_epgs_request (data : json) (siteId oper : string)
  : result Request :=
  _ <-- allowed oper ["remove"; "replace"] ;;
  parts <-- epgRef_parts data ;;
  let '(schema_id, templ_name, anp_name, epg_name) := parts in
  let payload :=
    if String.eqb oper "remove" then
      [{| op := oper; path := site_epgs_at siteId templ_name anp_name epg_name;
          value := None |}]
    else if String.eqb oper "replace" then
      [{| op := oper; path := site_epgs_at siteId templ_name anp_name epg_name;
          value := Some data |}]
    else [] in
  Ok (PATCH_schemas schema_id payload).

Definition static_ports_request (data : json) (siteId : string) (ports : json)
  (oper : string) : result Request :=
  _ <-- allowed oper ["remove"; "replace"] ;;
  parts <-- epgRef_parts data ;;
  let '(schema_id, templ_name, anp_name, epg_name) := parts in
  let payload :=
    if String.eqb oper "remove" then
      [{| op := oper;
          path := site_epgs_staticPorts siteId templ_name anp_name epg_name;
          value := None |}]
    else (* [oper == "replace"], the other allowed operation *)
      [{| op := oper;
          path := site_epgs_staticPorts siteId templ_name anp_name epg_name;
          value := Some ports |}] in
  Ok (PATCH_schemas schema_id payload).

(** ** The decorated remote calls and [main] *)

Section Orchestrator.

(** The NDO: its answer to the n-th request of the run. *)
Variable remote : nat -> Reply.

(** [session.post], [session.get], [session.patch]. *)
Definition session_request (session : option Session) (rq : Request)
  : M Response :=
  match session with
  | None => raise AttributeError
  | Some _ =>
      fun st =>
        let rp := remote (sent st) in
        let st' := emit (Http rq rp) (count_request st) in
        match rp with
        | NoReply => (Raised RequestException, st')
        | Replied r => (Normal r, st')
        end
  end.

(** [response.raise_for_status()]: an [HTTPError], which is a
    [RequestException], for a 4xx or 5xx status. *)
Definition raise_for_status (r : Response) : M unit :=
  if (400 <=? status_code r) && (status_code r <? 600)
  then raise RequestException else ret tt.

Definition debug_session (_ : Session) : Event :=
  Log DEBUG "%s" [].
Definition debug_response (r : Response) : Event :=
  Log DEBUG "%(method)s: %(url)s STATUS: %(status)s" [JInt (status_code r)].

(** The decorator (lines 81-94).  [debug] is the [log.debug] call of the
    branch the type of [content] selects. *)
Definition request_logger {A} (debug : A -> Event) (func : M A)
  : M (option A) :=
  fun st =>
    match func st with
    | (Normal content, st') => (Normal (Some content), emit (debug content) st')
    | (Raised e, st') =>
        if Exn_eqb e RequestException
        then (Normal None, emit (Log CRITICAL "%s" []) st')
        else (Raised e, st')
    | (Unfinished, st') => (Unfinished, st')
    end.

(** [session.post/get/patch(...)], [response.raise_for_status()], the
    [log] calls that follow, [return response]: the lines every remote
    function ends with. *)
Definition exchange (session : option Session) (rq : Request)
  (info : Response -> list Event) : M Response :=
  response <- session_request session rq ;;
  raise_for_status response ;;
  for_each (info response) (fun e => modify (emit e)) ;;
  ret response.

(** Lines 98-108. *)
Definition get_ndo_session_func : M Session :=
  let session := session_cookie in
  response <- exchange (Some session) POST_login (fun _ =>
    [Log INFO "User '%(user)s' successfully authenticated to %(url)s" []]) ;;
  ret session.
Definition get_ndo_session : M (option Session) :=
  request_logger debug_session get_ndo_session_func.

(** Lines 131-138. *)
Definition get_ndo_schemas_func (session : option Session) : M Response :=
  exchange session GET_schemas (fun _ =>
    [Log INFO "Received all schemas information from %s" []]).
Definition get_ndo_schemas (session : option Session) : M (option Response) :=
  request_logger debug_response (get_ndo_schemas_func session).

(** Lines 141-163. *)
Definition patch_ndo_tmpl_bds_func (session : option Session) (data : json)
  (bdRef : json) (oper : string) : M Response :=
  rq <- lift (tmpl_bds_request data bdRef oper) ;;
  exchange session rq (fun response =>
    [Log INFO "Template BD patch %s operation returned status code %s"
       [JStr oper; JInt (status_code response)]]).
Definition patch_ndo_tmpl_bds session data bdRef oper :=
  request_logger debug_response (patch_ndo_tmpl_bds_func session data bdRef oper).

(** Lines 166-188. *)
Definition patch_ndo_site_bds_func (session : option Session) (data : json)
  (siteId : string) (oper : string) : M Response :=
  rq <- lift (site_bds_request data siteId oper) ;;
  exchange session rq (fun response =>
    [Log INFO "Site BD patch %s operation returned status code %s"
       [JStr oper; JInt (status_code response)]]).
Definition patch_ndo_site_bds session data siteId oper :=
  request_logger debug_response (patch_ndo_site_bds_func session data siteId oper).

(** Lines 191-214. *)
Definition patch_ndo_tmpl_epgs_func (session : option Session) (data : json)
  (epgRef : json) (oper : string) : M Response :=
  rq <- lift (tmpl_epgs_request data epgRef oper) ;;
  exchange session rq (fun response =>
    [Log INFO "Template EPG patch %s operation returned status code %s"
       [JStr oper; JInt (status_code response)]]).
Definition patch_ndo_tmpl_epgs session data epgRef oper :=
  request_logger debug_response (patch_ndo_tmpl_epgs_func session data epgRef oper).

(** Lines 217-241. *)
Definition patch_ndo_site_epgs_func (session : option Session) (data : json)
  (siteId : string) (oper : string) : M Response :=
  rq <- lift (site_epgs_request data siteId oper) ;;
  exchange session rq (fun response =>
    [Log INFO "Site EPG patch %s operation returned status code %s"
       [JStr oper; JInt (status_code response)]]).
Definition patch_ndo_site_epgs session data siteId oper :=
  request_logger debug_response (patch_ndo_site_epgs_func session data siteId oper).

(** Lines 244-266. *)
Definition patch_ndo_epg_static_ports_func (session : option Session)
  (data : json) (siteId : string) (ports : json) (oper : string) : M Response :=
  rq <- lift (static_ports_request data siteId ports oper) ;;
  exchange session rq (fun response =>
    [Log INFO "EPG static ports patch %s operation returned status code %s"
       [JStr oper; JInt (status_code response)]]).
Definition patch_ndo_epg_static_ports session data siteId ports oper :=
  request_logger debug_response
    (patch_ndo_epg_static_ports_func session data siteId ports oper).

(** Lines 269-278. *)
Definition deploy_ndo_template_func (session : option Session)
  (schm tmpl : string) : M Response :=
  exchange session (POST_task schm tmpl) (fun response =>
    [Log DEBUG "%s" [body response];
     Log INFO "Deployment task status: %s" [JInt (status_code response)]]).
Definition deploy_ndo_template session schm tmpl :=
  request_logger debug_response (deploy_ndo_template_func session schm tmpl).

(** Lines 281-296.  One unit of [fuel] pays for one turn of the [while]
    loop; the loop has no other bound. *)
Fixpoint ndo_deploy_status_check_func (fuel : nat) (session : option Session)
  (id : json) : M Response :=
  match fuel with
  | O => fun st => (Unfinished, st)
  | S fuel' =>
      response <- session_request session (GET_deployments id) ;;
      raise_for_status response ;;
      details <- lift (Py.getitem (body response) "operDetails") ;;
      task_status <- lift (Py.getitem details "taskStatus") ;;
      (if Py.eq_str task_status "Error" then
         details <- lift (Py.getitem (body response) "operDetails") ;;
         sites <- lift (Py.getitem details "execSiteStatus") ;;
         site <- lift (Py.getindex sites 0) ;;
         status <- lift (Py.getitem site "status") ;;
         msg <- lift (Py.getitem status "msg") ;;
         msg <- lift (Py.drop_last3 msg) ;;
         log ERROR "%s" [msg] ;;
         raise RequestException
       else ret tt) ;;
      log INFO "Deployment task ID %s status is %s" [id; task_status] ;;
      sleep 500 ;;
      if Py.eq_str task_status "Complete" then ret response
      else ndo_deploy_status_check_func fuel' session id
  end.
Definition ndo_deploy_status_check fuel session id :=
  request_logger debug_response (ndo_deploy_status_check_func fuel session id).

(** [response.json()]; the decorator may have returned [None]. *)
Definition json_of (response : option Response) : M json :=
  match response with
  | Some r => ret (body r)
  | None => raise AttributeError
  end.

(** *** One migration unit: the body of the [for i in range(items)] loop *)

Definition src_item (x : State -> json) (key : string) : M json :=
  obj <- gets x ;; lift (Py.getitem obj key).

Definition getitem_of (a : alias) (key : string) : M json :=
  d <- gets (deref a) ;; lift (Py.getitem (JDict d) key).

Definition setitem (a : alias) (key : string) (v : json) : M unit :=
  modify (fun st => store a (Py.dict_set key v (deref a st)) st).

(** [for key, value in a.items(): a[key] = src[key]]. *)
Definition copy_from (a : alias) (src : State -> json) : M unit :=
  fun st =>
    let '(d, stop) := copy_items (Py.keys (deref a st)) (src st) (deref a st) in
    (match stop with None => Normal tt | Some e => Raised e end, store a d st).

(** The position [container[i]] designates when [container] is a list. *)
Definition index_loc (container : json) (i : Z) : option nat :=
  match container with
  | JList l => Py.norm_index (List.length l) i
  | _ => None
  end.

(** Lines 876-894: the source objects of the unit, looked up in the tree. *)
Definition resolve (src : Src.row) : M unit :=
  tree <- gets ndo_schemas_json ;;
  schemas <- lift (rbind (Py.getitem tree "schemas") Py.iter) ;;
  for_each (enumerate schemas) (fun '(si, schema) =>
    id <- lift (Py.getitem schema "id") ;;
    if Py.eq_str id (Src.schemaId src) then
      templates <- lift (rbind (Py.getitem schema "templates") Py.iter) ;;
      for_each (enumerate templates) (fun '(ti, tmpl) =>
        templateID <- lift (Py.getitem tmpl "templateID") ;;
        if Py.eq_str templateID (Src.templId src) then
          let bd_tmpl_id := Src.bdTemplId src in
          bds <- lift (Py.getitem tmpl "bds") ;;
          bd <- lift (Py.getindex bds bd_tmpl_id) ;;
          modify (assign v_src_bd_tmpl bd
                    (option_map
                       (fun bi => [SKey "schemas"; SIdx si; SKey "templates";
                                   SIdx ti; SKey "bds"; SIdx bi])
                       (index_loc bds bd_tmpl_id))) ;;
          let anp_tmpl_id := Src.anpTemplId src in
          let epg_tmpl_id := Src.epgTemplId src in
          anps <- lift (Py.getitem tmpl "anps") ;;
          anp <- lift (Py.getindex anps anp_tmpl_id) ;;
          epgs <- lift (Py.getitem anp "epgs") ;;
          epg <- lift (Py.getindex epgs epg_tmpl_id) ;;
          modify (assign v_src_epg_tmpl epg None)
        else ret tt) ;;
      sites <- lift (rbind (Py.getitem schema "sites") Py.iter) ;;
      for_each sites (fun site =>
        siteId <- lift (Py.getitem site "siteId") ;;
        if Py.eq_str siteId (Src.siteId src) then
          let bd_site_id := Src.bdSiteId src in
          bds <- lift (Py.getitem site "bds") ;;
          bd <- lift (Py.getindex bds bd_site_id) ;;
          modify (assign v_src_bd_site bd None) ;;
          let anp_site_id := Src.anpSiteId src in
          let epg_site_id := Src.epgSiteId src in
          anps <- lift (Py.getitem site "anps") ;;
          anp <- lift (Py.getindex anps anp_site_id) ;;
          epgs <- lift (Py.getitem anp "epgs") ;;
          epg <- lift (Py.getindex epgs epg_site_id) ;;
          modify (assign v_src_epg_site epg None)
        else ret tt)
    else ret tt).

(** Lines 903-907 and 916-920. *)
Definition default_vmac : M unit :=
  try_except
    (vmac <- src_item src_bd_tmpl_data "vmac" ;; ret tt)
    KeyError
    (log DEBUG "Src BD data does not have a vMAC configured" [] ;;
     modify (mutate_src_bd_tmpl (Py.setdefault "vmac" (JStr "")))).

(** Lines 897-930: the two aliases, and the copy from the source BD. *)
Definition copy_src_bd : M unit :=
  l2Stretch <- src_item src_bd_tmpl_data "l2Stretch" ;;
  if Py.is_True l2Stretch then
    default_vmac ;;
    copy_from dst_bd_tmpl_data src_bd_tmpl_data ;;
    copy_from dst_bd_site_data src_bd_site_data
  else
    l2Stretch <- src_item src_bd_tmpl_data "l2Stretch" ;;
    if Py.is_False l2Stretch then
      default_vmac ;;
      copy_from dst_bd_tmpl_data src_bd_tmpl_data ;;
      setitem dst_bd_tmpl_data "arpFlood" (JBool true) ;;
      setitem dst_bd_tmpl_data "intersiteBumTrafficAllow" (JBool true) ;;
      setitem dst_bd_tmpl_data "l2Stretch" (JBool true) ;;
      setitem dst_bd_tmpl_data "optimizeWanBandwidth" (JBool true) ;;
      subnets <- src_item src_bd_site_data "subnets" ;;
      setitem dst_bd_tmpl_data "subnets" subnets ;;
      copy_from dst_bd_site_data src_bd_site_data
    else ret tt.

(** Lines 940-946. *)
Definition hostBasedRouting_loop (dst : Dst.row) : M unit :=
  subnets <- getitem_of dst_bd_tmpl_data "subnets" ;;
  subnets <- lift (Py.iter subnets) ;;
  fun st =>
    let '(d, stop) :=
      hostBasedRouting_items subnets (Dst.bdName dst)
        (deref dst_bd_site_data st) in
    (match stop with None => Normal tt | Some e => Raised e end,
     store dst_bd_site_data d st).

(** Lines 932-950: what the destination row decides for the BD. *)
Definition place_bd (dst : Dst.row) : M unit :=
  let l3outs := JList [JStr (Dst.bdL3Out1 dst); JStr (Dst.bdL3Out2 dst)] in
  let l3out_refs :=
    JList [JStr (Dst.bdL3OutRef1 dst); JStr (Dst.bdL3OutRef2 dst)] in
  setitem dst_bd_site_data "l3Outs" l3outs ;;
  setitem dst_bd_site_data "l3OutRefs" l3out_refs ;;
  setitem dst_bd_tmpl_data "name" (JStr (Dst.bdName dst)) ;;
  setitem dst_bd_tmpl_data "displayName" (JStr (Dst.bdName dst)) ;;
  setitem dst_bd_tmpl_data "vrfRef" (JStr (Dst.vrfRef dst)) ;;
  hostBasedRouting_loop dst ;;
  let dst_bd_ref := dst_bd_ref_of dst in
  setitem dst_bd_site_data "bdRef" (JStr dst_bd_ref).

Definition map_bd (dst : Dst.row) : M unit :=
  copy_src_bd ;; place_bd dst.

(** Lines 952-969.  [contract_relationships] is built and appended to,
    and not used afterwards.  [dst_epg_tmpl_data['name']] was assigned
    [dst_epgs[i]['epgName']] six lines before it is formatted. *)
Definition map_epg (dst : Dst.row) : M unit :=
  copy_from dst_epg_tmpl_data src_epg_tmpl_data ;;
  bdRef <- getitem_of dst_bd_site_data "bdRef" ;;
  setitem dst_epg_tmpl_data "bdRef" bdRef ;;
  setitem dst_epg_tmpl_data "name" (JStr (Dst.epgName dst)) ;;
  setitem dst_epg_tmpl_data "displayName" (JStr (Dst.epgName dst)) ;;
  setitem dst_epg_tmpl_data "preferredGroup" (JBool true) ;;
  let contract_relationships : list json := [] in
  let contract :=
    JDict [("contractRef", JStr (Dst.consContract dst));
           ("relationshipType", JStr "consumer")] in
  let contract_relationships := contract_relationships ++ [contract] in
  copy_from dst_epg_site_data src_epg_site_data ;;
  name <- getitem_of dst_epg_tmpl_data "name" ;;
  setitem dst_epg_site_data "epgRef"
    (JStr (dst_epg_ref_of dst (Dst.epgName dst))).

(** [deploy = deploy_ndo_template(...)], [deploy_id = deploy.json()['id']],
    [ndo_deploy_status_check(session, id=deploy_id)]: the three lines
    that follow each group of patches. *)
Definition deploy_and_check (fuel : nat) (session : option Session)
  (schm tmpl : string) : M unit :=
  deploy <- deploy_ndo_template session schm tmpl ;;
  deploy_id <- (j <- json_of deploy ;; lift (Py.getitem j "id")) ;;
  ndo_deploy_status_check fuel session deploy_id ;;
  ret tt.

(** Lines 978-987: create the new BD on the dst tenant template, configure
    it on the site, deploy, and check the deployment. *)
Definition create_dst_bd (fuel : nat) (session : option Session)
  (dst : Dst.row) (bd_ref : json) : M unit :=
  data <- gets (deref dst_bd_tmpl_data) ;;
  patch_ndo_tmpl_bds session (JDict data) bd_ref "add" ;;
  data <- gets (deref dst_bd_site_data) ;;
  patch_ndo_site_bds session (JDict data) (Dst.siteId dst) "replace" ;;
  deploy_and_check fuel session (Dst.schemaId dst) (Dst.templName dst).

(** Lines 989-992: create the new EPG on the dst tenant template and site. *)
Definition create_dst_epg (session : option Session) (dst : Dst.row)
  (epg_ref : json) : M unit :=
  data <- gets (deref dst_epg_tmpl_data) ;;
  patch_ndo_tmpl_epgs session (JDict data) epg_ref "add" ;;
  data <- gets (deref dst_epg_site_data) ;;
  patch_ndo_site_epgs session (JDict data) (Dst.siteId dst) "replace" ;;
  ret tt.

(** Lines 994-1012: remove the static ports of the src EPG and deploy the
    src template; the two references read on the way are used by the
    removal. *)
Definition detach_src_ports (fuel : nat) (session : option Session)
  (src : Src.row) : M (json * json) :=
  let src_schm_id := Src.schemaId src in
  let src_tmpl_name := Src.templName src in
  let src_site_id := Src.siteId src in
  src_bf_ref <- src_item src_bd_site_data "bdRef" ;;
  src_epg_ref <- src_item src_epg_site_data "epgRef" ;;
  let empty_ports := JList [] in
  data <- gets src_epg_site_data ;;
  patch_ndo_epg_static_ports session data src_site_id empty_ports "replace" ;;
  deploy_and_check fuel session src_schm_id src_tmpl_name ;;
  ret (src_bf_ref, src_epg_ref).

(** Lines 1014-1018: [trange(0, grace_time * 100)] turns of [sleep(0.01)]. *)
Definition grace_wait : M unit :=
  let grace_time := 2%nat in
  for_each (seq 0 (grace_time * 100)) (fun t => sleep 10).

(** Lines 1028-1038: remove the src EPG, then the src BD, from the src
    tenant template, and deploy it. *)
Definition remove_src (fuel : nat) (session : option Session)
  (src : Src.row) (src_bf_ref src_epg_ref : json) : M unit :=
  data <- gets src_epg_tmpl_data ;;
  patch_ndo_tmpl_epgs session data src_epg_ref "remove" ;;
  data <- gets src_bd_tmpl_data ;;
  patch_ndo_tmpl_bds session data src_bf_ref "remove" ;;
  deploy_and_check fuel session (Src.schemaId src) (Src.templName src).

(** Lines 1040-1043. *)
Definition confirm (i items : nat) : M unit :=
  name <- getitem_of dst_epg_tmpl_data "name" ;;
  log INFO "[%(i)s/%(t)s] %(name)s BD/EPG migration completed"
    [JInt (Z.of_nat i + 1); JInt (Z.of_nat items); name] ;;
  if (Z.of_nat i <? Z.of_nat items - 1)
  then modify (emit (Input "Please press enter to continue to the next BD/EPG: "))
  else ret tt.

(** Lines 971-1043: the remote phases of a unit, in the order of the code. *)
Definition remote_phases (fuel : nat) (session : option Session)
  (src : Src.row) (dst : Dst.row) (i items : nat) : M unit :=
  bd_ref <- getitem_of dst_bd_site_data "bdRef" ;;
  epg_ref <- getitem_of dst_epg_site_data "epgRef" ;;
  create_dst_bd fuel session dst bd_ref ;;
  create_dst_epg session dst epg_ref ;;
  refs <- detach_src_ports fuel session src ;;
  grace_wait ;;
  deploy_and_check fuel session (Dst.schemaId dst) (Dst.templName dst) ;;
  remove_src fuel session src (fst refs) (snd refs) ;;
  confirm i items.

(** [src_epgs[i]], [dst_epgs[i]]. *)
Definition row_at {A} (rows : list A) (i : nat) : M A :=
  match nth_error rows i with
  | Some r => ret r
  | None => raise IndexError
  end.

(** Lines 875-1043: the [try] block of unit [i]. *)
Definition unit_body (fuel : nat) (session : option Session)
  (src_epgs : list Src.row) (dst_epgs : list Dst.row) (items i : nat)
  : M unit :=
  src <- row_at src_epgs i ;;
  dst <- row_at dst_epgs i ;;
  resolve src ;;
  map_bd dst ;;
  map_epg dst ;;
  remote_phases fuel session src dst i items.

(** Lines 1045-1047: the handler of [IndexError]. *)
Definition skip_unit (src_epgs : list Src.row) (i : nat) : M unit :=
  src <- row_at src_epgs i ;;
  log WARNING "Source BD/EPG information for %(epg)s is not valid...skipping"
    [JStr (Src.epgName src)].

(** Lines 874-1047: one turn of the loop over the units. *)
Definition migrate_unit (fuel : nat) (session : option Session)
  (src_epgs : list Src.row) (dst_epgs : list Dst.row) (items i : nat)
  : M unit :=
  try_except
    (unit_body fuel session src_epgs dst_epgs items i)
    IndexError
    (skip_unit src_epgs i).

(** Lines 857-1050 of [main], the [--put] branch once the two lists of
    rows have been read from the workbook. *)
Definition main (fuel : nat) (src_epgs : list Src.row)
  (dst_epgs : list Dst.row) : M unit :=
  session <- get_ndo_session ;;
  ndo_schemas <- get_ndo_schemas session ;;
  ndo_schemas_json <- json_of ndo_schemas ;;
  modify (set_schemas ndo_schemas_json) ;;
  (if Nat.eqb (List.length src_epgs) (List.length dst_epgs)
   then log INFO "Length of source and destination EPG data matches" []
   else log ERROR "Source and destination EPG quantities don't match...Exiting" [] ;;
        raise SystemExit) ;;
  let items := List.length src_epgs in
  for_each (seq 0 items)
    (migrate_unit fuel session src_epgs dst_epgs items) ;;
  log INFO "All rows in the migration file have been processed!" [] ;;
  sleep 1000.

End Orchestrator.

(** ** A small fabric to run the orchestrator on

    One schema [S1] with one template holding two bridge domains (the first
    stretched with one subnet, the second with [l2Stretch] unset) and their
    EPGs, deployed on site [1]. *)

Module Fabric.

Definition bd_subnet (ip : string) : json :=
  JDict [("ip", JStr ip); ("scope", JStr "private"); ("shared", JBool false)].

Definition tmpl_bd (name : string) (l2Stretch : json) (subnets : list json)
  : json :=
  JDict
    [("name", JStr name); ("displayName", JStr name); ("uuid", JStr "u");
     ("arpFlood", JBool false); ("description", JStr "");
     ("dhcpLabels", JList []); ("intersiteBumTrafficAllow", JBool false);
     ("l2Stretch", l2Stretch); ("l2UnknownUnicast", JStr "proxy");
     ("l3MCast", JBool false); ("multiDstPktAct", JStr "bd-flood");
     ("optimizeWanBandwidth", JBool false); ("subnets", JList subnets);
     ("unicastRouting", JBool true); ("unkMcastAct", JStr "flood");
     ("v6unkMcastAct", JStr "flood");
     ("vrfRef", JStr "/schemas/S1/templates/T1/vrfs/V1")].

Definition site_bd (ref : string) (subnets : list json) : json :=
  JDict
    [("bdRef", JStr ref); ("hostBasedRouting", JBool false);
     ("l3OutRefs", JList []); ("l3Outs", JList []);
     ("mac", JStr "00:22:BD:F8:19:FF"); ("subnets", JList subnets)].

Definition tmpl_epg (name : string) (bdRef : string) : json :=
  JDict
    [("name", JStr name); ("displayName", JStr name); ("bdRef", JStr bdRef);
     ("contractRelationships", JList []); ("description", JStr "");
     ("epgType", JStr "application"); ("intraEpg", JStr "unenforced");
     ("mCastSource", JBool false); ("preferredGroup", JBool false);
     ("proxyArp", JBool false); ("selectors", JList []); ("subnets", JList []);
     ("uSegAttrs", JList []); ("uSegEpg", JBool false)].

Definition site_epg (ref : string) : json :=
  JDict
    [("domainAssociations", JList []); ("epgRef", JStr ref);
     ("selectors", JList []); ("staticLeafs", JList []);
     ("staticPorts", JList [JDict [("path", JStr "eth1/1")]]);
     ("subnets", JList []); ("uSegAttrs", JList [])].

Definition bd1 : json :=
  tmpl_bd "BD1" (JBool true) [bd_subnet "10.14.1.1/24"].
Definition bd2 : json := tmpl_bd "BD2" JNone [].
(** A site-local bridge domain: its subnet is on the site object. *)
Definition bd3 : json := tmpl_bd "BD3" (JBool false) [].
(** A stretched bridge domain with two subnets. *)
Definition bd4 : json :=
  tmpl_bd "BD4" (JBool true) [bd_subnet "10.14.4.1/24"; bd_subnet "10.20.4.1/24"].

Definition site_bd1 : json := site_bd "/schemas/S1/templates/T1/bds/BD1" [].
Definition site_bd2 : json := site_bd "/schemas/S1/templates/T1/bds/BD2" [].
Definition site_bd3 : json :=
  site_bd "/schemas/S1/templates/T1/bds/BD3" [bd_subnet "10.17.3.1/24"].
Definition site_bd4 : json := site_bd "/schemas/S1/templates/T1/bds/BD4" [].

Definition epg1 : json := tmpl_epg "EPG1" "/schemas/S1/templates/T1/bds/BD1".
Definition epg2 : json := tmpl_epg "EPG2" "/schemas/S1/templates/T1/bds/BD2".
Definition epg3 : json := tmpl_epg "EPG3" "/schemas/S1/templates/T1/bds/BD3".
Definition epg4 : json := tmpl_epg "EPG4" "/schemas/S1/templates/T1/bds/BD4".

Definition site_epg1 : json :=
  site_epg "/schemas/S1/templates/T1/anps/AP1/epgs/EPG1".
Definition site_epg2 : json :=
  site_epg "/schemas/S1/templates/T1/anps/AP1/epgs/EPG2".
Definition site_epg3 : json :=
  site_epg "/schemas/S1/templates/T1/anps/AP1/epgs/EPG3".
Definition site_epg4 : json :=
  site_epg "/schemas/S1/templates/T1/anps/AP1/epgs/EPG4".

Definition schemas : json :=
  JDict [("schemas", JList [
    JDict [("id", JStr "S1");
           ("templates", JList [
              JDict [("templateID", JStr "T1id"); ("name", JStr "T1");
                     ("bds", JList [bd1; bd2; bd3; bd4]);
                     ("anps", JList [
                        JDict [("epgs", JList [epg1; epg2; epg3; epg4])]])]]);
           ("sites", JList [
              JDict [("siteId", JStr "1"); ("templateName", JStr "T1");
                     ("bds", JList [site_bd1; site_bd2; site_bd3; site_bd4]);
                     ("anps", JList [
                        JDict [("epgs",
                          JList [site_epg1; site_epg2; site_epg3;
                                 site_epg4])]])]])]])].

(** The source row of the [n]-th BD/EPG of the template. *)
Definition src_row (schema : string) (n : Z) (epg : string) : Src.row :=
  {| Src.siteId := "1"; Src.schemaId := schema; Src.templName := "T1";
     Src.templId := "T1id"; Src.bdTemplId := n; Src.bdSiteId := n;
     Src.anpTemplId := 0; Src.anpSiteId := 0; Src.epgName := epg;
     Src.epgTemplId := n; Src.epgSiteId := n |}.

Definition dst_row (bd epg : string) : Dst.row :=
  {| Dst.siteId := "2"; Dst.schemaId := "S2"; Dst.templName := "T2";
     Dst.vrfRef := "/schemas/S2/templates/T2/vrfs/V2"; Dst.bdName := bd;
     Dst.bdL3Out1 := "L3OUT-A"; Dst.bdL3OutRef1 := "/l3outs/A";
     Dst.bdL3Out2 := "L3OUT-B"; Dst.bdL3OutRef2 := "/l3outs/B";
     Dst.anpRef := "/schemas/S2/templates/T2/anps/AP2"; Dst.epgName := epg;
     Dst.consContract := "/schemas/S2/templates/T2/contracts/C1" |}.

Definition src1 := src_row "S1" 0 "EPG1".
Definition src2 := src_row "S1" 1 "EPG2".
Definition src3 := src_row "S1" 2 "EPG3".
Definition src4 := src_row "S1" 3 "EPG4".
Definition dst1 := dst_row "WB-BD1" "EPG1-NEW".
Definition dst2 := dst_row "WB-BD2" "EPG2-NEW".
Definition dst3 := dst_row "YK-BD3" "EPG3-NEW".
Definition dst4 := dst_row "WB-BD4" "EPG4-NEW".

Definition reply (code : Z) (b : json) : Reply :=
  Replied {| status_code := code; body := b |}.

(** The body of a task: it answers a deploy ([id]) and a status poll. *)
Definition task (status : string) : json :=
  JDict [("id", JStr "task-1");
         ("operDetails",
          JDict [("taskStatus", JStr status);
                 ("execSiteStatus",
                  JList [JDict [("status",
                    JDict [("msg", JStr "vlan already in use...")])]])])].

(** An NDO that accepts everything and completes every task at once. *)
Definition healthy (n : nat) : Reply :=
  match n with
  | 1%nat => reply 200 schemas
  | _ => reply 200 (task "Complete")
  end.

(** The same NDO, except for its answer to request [k]. *)
Definition except_at (k : nat) (r : Reply) (n : nat) : Reply :=
  if Nat.eqb n k then r else healthy n.

(** An NDO whose answer to each of its first [n] requests is a task in
    progress, and to the later ones a task in [status]. *)
Definition slow (n : nat) (status : string) (k : nat) : Reply :=
  if Nat.ltb k n then reply 200 (task "InProgress") else reply 200 (task status).

(** A task in Error that reports no site. *)
Definition siteless : json :=
  JDict [("id", JStr "task-1");
         ("operDetails",
          JDict [("taskStatus", JStr "Error"); ("execSiteStatus", JList [])])].

(** The state in which the unit loop starts against this fabric. *)
Definition loaded : State := set_schemas schemas initial_state.

(** The state in which the unit loop starts once the session and the
    schemas have been obtained with the first two requests. *)
Definition bootstrapped : State := count_request (count_request loaded).

(** The state once the source objects of [src] have been looked up. *)
Definition resolved (src : Src.row) (st : State) : State :=
  snd (resolve src st).

End Fabric.

(** The requests of a trace, in order. *)
Fixpoint requests (t : list Event) : list Request :=
  match t with
  | [] => []
  | Http rq _ :: t' => rq :: requests t'
  | _ :: t' => requests t'
  end.

(** The exchanges of a trace, in order. *)
Fixpoint exchanges (t : list Event) : list (Request * Reply) :=
  match t with
  | [] => []
  | Http rq rp :: t' => (rq, rp) :: exchanges t'
  | _ :: t' => exchanges t'
  end.

(** A request that changes the NDO: a patch or a deployment task. *)
Definition mutation (rq : Request) : bool :=
  match rq with
  | PATCH_schemas _ _ | POST_task _ _ => true
  | POST_login | GET_schemas | GET_deployments _ => false
  end.

Definition is_log (lvl : Level) (e : Event) : bool :=
  match e, lvl with
  | Log DEBUG _ _, DEBUG | Log INFO _ _, INFO | Log WARNING _ _, WARNING
  | Log ERROR _ _, ERROR | Log CRITICAL _ _, CRITICAL => true
  | _, _ => false
  end.

(** The skeleton dictionaries still have the keys of lines 797-814, in
    their order: [main] only assigns to keys that exist. *)
Definition skeleton_keys (st : State) : Prop :=
  Py.keys (ndo_bd_tmpl_dict st) = Py.keys (ndo_bd_tmpl_dict initial_state) /\
  Py.keys (ndo_bd_site_dict st) = Py.keys (ndo_bd_site_dict initial_state) /\
  Py.keys (ndo_epg_tmpl_dict st) = Py.keys (ndo_epg_tmpl_dict initial_state) /\
  Py.keys (ndo_epg_site_dict st) = Py.keys (ndo_epg_site_dict initial_state).

(** [st] with [n] more requests sent and the events [t] added. *)
Definition extend (t : list Event) (n : nat) (st : State) : State :=
  {| ndo_schemas_json := ndo_schemas_json st;
     ndo_bd_tmpl_dict := ndo_bd_tmpl_dict st;
     ndo_bd_site_dict := ndo_bd_site_dict st;
     ndo_epg_tmpl_dict := ndo_epg_tmpl_dict st;
     ndo_epg_site_dict := ndo_epg_site_dict st;
     src_bd_tmpl_data := src_bd_tmpl_data st;
     src_bd_tmpl_loc := src_bd_tmpl_loc st;
     src_bd_site_data := src_bd_site_data st;
     src_epg_tmpl_data := src_epg_tmpl_data st;
     src_epg_site_data := src_epg_site_data st;
     sent := n + sent st; trace := trace st ++ t |}.

(** ** The states the pieces of a unit leave *)

(** The state [default_vmac] leaves when the source BD is a dictionary. *)
Definition with_vmac (st : State) : State :=
  match Py.getitem (src_bd_tmpl_data st) "vmac" with
  | Err KeyError =>
      mutate_src_bd_tmpl (Py.setdefault "vmac" (JStr ""))
        (emit (Log DEBUG "Src BD data does not have a vMAC configured" []) st)
  | _ => st
  end.

(** What lines 936-938 make of the template dictionary. *)
Definition placed_tmpl (dst : Dst.row) (t : dict) : dict :=
  Py.dict_set "vrfRef" (JStr (Dst.vrfRef dst))
    (Py.dict_set "displayName" (JStr (Dst.bdName dst))
       (Py.dict_set "name" (JStr (Dst.bdName dst)) t)).

(** What lines 932-935 make of the site dictionary. *)
Definition placed_l3outs (dst : Dst.row) (s : dict) : dict :=
  Py.dict_set "l3OutRefs"
    (JList [JStr (Dst.bdL3OutRef1 dst); JStr (Dst.bdL3OutRef2 dst)])
    (Py.dict_set "l3Outs"
       (JList [JStr (Dst.bdL3Out1 dst); JStr (Dst.bdL3Out2 dst)]) s).

(** A response [raise_for_status] lets through. *)
Definition good (r : Response) : bool :=
  negb ((400 <=? status_code r) && (status_code r <? 600)).

(** What a decorated call that sends [rq] returns, and the state it leaves. *)
Definition answer (remote : nat -> Reply) (rq : Request)
  (info : Response -> list Event) (st : State) : option Response * State :=
  match remote (sent st) with
  | Replied r =>
      if good r
      then (Some r,
            extend (Http rq (Replied r) :: info r ++ [debug_response r]) 1 st)
      else (None,
            extend [Http rq (Replied r); Log CRITICAL "%s" []] 1 st)
  | NoReply => (None, extend [Http rq NoReply; Log CRITICAL "%s" []] 1 st)
  end.

(** ** What a status poll observes *)

(** [response.json()['operDetails']['taskStatus']] *)
Definition taskStatus_of (r : Response) : result json :=
  details <-- Py.getitem (body r) "operDetails" ;;
  Py.getitem details "taskStatus".

(** [response.json()['operDetails']['execSiteStatus'][0]['status']['msg'][:-3]] *)
Definition first_site_msg (r : Response) : result json :=
  details <-- Py.getitem (body r) "operDetails" ;;
  sites <-- Py.getitem details "execSiteStatus" ;;
  site <-- Py.getindex sites 0 ;;
  status <-- Py.getitem site "status" ;;
  msg <-- Py.getitem status "msg" ;;
  Py.drop_last3 msg.

(** The reply is a response that passes [raise_for_status] and carries
    the task status [status]. *)
Definition observes (status : string) (rp : Reply) : bool :=
  match rp with
  | Replied r =>
      good r && match taskStatus_of r with
                | Ok s => Py.eq_str s status
                | Err _ => false
                end
  | NoReply => false
  end.

(** The reply makes the loop of [ndo_deploy_status_check] turn once more:
    a good response whose task status is neither Complete nor Error. *)
Definition pending (rp : Reply) : bool :=
  match rp with
  | Replied r =>
      good r && match taskStatus_of r with
                | Ok s => negb (Py.eq_str s "Complete") && negb (Py.eq_str s "Error")
                | Err _ => false
                end
  | NoReply => false
  end.

(** The events of one turn of the loop that goes on to its [sleep]. *)
Definition poll_events (id : json) (r : Response) (status : json) : list Event :=
  [Http (GET_deployments id) (Replied r);
   Log INFO "Deployment task ID %s status is %s" [id; status];
   Sleep 500].

(** The events of [n] turns of the loop that go on to their [sleep], the
    first of which sends request number [from]. *)
Fixpoint waiting (remote : nat -> Reply) (id : json) (from n : nat)
  : list Event :=
  match n with
  | O => []
  | S n' =>
      match remote from with
      | Replied r =>
          match taskStatus_of r with
          | Ok status => poll_events id r status ++ waiting remote id (S from) n'
          | Err _ => []
          end
      | NoReply => []
      end
  end.

(** The durations of the [sleep] calls of a trace, in milliseconds. *)
Fixpoint sleeps (t : list Event) : list Z :=
  match t with
  | [] => []
  | Sleep ms :: t' => ms :: sleeps t'
  | _ :: t' => sleeps t'
  end.

(** The skeleton dictionaries and the source variables of [st'] are those
    of [st]: no unit was mapped in between. *)
Definition same_variables (st st' : State) : Prop :=
  ndo_bd_tmpl_dict st' = ndo_bd_tmpl_dict st /\
  ndo_bd_site_dict st' = ndo_bd_site_dict st /\
  ndo_epg_tmpl_dict st' = ndo_epg_tmpl_dict st /\
  ndo_epg_site_dict st' = ndo_epg_site_dict st /\
  src_bd_tmpl_data st' = src_bd_tmpl_data st /\
  src_bd_site_data st' = src_bd_site_data st /\
  src_epg_tmpl_data st' = src_epg_tmpl_data st /\
  src_epg_site_data st' = src_epg_site_data st.

(** No event of [t] is a log at level [lvl]. *)
Definition silent (lvl : Level) (t : list Event) : bool :=
  forallb (fun e => negb (is_log lvl e)) t.

(** No request of [t] changes the NDO. *)
Definition read_only (t : list Event) : bool :=
  forallb (fun rq => negb (mutation rq)) (requests t).

(** The Map phase of a unit (lines 896-969): the BD, then the EPG. *)
Definition mapping (dst : Dst.row) : M unit :=
  map_bd dst ;; map_epg dst.

(** What lines 958-961 make of the template EPG dictionary. *)
Definition placed_epg (dst : Dst.row) (bdRef : json) (t : dict) : dict :=
  Py.dict_set "preferredGroup" (JBool true)
    (Py.dict_set "displayName" (JStr (Dst.epgName dst))
       (Py.dict_set "name" (JStr (Dst.epgName dst))
          (Py.dict_set "bdRef" bdRef t))).

(** The values of the [add] operations on template EPGs among the
    requests of a trace. *)
Definition added_epgs (t : list Event) : list json :=
  flat_map
    (fun rq =>
       match rq with
       | PATCH_schemas _ [p] =>
           match path p, value p with
           | tmpl_epgs_new _ _, Some v => [v]
           | _, _ => []
           end
       | _ => []
       end)
    (requests t).

(** The consumer relationship lines 962-964 build for a destination row. *)
Definition consumer_of (dst : Dst.row) : json :=
  JDict [("contractRef", JStr (Dst.consContract dst));
         ("relationshipType", JStr "consumer")].

(** ** The script of a unit *)

(** What a patch operation is applied to. *)
Inductive target :=
| on_tmpl_bd | on_site_bd | on_tmpl_epg | on_site_epg | on_static_ports.

Definition target_of (p : patch_path) : target :=
  match p with
  | tmpl_bds_new _ | tmpl_bds_at _ _ => on_tmpl_bd
  | site_bds_at _ _ _ => on_site_bd
  | tmpl_epgs_new _ _ | tmpl_epgs_at _ _ _ => on_tmpl_epg
  | site_epgs_at _ _ _ _ => on_site_epg
  | site_epgs_staticPorts _ _ _ _ => on_static_ports
  end.

(** [rq] is a patch made of the one operation [o], on [tg], with value [v]. *)
Definition patches (o : string) (tg : target) (v : option json) (rq : Request)
  : Prop :=
  exists schema_id p,
    rq = PATCH_schemas schema_id [p] /\
    op p = o /\ target_of (path p) = tg /\ value p = v.

(** The reply is no response, or a response [raise_for_status] rejects. *)
Definition bad (rp : Reply) : bool :=
  match rp with
  | Replied r => negb (good r)
  | NoReply => true
  end.

(** The exchange got a response that [raise_for_status] lets through. *)
Definition accepted (x : Request * Reply) : Prop :=
  exists r, snd x = Replied r /\ good r = true.

(** The polls of the deployment task the exchange [dep] started: each
    asks for the task whose [id] the reply to [dep] carries, every poll
    but the last found the task pending, and the last observed Complete. *)
Definition awaited (dep : Request * Reply) (polls : list (Request * Reply))
  : Prop :=
  exists d id front r,
    snd dep = Replied d /\
    Py.getitem (body d) "id" = Ok id /\
    polls = front ++ [(GET_deployments id, Replied r)] /\
    Forall (fun x => fst x = GET_deployments id /\ pending (snd x) = true) front /\
    observes "Complete" (Replied r) = true.

(** The names the [remove] operations of a trace are applied to. *)
Definition removed (t : list Event) : list json :=
  flat_map
    (fun rq =>
       match rq with
       | PATCH_schemas _ [p] =>
           match path p with
           | tmpl_bds_at _ name | tmpl_epgs_at _ _ name => [name]
           | _ => []
           end
       | _ => []
       end)
    (requests t).

(** ** Relations between the state before and after a computation *)

(** Every run of [m] relates the state it starts from to the state it
    leaves by [P], whatever its outcome. *)
Definition preserves {A} (P : State -> State -> Prop) (m : M A) : Prop :=
  forall st o st', m st = (o, st') -> P st st'.

(** The trace only grows. *)
Definition grows (st st' : State) : Prop :=
  exists t, trace st' = trace st ++ t.

(** Nothing was sent, and only debug messages were logged. *)
Definition quiet (st st' : State) : Prop :=
  sent st' = sent st /\
  exists t, trace st' = trace st ++ t /\
            forallb (is_log DEBUG) t = true.

(** The dictionaries that hold the destination payloads are unchanged. *)
Definition same_payloads (st st' : State) : Prop :=
  ndo_bd_tmpl_dict st' = ndo_bd_tmpl_dict st /\
  ndo_bd_site_dict st' = ndo_bd_site_dict st /\
  ndo_epg_tmpl_dict st' = ndo_epg_tmpl_dict st /\
  ndo_epg_site_dict st' = ndo_epg_site_dict st.

(** [rq] is the request [built] makes, a patch of the one operation [o],
    on [tg], with value [v]. *)
Definition sends (built : result Request) (o : string) (tg : target)
  (v : option json) (rq : Request) : Prop :=
  built = Ok rq /\ patches o tg v rq.

(** The exchanges of a unit all of whose calls were accepted, in the
    order of lines 978-1038.  The payloads are the dictionaries of [st];
    each patch is the request its function builds from the arguments of
    the call: the destination objects are added under the [bdRef] and
    [epgRef] of the destination site dictionaries, the objects removed
    are those of the [bdRef] and [epgRef] of the source site data; each
    deployment is polled under the id of its own reply. *)
Definition follows_script (src : Src.row) (dst : Dst.row) (st : State)
  (xs : list (Request * Reply)) : Prop :=
  exists bd_ref epg_ref src_bf_ref src_epg_ref
         bd_add bd_site dep1 polls1 epg_add epg_site ports dep2 polls2
         dep3 polls3 epg_rm bd_rm dep4 polls4,
    xs = [bd_add; bd_site; dep1] ++ polls1
         ++ [epg_add; epg_site; ports; dep2] ++ polls2
         ++ [dep3] ++ polls3
         ++ [epg_rm; bd_rm; dep4] ++ polls4 /\
    Py.dict_get "bdRef" (ndo_bd_site_dict st) = Some bd_ref /\
    Py.dict_get "epgRef" (ndo_epg_site_dict st) = Some epg_ref /\
    Py.getitem (src_bd_site_data st) "bdRef" = Ok src_bf_ref /\
    Py.getitem (src_epg_site_data st) "epgRef" = Ok src_epg_ref /\
    sends (tmpl_bds_request (JDict (ndo_bd_tmpl_dict st)) bd_ref "add")
      "add" on_tmpl_bd (Some (JDict (ndo_bd_tmpl_dict st))) (fst bd_add) /\
    sends (site_bds_request (JDict (ndo_bd_site_dict st)) (Dst.siteId dst) "replace")
      "replace" on_site_bd (Some (JDict (ndo_bd_site_dict st))) (fst bd_site) /\
    fst dep1 = POST_task (Dst.schemaId dst) (Dst.templName dst) /\
    awaited dep1 polls1 /\
    sends (tmpl_epgs_request (JDict (ndo_epg_tmpl_dict st)) epg_ref "add")
      "add" on_tmpl_epg (Some (JDict (ndo_epg_tmpl_dict st))) (fst epg_add) /\
    sends (site_epgs_request (JDict (ndo_epg_site_dict st)) (Dst.siteId dst) "replace")
      "replace" on_site_epg (Some (JDict (ndo_epg_site_dict st))) (fst epg_site) /\
    sends (static_ports_request (src_epg_site_data st) (Src.siteId src) (JList [])
             "replace")
      "replace" on_static_ports (Some (JList [])) (fst ports) /\
    fst dep2 = POST_task (Src.schemaId src) (Src.templName src) /\
    awaited dep2 polls2 /\
    fst dep3 = POST_task (Dst.schemaId dst) (Dst.templName dst) /\
    awaited dep3 polls3 /\
    sends (tmpl_epgs_request (src_epg_tmpl_data st) src_epg_ref "remove")
      "remove" on_tmpl_epg None (fst epg_rm) /\
    sends (tmpl_bds_request (src_bd_tmpl_data st) src_bf_ref "remove")
      "remove" on_tmpl_bd None (fst bd_rm) /\
    fst dep4 = POST_task (Src.schemaId src) (Src.templName src) /\
    awaited dep4 polls4 /\
    Forall accepted
      [bd_add; bd_site; dep1; epg_add; epg_site; ports; dep2; dep3;
       epg_rm; bd_rm; dep4].

(** ** References and their components *)

(** The number of ["/"] in a string. *)
Fixpoint slashes (s : string) : nat :=
  match s with
  | EmptyString => 0%nat
  | String a s' => ((if Ascii.eqb a "/"%char then 1 else 0) + slashes s')%nat
  end.

(** ** A fabric whose first bridge domain has no [l2Stretch] key *)

Definition bare_bd : json :=
  JDict [("name", JStr "BD1"); ("displayName", JStr "BD1");
         ("subnets", JList [])].

Definition bare_schemas : json :=
  json_alter (fun _ => bare_bd)
    [SKey "schemas"; SIdx 0; SKey "templates"; SIdx 0; SKey "bds"; SIdx 0]
    Fabric.schemas.

Definition bare_ndo (n : nat) : Reply :=
  match n with
  | 1%nat => Fabric.reply 200 bare_schemas
  | _ => Fabric.healthy n
  end.

(** Two dictionaries with the same keys, and the same values under the
    keys of [seen]. *)
Definition agree_on (seen : list string) (d1 d2 : dict) : Prop :=
  Forall2 (fun a b => fst a = fst b /\ (In (fst a) seen -> snd a = snd b)) d1 d2.

(** The skeleton dictionaries have the keys of lines 797-814 afterwards if
    they had them before. *)
Definition keeps_skeleton (st st' : State) : Prop :=
  skeleton_keys st -> skeleton_keys st'.

(** ** The export of the [--get] branch

    The functions that turn the JSON documents of the NDO into the rows of
    the workbook (lines 320-740) and the function that writes rows to a
    sheet (lines 299-317).  They run in the monad of the script:
    they log, and they raise. *)

Module Builtin.

(** [bool(j)]. *)
Definition truthy (j : json) : bool :=
  match j with
  | JNone => false
  | JBool b => b
  | JInt n => negb (n =? 0)
  | JStr s => negb (String.eqb s "")
  | JList l => match l with [] => false | _ => true end
  | JDict d => match d with [] => false | _ => true end
  end.

(** [a or b]. *)
Definition or_ (a b : json) : json := if truthy a then a else b.

(** [len(j)]. *)
Definition len (j : json) : result nat :=
  match j with
  | JList l => Ok (List.length l)
  | JStr s => Ok (String.length s)
  | JDict d => Ok (List.length d)
  | _ => Err TypeError
  end.

(** [{**d1, **d2}]. *)
Definition merge (d1 d2 : dict) : dict :=
  fold_left (fun d kv => Py.dict_set (fst kv) (snd kv) d) d2 d1.

End Builtin.

(** [for a in l: ...] with the variables the body assigns, [acc]. *)
Fixpoint for_acc {A B} (l : list A) (acc : B) (body : B -> A -> M B) : M B :=
  match l with
  | [] => ret acc
  | a :: l' => acc' <- body acc a ;; for_acc l' acc' body
  end.

(** [j[k]] *)
Definition item (j : json) (k : string) : M json := lift (Py.getitem j k).

(** The elements [for x in j[k]] visits. *)
Definition elements (j : json) (k : string) : M (list json) :=
  lift (rbind (Py.getitem j k) Py.iter).

(** [for n, x in enumerate(j)]. *)
Definition enumerated (j : json) : M (list (nat * json)) :=
  l <- lift (Py.iter j) ;; ret (enumerate l).

Definition num (n : nat) : json := JInt (Z.of_nat n).

Definition none : json := JStr "None".

(** Lines 320-338. *)
Definition normalize_sites_data (sites_data : json) : M (list dict) :=
  let data := [] in
  sites <- elements sites_data "sites" ;;
  for_acc sites data (fun data site =>
    let commonId := none in
    id <- item site "id" ;;
    let siteId := Builtin.or_ id none in
    common <- item site "common" ;;
    name <- item common "name" ;;
    let commonName := Builtin.or_ name none in
    common <- item site "common" ;;
    displayName <- item common "displayName" ;;
    let commonDisplayName := Builtin.or_ displayName none in
    commonId <-
      try_except
        (common <- item site "common" ;;
         siteId <- item common "siteId" ;;
         ret (Builtin.or_ siteId none))
        KeyError
        (log DEBUG "Site %(name)s noes not have %(key)s, return None"
           [commonName] ;;
         ret commonId) ;;
    log DEBUG "Site Data: Name %(name)s, Id %(id)s, No %(site)s"
      [commonName; commonId; siteId] ;;
    let data :=
      data ++ [[("Site Name", commonName);
                ("Site Display Name", commonDisplayName);
                ("Site ID", siteId); ("Site Number", commonId)]] in
    log INFO "Normalized %s site data" [commonName] ;;
    ret data).

(** Lines 341-354. *)
Definition normalize_tenants_data (tenants_data : json) : M (list dict) :=
  let data := [] in
  tenants <- elements tenants_data "tenants" ;;
  for_acc tenants data (fun data tenant =>
    id <- item tenant "id" ;;
    let tnId := Builtin.or_ id none in
    name <- item tenant "name" ;;
    let tnName := Builtin.or_ name none in
    displayName <- item tenant "displayName" ;;
    let tnDisplayName := Builtin.or_ displayName none in
    associations <- elements tenant "siteAssociations" ;;
    data <- for_acc associations data (fun data association =>
      siteAssociation <- item association "siteId" ;;
      ret (data ++ [[("Tenant Name", tnName);
                     ("Tenant Display Name", tnDisplayName);
                     ("Tenand ID", tnId);
                     ("Site Association", siteAssociation)]])) ;;
    log INFO "Normalized %s tenant data" [tnDisplayName] ;;
    ret data).

(** Lines 357-380. *)
Definition normalize_schema_template_data (schemas_data : json)
  : M (list dict) :=
  let data := [] in
  schemas <- elements schemas_data "schemas" ;;
  for_acc schemas data (fun data schema =>
    schmDisplayName <- item schema "displayName" ;;
    schmId <- item schema "id" ;;
    schmVersion <- item schema "_updateVersion" ;;
    templates <- (t <- item schema "templates" ;; enumerated t) ;;
    data <- for_acc templates data (fun data '(tmplNum, template) =>
      tmplName <- item template "name" ;;
      tmplDisplayName <- item template "displayName" ;;
      tmplID <- item template "templateID" ;;
      tmplVersion <- item template "version" ;;
      tmplTnId <- item template "tenantId" ;;
      tmplType <- item template "templateType" ;;
      let data :=
        data ++ [[("Schema Display Name", schmDisplayName);
                  ("Schema ID", schmId); ("Schema Version", schmVersion);
                  ("Template Name", tmplName);
                  ("Template Display Name", tmplDisplayName);
                  ("Template Number", num tmplNum);
                  ("Template ID", tmplID); ("Template Type", tmplType);
                  ("Template Version", tmplVersion);
                  ("Associated Tenant ID", tmplTnId)]] in
      log DEBUG "Normalized %(schm)s schema %(tmpl)s template data"
        [schmDisplayName; tmplDisplayName] ;;
      ret data) ;;
    log INFO "Normalized %(schm)s schema template data" [schmDisplayName] ;;
    ret data).

(** Lines 383-403. *)
Definition normalize_schema_site_data (schemas_data : json) : M (list dict) :=
  let data := [] in
  schemas <- elements schemas_data "schemas" ;;
  for_acc schemas data (fun data schema =>
    schmDisplayName <- item schema "displayName" ;;
    schmId <- item schema "id" ;;
    schmVersion <- item schema "_updateVersion" ;;
    sites <- elements schema "sites" ;;
    data <- for_acc sites data (fun data site =>
      let '(siteId, siteTmplName, siteTmplID) := (none, none, none) in
      n <- lift (Builtin.len site) ;;
      vars <-
        (if (1 <=? n)%nat then
           siteId <- item site "siteId" ;;
           siteTmplName <- item site "templateName" ;;
           siteTmplID <- item site "templateID" ;;
           ret (siteId, siteTmplName, siteTmplID)
         else
           n <- lift (Builtin.len site) ;;
           if (n =? 0)%nat then
             log WARNING "Schema %s is not associated to any site yet"
               [schmDisplayName] ;;
             ret (siteId, siteTmplName, siteTmplID)
           else ret (siteId, siteTmplName, siteTmplID)) ;;
      let '(siteId, siteTmplName, siteTmplID) := vars in
      let data :=
        data ++ [[("Schema Display Name", schmDisplayName);
                  ("Schema ID", schmId); ("Schema Version", schmVersion);
                  ("Site ID", siteId); ("Site Template Name", siteTmplName);
                  ("Site Template ID", siteTmplID)]] in
      log DEBUG "Normalized %(schm)s schema %(site)s site data"
        [schmDisplayName; siteId] ;;
      ret data) ;;
    log INFO "Normalized %(schm)s schema site data" [schmDisplayName] ;;
    ret data).

(** Lines 406-441. *)
Definition normalize_vrf_template_data (schemas_data : json) : M (list dict) :=
  let data := [] in
  schemas <- elements schemas_data "schemas" ;;
  for_acc schemas data (fun data schema =>
    schmId <- item schema "id" ;;
    schmDisplayName <- item schema "displayName" ;;
    let dict1 := [("Schema ID", schmId)] in
    templates <- (t <- item schema "templates" ;; enumerated t) ;;
    for_acc templates data (fun data '(tmplNum, template) =>
      tmplName <- item template "name" ;;
      tmplID <- item template "templateID" ;;
      tmplTnId <- item template "tenantId" ;;
      let dict2 := [("Template ID", tmplID); ("Tenant ID", tmplTnId)] in
      log DEBUG "%s" [JDict (Builtin.merge dict1 dict2)] ;;
      vrfs <- item template "vrfs" ;;
      numbered <- enumerated vrfs ;;
      for_acc numbered data (fun data '(vrfNum, vrf) =>
        let '(vrfName, vrfDisplayName, vrfUUID, vrfRef) :=
          (none, none, none, none) in
        n <- lift (Builtin.len vrfs) ;;
        vars <-
          (if (1 <=? n)%nat then
             vrfName <- item vrf "name" ;;
             vrfDisplayName <- item vrf "displayName" ;;
             vrfUUID <- item vrf "uuid" ;;
             vrfRef <- item vrf "vrfRef" ;;
             let dict3 :=
               [("VRF Name", vrfName); ("VRF Display Name", vrfDisplayName);
                ("VRF Number", num vrfNum); ("VRF UUID", vrfUUID);
                ("VRF Reference", vrfRef)] in
             log DEBUG "%s" [JDict dict3] ;;
             ret (vrfName, dict3)
           else
             n <- lift (Builtin.len vrfs) ;;
             if (n =? 0)%nat then
               let vrfNum := none in
               log WARNING "/%(schm)s/%(tmpl)s template does not have any VRF created"
                 [schmDisplayName; tmplName] ;;
               let dict3 :=
                 [("VRF Name", vrfName); ("VRF Display Name", vrfDisplayName);
                  ("VRF Number", vrfNum); ("VRF UUID", vrfUUID);
                  ("VRF Reference", vrfRef)] in
               log DEBUG "%s" [JDict dict3] ;;
               ret (vrfName, dict3)
             else
               (* [dict3] is still the string "None": [**dict3] *)
               raise TypeError) ;;
        let '(vrfName, dict3) := vars in
        let vrf_dict := Builtin.merge (Builtin.merge dict1 dict2) dict3 in
        let data := data ++ [vrf_dict] in
        log INFO "Normalized /%(schm)s/%(tmpl)s/%(vrf)s VRF template data"
          [schmDisplayName; tmplName; vrfName] ;;
        ret data))).

(** Lines 444-476. *)
Definition normalize_vrf_site_data (schemas_data : json) : M (list dict) :=
  let data := [] in
  schemas <- elements schemas_data "schemas" ;;
  for_acc schemas data (fun data schema =>
    schmId <- item schema "id" ;;
    schmDisplayName <- item schema "displayName" ;;
    let dict1 := [("Schema ID", schmId)] in
    sites <- item schema "sites" ;;
    n <- lift (Builtin.len sites) ;;
    if (1 <=? n)%nat then
      sites <- (s <- item schema "sites" ;; enumerated s) ;;
      for_acc sites data (fun data '(siteNum, site) =>
        siteId <- item site "siteId" ;;
        siteTmplName <- item site "templateName" ;;
        siteTmplID <- item site "templateID" ;;
        let dict2 := [("Site ID", siteId); ("Site Template ID", siteTmplID)] in
        log DEBUG "%s" [JDict (Builtin.merge dict1 dict2)] ;;
        vrfs <- item site "vrfs" ;;
        numbered <- enumerated vrfs ;;
        for_acc numbered data (fun data '(vrfNum, vrf) =>
          let vrfRef := none in
          n <- lift (Builtin.len vrfs) ;;
          vars <-
            (if (1 <=? n)%nat then
               vrfRef <- item vrf "vrfRef" ;;
               ret (num vrfNum, vrfRef)
             else
               n <- lift (Builtin.len vrfs) ;;
               if (n =? 0)%nat then
                 let vrfNum := none in
                 log WARNING
                   "/%(schm)s/%(tmpl)s template does not have any VRF at the site (%(site)s) level"
                   [schmDisplayName; siteTmplName; siteId] ;;
                 ret (vrfNum, vrfRef)
               else ret (num vrfNum, vrfRef)) ;;
          let '(vrfNum, vrfRef) := vars in
          let dict3 := [("VRF Number", vrfNum); ("VRF Reference", vrfRef)] in
          log DEBUG "%s" [JDict dict3] ;;
          let vrf_dict := Builtin.merge (Builtin.merge dict1 dict2) dict3 in
          let data := data ++ [vrf_dict] in
          log INFO "Normalized /%(schm)s/%(tmpl)s/%(vrf)s VRF site data"
            [schmDisplayName; siteTmplName; vrfRef] ;;
          ret data))
    else
      sites <- item schema "sites" ;;
      n <- lift (Builtin.len sites) ;;
      if (n =? 0)%nat then
        log WARNING "%s schema is not currently associated to any site"
          [schmDisplayName] ;;
        ret data
      else ret data).

(** [True] for a non-empty [subnets], [False] otherwise (lines 501-505). *)
Definition has_subnets (subnets : json) : json :=
  if Builtin.truthy subnets then JBool true
  else if negb (Builtin.truthy subnets) then JBool false
  else none.

(** Lines 479-520. *)
Definition normalize_bd_template_data (schemas_data : json) : M (list dict) :=
  let data := [] in
  schemas <- elements schemas_data "schemas" ;;
  for_acc schemas data (fun data schema =>
    schmId <- item schema "id" ;;
    schmDisplayName <- item schema "displayName" ;;
    let dict1 := [("Schema ID", schmId)] in
    templates <- (t <- item schema "templates" ;; enumerated t) ;;
    for_acc templates data (fun data '(tmplNum, template) =>
      tmplName <- item template "name" ;;
      tmplID <- item template "templateID" ;;
      tmplTnId <- item template "tenantId" ;;
      let dict2 := [("Template ID", tmplID); ("Tenant ID", tmplTnId)] in
      log DEBUG "%s" [JDict (Builtin.merge dict1 dict2)] ;;
      bds <- item template "bds" ;;
      numbered <- enumerated bds ;;
      for_acc numbered data (fun data '(bdNum, bd) =>
        let dict3 := none in
        n <- lift (Builtin.len bds) ;;
        vars <-
          (if (1 <=? n)%nat then
             bdName <- item bd "name" ;;
             bdDisplayName <- item bd "displayName" ;;
             bdUUID <- item bd "uuid" ;;
             bdRef <- item bd "bdRef" ;;
             bdL2Stretch <- item bd "l2Stretch" ;;
             subnets <- item bd "subnets" ;;
             let bdSubnets := has_subnets subnets in
             bdVrfRef <- item bd "vrfRef" ;;
             log DEBUG "%s" [dict3] ;;
             ret (bdName, bdDisplayName, num bdNum, bdUUID, bdRef, bdL2Stretch,
                  bdSubnets, bdVrfRef)
           else
             n <- lift (Builtin.len bds) ;;
             if (n =? 0)%nat then
               log WARNING "/%(schm)s/%(tmpl)s template does not have any BD created"
                 [schmDisplayName; tmplName] ;;
               ret (none, none, none, none, none, none, none, none)
             else
               ret (none, none, num bdNum, none, none, none, none, none)) ;;
        let '(bdName, bdDisplayName, bdNum, bdUUID, bdRef, bdL2Stretch,
              bdSubnets, bdVrfRef) := vars in
        let dict3 :=
          [("BD Name", bdName); ("BD Display Name", bdDisplayName);
           ("BD Number", bdNum); ("BD UUID", bdUUID); ("BD Reference", bdRef);
           ("L2 Stretch", bdL2Stretch); ("BD Template Subnets", bdSubnets);
           ("BD VRF Reference", bdVrfRef)] in
        log DEBUG "%s" [JDict dict3] ;;
        let bd_dict := Builtin.merge (Builtin.merge dict1 dict2) dict3 in
        let data := data ++ [bd_dict] in
        log INFO "Normalized /%(schm)s/%(tmpl)s/%(bd)s BD template data"
          [schmDisplayName; tmplName; bdName] ;;
        ret data))).

(** Lines 523-560. *)
Definition normalize_bd_site_data (schemas_data : json) : M (list dict) :=
  let data := [] in
  schemas <- elements schemas_data "schemas" ;;
  for_acc schemas data (fun data schema =>
    schmId <- item schema "id" ;;
    schmDisplayName <- item schema "displayName" ;;
    let dict1 := [("Schema ID", schmId)] in
    sites <- item schema "sites" ;;
    n <- lift (Builtin.len sites) ;;
    if (1 <=? n)%nat then
      sites <- (s <- item schema "sites" ;; enumerated s) ;;
      for_acc sites data (fun data '(siteNum, site) =>
        siteId <- item site "siteId" ;;
        siteTmplName <- item site "templateName" ;;
        siteTmplID <- item site "templateID" ;;
        let dict2 := [("Site ID", siteId); ("Site Template ID", siteTmplID)] in
        log DEBUG "%s" [JDict (Builtin.merge dict1 dict2)] ;;
        bds <- item site "bds" ;;
        numbered <- enumerated bds ;;
        for_acc numbered data (fun data '(bdNum, bd) =>
          n <- lift (Builtin.len bds) ;;
          vars <-
            (if (1 <=? n)%nat then
               bdRef <- item bd "bdRef" ;;
               subnets <- item bd "subnets" ;;
               ret (num bdNum, bdRef, has_subnets subnets)
             else
               n <- lift (Builtin.len bds) ;;
               if (n =? 0)%nat then
                 log WARNING
                   "/%(schm)s/%(tmpl)s template does not have any BD at the site (%(site)s) level"
                   [schmDisplayName; siteTmplName; siteId] ;;
                 ret (none, none, none)
               else ret (num bdNum, none, none)) ;;
          let '(bdNum, bdRef, bdSubnets) := vars in
          let dict3 :=
            [("BD Number", bdNum); ("BD Reference", bdRef);
             ("BD Site Subnets", bdSubnets)] in
          log DEBUG "%s" [JDict dict3] ;;
          let bd_dict := Builtin.merge (Builtin.merge dict1 dict2) dict3 in
          let data := data ++ [bd_dict] in
          log INFO "Normalized /%(schm)s/%(tmpl)s/%(bd)s BD site data"
            [schmDisplayName; siteTmplName; bdRef] ;;
          ret data))
    else
      sites <- item schema "sites" ;;
      n <- lift (Builtin.len sites) ;;
      if (n =? 0)%nat then
        log WARNING "%s schema is not currently associated to any site"
          [schmDisplayName] ;;
        ret data
      else ret data).

(** Lines 563-619.  The five EPG variables are assigned once per
    application profile and live across the turns of the loop over its
    EPGs. *)
Definition normalize_epg_template_data (schemas_data : json) : M (list dict) :=
  let data := [] in
  schemas <- elements schemas_data "schemas" ;;
  for_acc schemas data (fun data schema =>
    schmId <- item schema "id" ;;
    schmDisplayName <- item schema "displayName" ;;
    let dict1 := [("Schema ID", schmId)] in
    templates <- (t <- item schema "templates" ;; enumerated t) ;;
    for_acc templates data (fun data '(tmplNum, template) =>
      tmplName <- item template "name" ;;
      tmplID <- item template "templateID" ;;
      tmplTnId <- item template "tenantId" ;;
      let dict2 := [("Template ID", tmplID); ("Tenant ID", tmplTnId)] in
      log DEBUG "%s" [JDict (Builtin.merge dict1 dict2)] ;;
      anps <- item template "anps" ;;
      numbered <- enumerated anps ;;
      for_acc numbered data (fun data '(anpNum, anp) =>
        let '(anpName, anpDisplayName, anpUUID, anpRef) :=
          (none, none, none, none) in
        let epg_vars := (none, none, none, none, none) in
        n <- lift (Builtin.len anps) ;;
        r <-
          (if (1 <=? n)%nat then
             anpName <- item anp "name" ;;
             anpDisplayName <- item anp "displayName" ;;
             anpUUID <- item anp "uuid" ;;
             anpRef <- item anp "anpRef" ;;
             let dict3 :=
               [("ANP Name", anpName); ("ANP Display Name", anpDisplayName);
                ("ANP Number", num anpNum); ("ANP UUID", anpUUID);
                ("ANP Reference", anpRef)] in
             log DEBUG "%s" [JDict dict3] ;;
             epgs <- item anp "epgs" ;;
             numbered <- enumerated epgs ;;
             r <- for_acc numbered (data, epg_vars)
               (fun '(data, epg_vars) '(epgNum, epg) =>
                  n <- lift (Builtin.len epgs) ;;
                  vars <-
                    (if (1 <=? n)%nat then
                       epgName <- item epg "name" ;;
                       epgDisplayName <- item epg "displayName" ;;
                       epgUUID <- item epg "uuid" ;;
                       epgRef <- item epg "epgRef" ;;
                       epgBdRef <- item epg "bdRef" ;;
                       ret (num epgNum,
                            (epgName, epgDisplayName, epgUUID, epgRef, epgBdRef))
                     else
                       n <- lift (Builtin.len epgs) ;;
                       if (n =? 0)%nat then
                         log WARNING
                           "Application Profile %(anp)s does not have any EPGs created"
                           [anpName] ;;
                         ret (none, epg_vars)
                       else ret (num epgNum, epg_vars)) ;;
                  let '(epgNum, epg_vars) := vars in
                  let '(epgName, epgDisplayName, epgUUID, epgRef, epgBdRef) :=
                    epg_vars in
                  let dict4 :=
                    [("EPG Name", epgName); ("EPG Display Name", epgDisplayName);
                     ("EPG Number", epgNum); ("EPG UUID", epgUUID);
                     ("EPG Reference", epgRef); ("EPG BD Reference", epgBdRef)] in
                  log DEBUG "%s" [JDict dict4] ;;
                  let epg_dict :=
                    Builtin.merge
                      (Builtin.merge (Builtin.merge dict1 dict2) dict3) dict4 in
                  ret (data ++ [epg_dict], epg_vars)) ;;
             ret (fst r, anpDisplayName)
           else
             n <- lift (Builtin.len anps) ;;
             if (n =? 0)%nat then
               let '(anpNum, epgNum) := (none, none) in
               log WARNING
                 "/%(schm)s/%(tmpl)s template does not have any Application Profiles created"
                 [schmDisplayName; tmplName] ;;
               let dict3 :=
                 [("ANP Name", anpName); ("ANP Display Name", anpDisplayName);
                  ("ANP Number", anpNum); ("ANP UUID", anpUUID);
                  ("ANP Reference", anpRef)] in
               let dict4 :=
                 [("EPG Name", none); ("EPG Display Name", none);
                  ("EPG Number", epgNum); ("EPG UUID", none);
                  ("EPG Reference", none); ("EPG BD Reference", none)] in
               log DEBUG "%s" [JDict dict3] ;;
               log DEBUG "%s" [JDict dict4] ;;
               let epg_dict :=
                 Builtin.merge
                   (Builtin.merge (Builtin.merge dict1 dict2) dict3) dict4 in
               ret (data ++ [epg_dict], anpDisplayName)
             else ret (data, anpDisplayName)) ;;
        let '(data, anpDisplayName) := r in
        log INFO "Normalized /%(schm)s/%(tmpl)s/%(anp)s app profile template data"
          [schmDisplayName; tmplName; anpDisplayName] ;;
        ret data))).

(** Lines 622-669.  [anpRef] and [epgRef] are assigned once per schema
    and live across the loops over its sites, their application profiles
    and their EPGs.  The function has no variable [anpName]: the warning
    of line 646 raises [NameError]. *)
Definition normalize_epg_site_data (schemas_data : json) : M (list dict) :=
  let data := [] in
  schemas <- elements schemas_data "schemas" ;;
  for_acc schemas data (fun data schema =>
    let '(anpRef, epgRef, siteId) := (none, none, none) in
    schmId <- item schema "id" ;;
    schmDisplayName <- item schema "displayName" ;;
    let dict1 := [("Schema ID", schmId)] in
    sites <- item schema "sites" ;;
    n <- lift (Builtin.len sites) ;;
    if (1 <=? n)%nat then
      sites <- (s <- item schema "sites" ;; enumerated s) ;;
      r <- for_acc sites (data, (anpRef, epgRef))
        (fun '(data, (anpRef, epgRef)) '(siteNum, site) =>
           siteId <- item site "siteId" ;;
           siteTmplName <- item site "templateName" ;;
           siteTmplID <- item site "templateID" ;;
           let dict2 :=
             [("Site ID", siteId); ("Site Template ID", siteTmplID)] in
           log DEBUG "%s" [JDict (Builtin.merge dict1 dict2)] ;;
           anps <- item site "anps" ;;
           numbered <- enumerated anps ;;
           for_acc numbered (data, (anpRef, epgRef))
             (fun '(data, (anpRef, epgRef)) '(anpNum, anp) =>
                n <- lift (Builtin.len anps) ;;
                r <-
                  (if (1 <=? n)%nat then
                     anpRef <- item anp "anpRef" ;;
                     let dict3 :=
                       [("ANP Number", num anpNum); ("ANP Reference", anpRef)] in
                     epgs <- item anp "epgs" ;;
                     numbered <- enumerated epgs ;;
                     r <- for_acc numbered (data, epgRef)
                       (fun '(data, epgRef) '(epgNum, epg) =>
                          n <- lift (Builtin.len epgs) ;;
                          vars <-
                            (if (1 <=? n)%nat then
                               epgRef <- item epg "epgRef" ;;
                               ret (num epgNum, epgRef)
                             else
                               n <- lift (Builtin.len epgs) ;;
                               if (n =? 0)%nat then
                                 (* [anp=anpName] *)
                                 raise NameError
                               else ret (num epgNum, epgRef)) ;;
                          let '(epgNum, epgRef) := vars in
                          let dict4 :=
                            [("EPG Number", epgNum); ("EPG Reference", epgRef)] in
                          log DEBUG "%s" [JDict (Builtin.merge dict3 dict4)] ;;
                          let epg_dict :=
                            Builtin.merge
                              (Builtin.merge (Builtin.merge dict1 dict2) dict3)
                              dict4 in
                          ret (data ++ [epg_dict], epgRef)) ;;
                     ret (fst r, (anpRef, snd r))
                   else
                     n <- lift (Builtin.len anps) ;;
                     if (n =? 0)%nat then
                       let '(anpNum, epgNum) := (none, none) in
                       log WARNING
                         "/%(schm)s/%(tmpl)s template does not have any app profile at the site (%(site)s) level"
                         [schmDisplayName; siteTmplName; siteId] ;;
                       let dict3 :=
                         [("ANP Number", anpNum); ("ANP Reference", anpRef)] in
                       let dict4 :=
                         [("EPG Number", epgNum); ("EPG Reference", epgRef)] in
                       log DEBUG "%s" [JDict (Builtin.merge dict3 dict4)] ;;
                       let epg_dict :=
                         Builtin.merge
                           (Builtin.merge (Builtin.merge dict1 dict2) dict3)
                           dict4 in
                       ret (data ++ [epg_dict], (anpRef, epgRef))
                     else ret (data, (anpRef, epgRef))) ;;
                let '(data, (anpRef, epgRef)) := r in
                log INFO
                  "Normalized /%(schm)s/%(tmpl)s/%(anp)s app profile site data"
                  [schmDisplayName; siteTmplName; anpRef] ;;
                ret (data, (anpRef, epgRef)))) ;;
      ret (fst r)
    else
      sites <- item schema "sites" ;;
      n <- lift (Builtin.len sites) ;;
      if (n =? 0)%nat then
        log WARNING "%s schema is not currently associated to any site"
          [schmDisplayName] ;;
        ret data
      else ret data).

(** Lines 672-705. *)
Definition normalize_contract_template_data (schemas_data : json)
  : M (list dict) :=
  let data := [] in
  schemas <- elements schemas_data "schemas" ;;
  for_acc schemas data (fun data schema =>
    schmId <- item schema "id" ;;
    schmDisplayName <- item schema "displayName" ;;
    let dict1 := [("Schema ID", schmId)] in
    templates <- (t <- item schema "templates" ;; enumerated t) ;;
    for_acc templates data (fun data '(tmplNum, template) =>
      tmplName <- item template "name" ;;
      tmplID <- item template "templateID" ;;
      tmplTnId <- item template "tenantId" ;;
      let dict2 := [("Template ID", tmplID); ("Tenant ID", tmplTnId)] in
      log DEBUG "%s" [JDict (Builtin.merge dict1 dict2)] ;;
      contracts <- item template "contracts" ;;
      numbered <- enumerated contracts ;;
      for_acc numbered data (fun data '(cntrNum, cntr) =>
        let dict3 := none in
        n <- lift (Builtin.len contracts) ;;
        vars <-
          (if (1 <=? n)%nat then
             cntrName <- item cntr "name" ;;
             cntrDisplayName <- item cntr "displayName" ;;
             cntrUUID <- item cntr "uuid" ;;
             cntrRef <- item cntr "contractRef" ;;
             log DEBUG "%s" [dict3] ;;
             ret (cntrName, cntrDisplayName, num cntrNum, cntrUUID, cntrRef)
           else
             n <- lift (Builtin.len contracts) ;;
             if (n =? 0)%nat then
               log WARNING
                 "/%(schm)s/%(tmpl)s template does not have any contract created"
                 [schmDisplayName; tmplName] ;;
               ret (none, none, none, none, none)
             else ret (none, none, num cntrNum, none, none)) ;;
        let '(cntrName, cntrDisplayName, cntrNum, cntrUUID, cntrRef) := vars in
        let dict3 :=
          [("Contract Name", cntrName);
           ("Contract Display Name", cntrDisplayName);
           ("ContractContract Number", cntrNum);
           ("Contract UUID", cntrUUID); ("Contract Reference", cntrRef)] in
        log DEBUG "%s" [JDict dict3] ;;
        let cntr_dict := Builtin.merge (Builtin.merge dict1 dict2) dict3 in
        let data := data ++ [cntr_dict] in
        log INFO "Normalized /%(schm)s/%(tmpl)s/%(cntr)s contract template data"
          [schmDisplayName; tmplName; cntrName] ;;
        ret data))).

(** Lines 708-740. *)
Definition normalize_contract_site_data (schemas_data : json) : M (list dict) :=
  let data := [] in
  schemas <- elements schemas_data "schemas" ;;
  for_acc schemas data (fun data schema =>
    schmId <- item schema "id" ;;
    schmDisplayName <- item schema "displayName" ;;
    let dict1 := [("Schema ID", schmId)] in
    sites <- item schema "sites" ;;
    n <- lift (Builtin.len sites) ;;
    if (1 <=? n)%nat then
      sites <- (s <- item schema "sites" ;; enumerated s) ;;
      for_acc sites data (fun data '(siteNum, site) =>
        siteId <- item site "siteId" ;;
        siteTmplName <- item site "templateName" ;;
        siteTmplID <- item site "templateID" ;;
        let dict2 := [("Site ID", siteId); ("Site Template ID", siteTmplID)] in
        log DEBUG "%s" [JDict (Builtin.merge dict1 dict2)] ;;
        contracts <- item site "contracts" ;;
        numbered <- enumerated contracts ;;
        for_acc numbered data (fun data '(cntrNum, cntr) =>
          let cntrRef := none in
          n <- lift (Builtin.len contracts) ;;
          vars <-
            (if (1 <=? n)%nat then
               cntrRef <- item cntr "contractRef" ;;
               ret (num cntrNum, cntrRef)
             else
               n <- lift (Builtin.len contracts) ;;
               if (n =? 0)%nat then
                 log WARNING
                   "/%(schm)s/%(tmpl)s template does not have contracts at the site (%(site)s) level"
                   [schmDisplayName; siteTmplName; siteId] ;;
                 ret (none, cntrRef)
               else ret (num cntrNum, cntrRef)) ;;
          let '(cntrNum, cntrRef) := vars in
          let dict3 :=
            [("Contract Number", cntrNum); ("Contract Reference", cntrRef)] in
          log DEBUG "%s" [JDict dict3] ;;
          let cntr_dict := Builtin.merge (Builtin.merge dict1 dict2) dict3 in
          let data := data ++ [cntr_dict] in
          log INFO "Normalized /%(schm)s/%(tmpl)s/%(cntr)s contract site data"
            [schmDisplayName; siteTmplName; cntrRef] ;;
          ret data))
    else
      sites <- item schema "sites" ;;
      n <- lift (Builtin.len sites) ;;
      if (n =? 0)%nat then
        log WARNING "%s schema is not currently associated to any site"
          [schmDisplayName] ;;
        ret data
      else ret data).

(** *** Writing rows to a sheet (lines 299-317) *)

(** A worksheet: the value of the cell at a row and a column. *)
Definition sheet := Z -> Z -> option json.

(** A workbook: its sheets, by name. *)
Definition workbook := list (string * sheet).

Definition set_cell (r c : Z) (v : json) (s : sheet) : sheet :=
  fun r' c' => if (r' =? r) && (c' =? c) then Some v else s r' c'.

(** A value a cell can hold: a list or a dictionary cannot be converted. *)
Definition storable (v : json) : bool :=
  match v with
  | JList _ | JDict _ => false
  | _ => true
  end.

(** [sheet.cell(row=r, column=c).value = v]: rows and columns are counted
    from 1. *)
Definition cell_assign (r c : Z) (v : json) (s : sheet) : result sheet :=
  if (r <? 1) || (c <? 1) then Err ValueError
  else if storable v then Ok (set_cell r c v s)
  else Err ValueError.

(** [workbook[sheetname]]. *)
Fixpoint worksheet (name : string) (w : workbook) : result sheet :=
  match w with
  | [] => Err KeyError
  | (n, s) :: w' => if String.eqb n name then Ok s else worksheet name w'
  end.

(** The workbook with the cells of one of its sheets changed. *)
Fixpoint with_sheet (name : string) (s : sheet) (w : workbook) : workbook :=
  match w with
  | [] => []
  | (n, s') :: w' =>
      if String.eqb n name then (n, s) :: w' else (n, s') :: with_sheet name s w'
  end.

(** [enumerate(l, start=start)]. *)
Fixpoint enumerate_from {A} (start : Z) (l : list A) : list (Z * A) :=
  match l with
  | [] => []
  | a :: l' => (start, a) :: enumerate_from (start + 1) l'
  end.

(** Lines 309-310: the header. *)
Fixpoint write_header (columns : list (Z * string)) (startRow : Z)
  (s : sheet) : result sheet :=
  match columns with
  | [] => Ok s
  | (col_index, column_name) :: columns' =>
      s' <-- cell_assign startRow col_index (JStr column_name) s ;;
      write_header columns' startRow s'
  end.

(** Lines 313-314: one row. *)
Fixpoint write_row (columns : list (Z * string)) (row_index : Z)
  (row_data : dict) (s : sheet) : result sheet :=
  match columns with
  | [] => Ok s
  | (col_index, column_name) :: columns' =>
      v <-- Py.getitem (JDict row_data) column_name ;;
      s' <-- cell_assign row_index col_index v s ;;
      write_row columns' row_index row_data s'
  end.

(** Lines 312-314: the rows. *)
Fixpoint write_rows (rows : list (Z * dict)) (column_names : list string)
  (startCol : Z) (s : sheet) : result sheet :=
  match rows with
  | [] => Ok s
  | (row_index, row_data) :: rows' =>
      s' <-- write_row (enumerate_from startCol column_names) row_index
               row_data s ;;
      write_rows rows' column_names startCol s'
  end.

(** Lines 299-317.  [file] is the workbook stored under [filename], if
    there is one, and [template] the one stored under ["template.xlsx"],
    which the function copies when [filename] does not exist.  The result
    is the workbook that [workbook.save(filename)] stores; when an
    exception is raised nothing has been saved. *)
Definition write_to_excel (template : workbook) (file : option workbook)
  (filename sheetname : string) (data : list dict) (startCol startRow : Z)
  : M workbook :=
  let copied :=
    match file with
    | Some w => w
    | None => template
    end in
  log INFO "Successfully added data to file %s from template!" [JStr filename] ;;
  let workbook := copied in
  sheet <- lift (worksheet sheetname workbook) ;;
  first <- lift (Py.seq_index data 0) ;;
  let column_names := Py.keys first in
  sheet <- lift (write_header (enumerate_from startCol column_names) startRow
                   sheet) ;;
  sheet <- lift (write_rows (enumerate_from (startRow + 1) data) column_names
                   startCol sheet) ;;
  log INFO "Data written to {filename} successfully!" [JStr filename] ;;
  ret (with_sheet sheetname sheet workbook).

(** *** The tables of the workbook *)

Inductive table :=
| Sites | Tenants | SchemaTemplates | SchemaSites | VrfTemplates | VrfSites
| BdTemplates | BdSites | EpgTemplates | EpgSites | ContractTemplates
| ContractSites.

(** The function that fills each table. *)
Definition normalizer (t : table) : json -> M (list dict) :=
  match t with
  | Sites => normalize_sites_data
  | Tenants => normalize_tenants_data
  | SchemaTemplates => normalize_schema_template_data
  | SchemaSites => normalize_schema_site_data
  | VrfTemplates => normalize_vrf_template_data
  | VrfSites => normalize_vrf_site_data
  | BdTemplates => normalize_bd_template_data
  | BdSites => normalize_bd_site_data
  | EpgTemplates => normalize_epg_template_data
  | EpgSites => normalize_epg_site_data
  | ContractTemplates => normalize_contract_template_data
  | ContractSites => normalize_contract_site_data
  end.

(** The keys of the rows of each table, in the order of the dictionaries
    the function builds. *)
Definition columns (t : table) : list string :=
  match t with
  | Sites => ["Site Name"; "Site Display Name"; "Site ID"; "Site Number"]
  | Tenants =>
      ["Tenant Name"; "Tenant Display Name"; "Tenand ID"; "Site Association"]
  | SchemaTemplates =>
      ["Schema Display Name"; "Schema ID"; "Schema Version"; "Template Name";
       "Template Display Name"; "Template Number"; "Template ID";
       "Template Type"; "Template Version"; "Associated Tenant ID"]
  | SchemaSites =>
      ["Schema Display Name"; "Schema ID"; "Schema Version"; "Site ID";
       "Site Template Name"; "Site Template ID"]
  | VrfTemplates =>
      ["Schema ID"; "Template ID"; "Tenant ID"; "VRF Name"; "VRF Display Name";
       "VRF Number"; "VRF UUID"; "VRF Reference"]
  | VrfSites =>
      ["Schema ID"; "Site ID"; "Site Template ID"; "VRF Number"; "VRF Reference"]
  | BdTemplates =>
      ["Schema ID"; "Template ID"; "Tenant ID"; "BD Name"; "BD Display Name";
       "BD Number"; "BD UUID"; "BD Reference"; "L2 Stretch";
       "BD Template Subnets"; "BD VRF Reference"]
  | BdSites =>
      ["Schema ID"; "Site ID"; "Site Template ID"; "BD Number"; "BD Reference";
       "BD Site Subnets"]
  | EpgTemplates =>
      ["Schema ID"; "Template ID"; "Tenant ID"; "ANP Name"; "ANP Display Name";
       "ANP Number"; "ANP UUID"; "ANP Reference"; "EPG Name"; "EPG Display Name";
       "EPG Number"; "EPG UUID"; "EPG Reference"; "EPG BD Reference"]
  | EpgSites =>
      ["Schema ID"; "Site ID"; "Site Template ID"; "ANP Number";
       "ANP Reference"; "EPG Number"; "EPG Reference"]
  | ContractTemplates =>
      ["Schema ID"; "Template ID"; "Tenant ID"; "Contract Name";
       "Contract Display Name"; "ContractContract Number"; "Contract UUID";
       "Contract Reference"]
  | ContractSites =>
      ["Schema ID"; "Site ID"; "Site Template ID"; "Contract Number";
       "Contract Reference"]
  end.

(** The warnings each function can log, by their format. *)
Definition warnings (t : table) : list string :=
  match t with
  | SchemaSites => ["Schema %s is not associated to any site yet"]
  | VrfSites | BdSites | EpgSites | ContractSites =>
      ["%s schema is not currently associated to any site"]
  | _ => []
  end.

(** The events of [t] are log messages, and those at warning level have
    one of the formats [fmts]. *)
Definition logs_within (fmts : list string) (t : list Event) : bool :=
  forallb
    (fun e =>
       match e with
       | Log WARNING fmt _ => existsb (String.eqb fmt) fmts
       | Log _ _ _ => true
       | _ => false
       end) t.

(** Only log messages were added, with warnings among [fmts]; nothing
    was sent and no variable of [main] was assigned. *)
Definition only_logs (fmts : list string) (st st' : State) : Prop :=
  sent st' = sent st /\
  ndo_schemas_json st' = ndo_schemas_json st /\
  same_variables st st' /\
  exists t, trace st' = trace st ++ t /\ logs_within fmts t = true.

(** Whenever [m] returns, what it returns satisfies [I]. *)
Definition yields {B} (I : B -> Prop) (m : M B) : Prop :=
  forall st r st', m st = (Normal r, st') -> I r.

(** The rows of [t] all have the keys [cols], in that order. *)
Definition uniform (cols : list string) (rows : list dict) : Prop :=
  Forall (fun row => Py.keys row = cols) rows.

(** *** Documents of a small NDO, as the three GET requests return them *)

Module Sample.

Definition sites : json :=
  JDict [("sites", JList [
    JDict [("id", JStr "site-a");
           ("common", JDict [("name", JStr "A"); ("displayName", JStr "Site A");
                             ("siteId", JStr "1")])];
    JDict [("id", JStr "site-b");
           ("common", JDict [("name", JStr "B"); ("displayName", JStr "")])]])].

Definition tenants : json :=
  JDict [("tenants", JList [
    JDict [("id", JStr "t1"); ("name", JStr "prod"); ("displayName", JStr "Prod");
           ("siteAssociations",
            JList [JDict [("siteId", JStr "site-a")];
                   JDict [("siteId", JStr "site-b")]])];
    JDict [("id", JStr "t2"); ("name", JStr "lab"); ("displayName", JStr "Lab");
           ("siteAssociations", JList [])]])].

Definition vrf (name : string) : json :=
  JDict [("name", JStr name); ("displayName", JStr name); ("uuid", JStr "u-vrf");
         ("vrfRef", JStr "/schemas/S1/templates/T1/vrfs/V1")].

Definition bd (name : string) (subnets : list json) : json :=
  JDict [("name", JStr name); ("displayName", JStr name); ("uuid", JStr "u-bd");
         ("bdRef", JStr "/schemas/S1/templates/T1/bds/BD");
         ("l2Stretch", JBool true); ("subnets", JList subnets);
         ("vrfRef", JStr "/schemas/S1/templates/T1/vrfs/V1")].

Definition epg (name : string) : json :=
  JDict [("name", JStr name); ("displayName", JStr name); ("uuid", JStr "u-epg");
         ("epgRef", JStr "/schemas/S1/templates/T1/anps/AP1/epgs/E");
         ("bdRef", JStr "/schemas/S1/templates/T1/bds/BD")].

Definition anp (name : string) (epgs : list json) : json :=
  JDict [("name", JStr name); ("displayName", JStr name); ("uuid", JStr "u-anp");
         ("anpRef", JStr "/schemas/S1/templates/T1/anps/AP1");
         ("epgs", JList epgs)].

Definition contract (name : string) : json :=
  JDict [("name", JStr name); ("displayName", JStr name); ("uuid", JStr "u-c");
         ("contractRef", JStr "/schemas/S1/templates/T1/contracts/C1")].

Definition template : json :=
  JDict [("name", JStr "T1"); ("displayName", JStr "T1");
         ("templateID", JStr "T1id"); ("version", JInt 3);
         ("tenantId", JStr "t1"); ("templateType", JStr "stretched-template");
         ("vrfs", JList [vrf "V1"]);
         ("bds", JList [bd "BD1" [JDict [("ip", JStr "10.14.1.1/24")]];
                        bd "BD2" []]);
         ("anps", JList [anp "AP1" [epg "EPG1"; epg "EPG2"]; anp "AP2" []]);
         ("contracts", JList [contract "C1"])].

Definition site : json :=
  JDict [("siteId", JStr "site-a"); ("templateName", JStr "T1");
         ("templateID", JStr "T1id");
         ("vrfs", JList [JDict [("vrfRef", JStr "/schemas/S1/templates/T1/vrfs/V1")]]);
         ("bds", JList [JDict [("bdRef", JStr "/schemas/S1/templates/T1/bds/BD1");
                               ("subnets", JList [])]]);
         ("anps",
          JList [JDict [("anpRef", JStr "/schemas/S1/templates/T1/anps/AP1");
                        ("epgs",
                         JList [JDict [("epgRef",
                                        JStr "/schemas/S1/templates/T1/anps/AP1/epgs/EPG1")]])];
                 JDict [("anpRef", JStr "/schemas/S1/templates/T1/anps/AP2");
                        ("epgs", JList [])]]);
         ("contracts", JList [])].

(** One schema deployed on a site, and one that is on no site. *)
Definition schemas : json :=
  JDict [("schemas", JList [
    JDict [("displayName", JStr "Schema 1"); ("id", JStr "S1");
           ("_updateVersion", JInt 7);
           ("templates", JList [template]);
           ("sites", JList [site])];
    JDict [("displayName", JStr "Schema 2"); ("id", JStr "S2");
           ("_updateVersion", JInt 1);
           ("templates", JList []);
           ("sites", JList [])]])].

(** A schema whose only site entry is empty. *)
Definition unbound : json :=
  JDict [("schemas", JList [
    JDict [("displayName", JStr "Schema 3"); ("id", JStr "S3");
           ("_updateVersion", JInt 1);
           ("templates", JList []);
           ("sites", JList [JDict []])]])].

(** The document each table is read from. *)
Definition document (t : table) : json :=
  match t with
  | Sites => sites
  | Tenants => tenants
  | _ => schemas
  end.

(** A workbook with the sheets of "template.xlsx", all empty. *)
Definition blank : workbook :=
  map (fun name => (name, fun _ _ => None))
    ["Infra"; "Schemas"; "VRF Data"; "BD Data"; "EPG Data"; "Contract Data";
     "EPG Selection"].

End Sample.

(** The workbook [load_workbook(filename)] opens, once the template has
    been copied when [filename] did not exist (lines 300-305). *)
Definition opened (template : workbook) (file : option workbook) : workbook :=
  match file with
  | Some w => w
  | None => template
  end.

(** The values of a row can all be held by cells. *)
Definition storable_row (row : dict) : bool :=
  forallb (fun kv => storable (snd kv)) row.

(** The value of every key of a row is true in a test: no cell written
    from it is empty. *)
Definition filled (row : dict) : Prop :=
  forall k v, In (k, v) row -> Builtin.truthy v = true.

(** A site the sites table can be read from: it has an id and names;
    its number may be missing. *)
Definition named_site (site : json) : Prop :=
  exists id common name displayName,
    Py.getitem site "id" = Ok id /\
    Py.getitem site "common" = Ok (JDict common) /\
    Py.dict_get "name" common = Some name /\
    Py.dict_get "displayName" common = Some displayName.

(** The row of the BD table describes the bridge domain that the
    expressions of lines 878-881 reach in [tree] from the row's schema
    id, template id and BD number. *)
Definition exported_bd (tree : json) (row : dict) : Prop :=
  exists schemas schema templates template bds (n : nat) bd sid tid name,
    rbind (Py.getitem tree "schemas") Py.iter = Ok schemas /\
    In schema schemas /\
    Py.getitem schema "id" = Ok sid /\
    Py.dict_get "Schema ID" row = Some sid /\
    rbind (Py.getitem schema "templates") Py.iter = Ok templates /\
    In template templates /\
    Py.getitem template "templateID" = Ok tid /\
    Py.dict_get "Template ID" row = Some tid /\
    Py.getitem template "bds" = Ok bds /\
    Py.dict_get "BD Number" row = Some (JInt (Z.of_nat n)) /\
    Py.getindex bds (Z.of_nat n) = Ok bd /\
    Py.getitem bd "name" = Ok name /\
    Py.dict_get "BD Name" row = Some name.

(** The row of the EPG table describes the EPG that the expressions of
    lines 878-887 reach in [tree] from the row's schema id, template id,
    ANP number and EPG number. *)
Definition exported_epg (tree : json) (row : dict) : Prop :=
  exists schemas schema templates template anps (a : nat) anp epgs (e : nat)
         epg sid tid name,
    rbind (Py.getitem tree "schemas") Py.iter = Ok schemas /\
    In schema schemas /\
    Py.getitem schema "id" = Ok sid /\
    Py.dict_get "Schema ID" row = Some sid /\
    rbind (Py.getitem schema "templates") Py.iter = Ok templates /\
    In template templates /\
    Py.getitem template "templateID" = Ok tid /\
    Py.dict_get "Template ID" row = Some tid /\
    Py.getitem template "anps" = Ok anps /\
    Py.dict_get "ANP Number" row = Some (JInt (Z.of_nat a)) /\
    Py.getindex anps (Z.of_nat a) = Ok anp /\
    Py.getitem anp "epgs" = Ok epgs /\
    Py.dict_get "EPG Number" row = Some (JInt (Z.of_nat e)) /\
    Py.getindex epgs (Z.of_nat e) = Ok epg /\
    Py.getitem epg "name" = Ok name /\
    Py.dict_get "EPG Name" row = Some name.

(** ** A fabric whose first bridge domain lacks most fields *)

Definition partial_bd : dict :=
  [("name", JStr "BD1"); ("displayName", JStr "BD1");
   ("l2Stretch", JBool true); ("subnets", JList [])].

Definition partial_schemas : json :=
  json_alter (fun _ => JDict partial_bd)
    [SKey "schemas"; SIdx 0; SKey "templates"; SIdx 0; SKey "bds"; SIdx 0]
    Fabric.schemas.

(** The reference of an EPG, as the NDO writes it and as line 968 builds
    it from an ANP reference. *)
Definition epg_path (schema template anp epg : string) : string :=
  String.concat ""
    ["/schemas/"; schema; "/templates/"; template; "/anps/"; anp; "/epgs/"; epg].

(** * Properties *)

(** ** Dictionaries *)

Lemma dict_get_set_same (k : string) (v : json) (d : dict) :
  Py.dict_get k (Py.dict_set k v d) = Some v.
Proof.
  induction d as [|[k' v'] d IH]; simpl.
  - now rewrite String.eqb_refl.
  - destruct (String.eqb k k') eqn:E; simpl; rewrite E; auto.
Qed.

Lemma dict_get_set_other (k k' : string) (v : json) (d : dict) :
  k <> k' -> Py.dict_get k' (Py.dict_set k v d) = Py.dict_get k' d.
Proof.
  intros Hne. induction d as [|[k0 v0] d IH]; simpl.
  - destruct (String.eqb_spec k' k); congruence.
  - destruct (String.eqb_spec k k0); simpl.
    + subst k0. destruct (String.eqb_spec k' k); congruence.
    + destruct (String.eqb_spec k' k0); auto.
Qed.

Lemma dict_get_in_keys (k : string) (d : dict) :
  In k (Py.keys d) <-> exists v, Py.dict_get k d = Some v.
Proof.
  induction d as [|[k' v'] d IH]; simpl.
  - split; [tauto | intros [v H]; discriminate].
  - destruct (String.eqb_spec k k').
    + subst. split; eauto.
    + rewrite <- IH. split; [intros [H|H]; congruence || auto | auto].
Qed.

Lemma keys_dict_set (k : string) (v : json) (d : dict) :
  In k (Py.keys d) -> Py.keys (Py.dict_set k v d) = Py.keys d.
Proof.
  induction d as [|[k' v'] d IH]; simpl; [tauto|].
  intros H. destruct (String.eqb_spec k k'); simpl; [reflexivity|].
  f_equal. apply IH. destruct H; congruence.
Qed.

Lemma dict_set_same_value (k : string) (v : json) (d : dict) :
  Py.dict_get k d = Some v -> Py.dict_set k v d = d.
Proof.
  induction d as [|[k' v'] d IH]; simpl; [discriminate|].
  destruct (String.eqb_spec k k'); intros H.
  - congruence.
  - now rewrite IH.
Qed.

(** ** The copy loop *)

Lemma copy_items_keys (ks : list string) (src : json) :
  forall (dst d : dict) (stop : option Exn),
    incl ks (Py.keys dst) ->
    copy_items ks src dst = (d, stop) ->
    Py.keys d = Py.keys dst.
Proof.
  induction ks as [|k ks IH]; simpl; intros dst d stop Hin H.
  - congruence.
  - destruct (Py.getitem src k) as [v|e]; [|congruence].
    assert (Hk : In k (Py.keys dst)) by (apply Hin; now left).
    apply IH in H.
    + now rewrite H, keys_dict_set.
    + rewrite keys_dict_set by assumption.
      intros x Hx. apply Hin. now right.
Qed.

Lemma copy_items_kept (ks : list string) (src : json) (k : string) (v : json) :
  forall (dst d : dict),
    copy_items ks src dst = (d, None) ->
    Py.getitem src k = Ok v ->
    Py.dict_get k dst = Some v ->
    Py.dict_get k d = Some v.
Proof.
  induction ks as [|k0 ks IH]; simpl; intros dst d H Hsrc Hdst.
  - congruence.
  - destruct (Py.getitem src k0) as [v0|e] eqn:E0; [|congruence].
    apply (IH _ _ H Hsrc).
    destruct (String.eqb_spec k0 k).
    + subst k0. rewrite dict_get_set_same. congruence.
    + now rewrite dict_get_set_other.
Qed.

Lemma copy_items_copied (ks : list string) (src : json) (k : string) :
  forall (dst d : dict),
    copy_items ks src dst = (d, None) ->
    In k ks ->
    exists v, Py.getitem src k = Ok v /\ Py.dict_get k d = Some v.
Proof.
  induction ks as [|k0 ks IH]; simpl; intros dst d H Hin; [tauto|].
  destruct (Py.getitem src k0) as [v0|e] eqn:E0; [|congruence].
  destruct (String.eqb_spec k0 k) as [->|Hne].
  - exists v0. split; [assumption|].
    eapply copy_items_kept; eauto. apply dict_get_set_same.
  - destruct Hin as [Hin|Hin]; [congruence|]. eapply IH; eauto.
Qed.

Lemma copy_items_other (ks : list string) (src : json) (k : string) :
  forall (dst d : dict) (stop : option Exn),
    ~ In k ks ->
    copy_items ks src dst = (d, stop) ->
    Py.dict_get k d = Py.dict_get k dst.
Proof.
  induction ks as [|k0 ks IH]; simpl; intros dst d stop Hin H.
  - congruence.
  - destruct (Py.getitem src k0) as [v0|e] eqn:E0; [|congruence].
    rewrite (IH _ _ _ (fun Hk => Hin (or_intror Hk)) H).
    apply dict_get_set_other. intros ->. apply Hin. now left.
Qed.

Lemma copy_items_total (ks : list string) (src : json) :
  forall dst : dict,
    (forall k, In k ks -> exists v, Py.getitem src k = Ok v) ->
    exists d, copy_items ks src dst = (d, None).
Proof.
  induction ks as [|k ks IH]; simpl; intros dst H; [eauto|].
  destruct (H k) as [v ->]; [now left|]. apply IH. auto.
Qed.

(** The outcome of the loop does not depend on what the destination held. *)
Lemma copy_items_stop (ks : list string) (src : json) :
  forall (d1 d2 : dict),
    snd (copy_items ks src d1) = snd (copy_items ks src d2).
Proof.
  induction ks as [|k ks IH]; simpl; intros d1 d2; [reflexivity|].
  destruct (Py.getitem src k); [apply IH | reflexivity].
Qed.

Lemma agree_on_keys (seen : list string) (d1 d2 : dict) :
  agree_on seen d1 d2 -> Py.keys d1 = Py.keys d2.
Proof.
  induction 1 as [|a b d1 d2 [Hk _] _ IH]; simpl; congruence.
Qed.

Lemma agree_on_all (seen : list string) (d1 d2 : dict) :
  agree_on seen d1 d2 -> incl (Py.keys d1) seen -> d1 = d2.
Proof.
  induction 1 as [|[k1 v1] [k2 v2] d1 d2 [Hk Hv] _ IH]; simpl; intros Hin.
  - reflexivity.
  - simpl in *. subst k2. rewrite Hv by (apply Hin; now left).
    f_equal. apply IH. intros x Hx. apply Hin. now right.
Qed.

Lemma agree_on_same_keys (d1 d2 : dict) :
  Py.keys d1 = Py.keys d2 -> agree_on [] d1 d2.
Proof.
  revert d2. induction d1 as [|a d1 IH]; intros [|b d2]; simpl; try discriminate.
  - constructor.
  - intros H. injection H as Hk Hr. constructor; [|now apply IH].
    split; [assumption | intros []].
Qed.

Lemma agree_on_fresh (seen : list string) (k : string) (d1 d2 : dict) :
  ~ In k (Py.keys d1) ->
  agree_on seen d1 d2 ->
  agree_on (k :: seen) d1 d2.
Proof.
  intros Hnot H. induction H as [|a b d1 d2 [Hk Hv] _ IH]; constructor.
  - split; [assumption|]. simpl. intros [He|Hs]; [|auto].
    exfalso. apply Hnot. simpl. now left.
  - apply IH. intros Hc. apply Hnot. simpl. now right.
Qed.

Lemma agree_on_set (seen : list string) (k : string) (v : json) (d1 d2 : dict) :
  NoDup (Py.keys d1) ->
  agree_on seen d1 d2 ->
  agree_on (k :: seen) (Py.dict_set k v d1) (Py.dict_set k v d2).
Proof.
  intros Hnd H.
  induction H as [|[k1 v1] [k2 v2] d1 d2 [Hk Hv] Hrest IH]; simpl in *.
  - repeat constructor; auto.
  - subst k2. inversion Hnd as [|? ? Hnot Hnd']; subst.
    destruct (String.eqb_spec k k1) as [->|Hne].
    + constructor; [split; auto|]. now apply agree_on_fresh.
    + constructor; [|now apply IH].
      split; [reflexivity|]. simpl. intros [He|Hs]; [congruence | auto].
Qed.

Lemma copy_items_agree (ks : list string) (src : json) :
  forall (seen : list string) (d1 d2 r1 r2 : dict),
    NoDup (Py.keys d1) ->
    incl ks (Py.keys d1) ->
    agree_on seen d1 d2 ->
    copy_items ks src d1 = (r1, None) ->
    copy_items ks src d2 = (r2, None) ->
    agree_on (rev ks ++ seen) r1 r2.
Proof.
  induction ks as [|k ks IH]; simpl; intros seen d1 d2 r1 r2 Hnd Hin Hag H1 H2.
  - congruence.
  - destruct (Py.getitem src k) as [v|e]; [|congruence].
    assert (Hk : In k (Py.keys d1)) by (apply Hin; now left).
    rewrite <- app_assoc. simpl.
    eapply IH; [| | apply (agree_on_set seen k v _ _ Hnd Hag) | eassumption..].
    + now rewrite keys_dict_set.
    + rewrite keys_dict_set by assumption. intros x Hx. apply Hin. now right.
Qed.

(** The loop of lines 908-909 and its siblings forgets what the destination
    held: when it ends, the dictionary depends on the source alone. *)
Lemma copy_items_forget (src : json) (d1 d2 r1 r2 : dict) :
  NoDup (Py.keys d1) ->
  Py.keys d1 = Py.keys d2 ->
  copy_items (Py.keys d1) src d1 = (r1, None) ->
  copy_items (Py.keys d2) src d2 = (r2, None) ->
  r1 = r2.
Proof.
  intros Hnd Hk H1 H2. rewrite <- Hk in H2.
  pose proof (copy_items_agree _ _ [] _ _ _ _ Hnd (incl_refl _)
                (agree_on_same_keys _ _ Hk) H1 H2) as Hag.
  apply (agree_on_all _ _ _ Hag).
  erewrite copy_items_keys by (try eassumption; apply incl_refl).
  intros x Hx. rewrite app_nil_r. now apply in_rev in Hx.
Qed.

(** ** The host-based routing loop *)

Lemma hostBasedRouting_items_other (k : string) (bdName : string) :
  forall (subnets : list json) (site d : dict) (stop : option Exn),
    k <> "hostBasedRouting" ->
    hostBasedRouting_items subnets bdName site = (d, stop) ->
    Py.dict_get k d = Py.dict_get k site.
Proof.
  induction subnets as [|s ss IH]; simpl; intros site d stop Hk H.
  - congruence.
  - destruct (hostBasedRouting_of s bdName) as [b|e]; [|congruence].
    rewrite (IH _ _ _ Hk H). apply dict_get_set_other. congruence.
Qed.

Lemma hostBasedRouting_items_keys (bdName : string) :
  forall (subnets : list json) (site d : dict) (stop : option Exn),
    In "hostBasedRouting" (Py.keys site) ->
    hostBasedRouting_items subnets bdName site = (d, stop) ->
    Py.keys d = Py.keys site.
Proof.
  induction subnets as [|s ss IH]; simpl; intros site d stop Hk H.
  - congruence.
  - destruct (hostBasedRouting_of s bdName) as [b|e]; [|congruence].
    apply IH in H; rewrite ?keys_dict_set in *; auto.
Qed.

Lemma hostBasedRouting_items_last (bdName : string) (s : json) :
  forall (subnets : list json) (site d : dict),
    hostBasedRouting_items (subnets ++ [s]) bdName site = (d, None) ->
    exists b, hostBasedRouting_of s bdName = Ok b /\
              Py.dict_get "hostBasedRouting" d = Some (JBool b).
Proof.
  induction subnets as [|s0 ss IH]; simpl; intros site d H.
  - destruct (hostBasedRouting_of s bdName) as [b|e]; [|congruence].
    exists b. split; [reflexivity|]. injection H as <-. apply dict_get_set_same.
  - destruct (hostBasedRouting_of s0 bdName) as [b|e]; [|congruence]. eauto.
Qed.

(** ** Running the monad *)

Lemma bind_Normal {A B} (m : M A) (k : A -> M B) (st st' : State) (b : B) :
  bind m k st = (Normal b, st') ->
  exists a st1, m st = (Normal a, st1) /\ k a st1 = (Normal b, st').
Proof.
  unfold bind. destruct (m st) as [[a|e|] st1]; intros H; try discriminate; eauto.
Qed.

Lemma bind_cases {A B} (m : M A) (k : A -> M B) (st st' : State) (o : Outcome B) :
  bind m k st = (o, st') ->
  (exists a st1, m st = (Normal a, st1) /\ k a st1 = (o, st')) \/
  (exists e, m st = (Raised e, st') /\ o = Raised e) \/
  (m st = (Unfinished, st') /\ o = Unfinished).
Proof.
  unfold bind. destruct (m st) as [[a|e|] st1]; intros H.
  - left; eauto.
  - right; left. exists e. now inversion H.
  - right; right. now inversion H.
Qed.

Lemma lift_Normal {A} (r : result A) (st st' : State) (a : A) :
  lift r st = (Normal a, st') -> r = Ok a /\ st' = st.
Proof. destruct r; simpl; intros H; inversion H; auto. Qed.

Lemma src_item_Normal (x : State -> json) (key : string) (st st' : State) (v : json) :
  src_item x key st = (Normal v, st') -> Py.getitem (x st) key = Ok v /\ st' = st.
Proof.
  unfold src_item, bind, gets. apply lift_Normal.
Qed.

Lemma getitem_of_Normal (a : alias) (key : string) (st st' : State) (v : json) :
  getitem_of a key st = (Normal v, st') ->
  Py.dict_get key (deref a st) = Some v /\ st' = st.
Proof.
  unfold getitem_of, bind, gets. intros H. apply lift_Normal in H as [H ->].
  split; [|reflexivity]. simpl in H. destruct (Py.dict_get key (deref a st)); congruence.
Qed.

Lemma copy_from_Normal (a : alias) (src : State -> json) (st st' : State) :
  copy_from a src st = (Normal tt, st') ->
  exists d, copy_items (Py.keys (deref a st)) (src st) (deref a st) = (d, None) /\
            st' = store a d st.
Proof.
  unfold copy_from. destruct (copy_items _ _ _) as [d [e|]]; intros H; inversion H.
  eauto.
Qed.

Lemma default_vmac_dict (st : State) (d : dict) :
  src_bd_tmpl_data st = JDict d ->
  default_vmac st = (Normal tt, with_vmac st).
Proof.
  intros Hd. unfold default_vmac, with_vmac, try_except, src_item, bind, gets, lift.
  rewrite Hd. simpl. destruct (Py.dict_get "vmac" d); reflexivity.
Qed.

Lemma getitem_is_dict (j : json) (k : string) (v : json) :
  Py.getitem j k = Ok v -> exists d, j = JDict d.
Proof. destruct j; simpl; try discriminate. eauto. Qed.

Lemma with_vmac_src (st : State) (k : string) :
  k <> "vmac" ->
  Py.getitem (src_bd_tmpl_data (with_vmac st)) k = Py.getitem (src_bd_tmpl_data st) k.
Proof.
  intros Hk. unfold with_vmac.
  destruct (src_bd_tmpl_data st) as [| | | | |d] eqn:E; simpl; rewrite ?E; try reflexivity.
  destruct (Py.dict_get "vmac" d) eqn:Ev; simpl; rewrite ?E; [reflexivity|].
  simpl. unfold Py.setdefault. rewrite Ev.
  rewrite dict_get_set_other by congruence. reflexivity.
Qed.

Lemma with_vmac_frame (st : State) :
  ndo_bd_tmpl_dict (with_vmac st) = ndo_bd_tmpl_dict st /\
  ndo_bd_site_dict (with_vmac st) = ndo_bd_site_dict st /\
  ndo_epg_tmpl_dict (with_vmac st) = ndo_epg_tmpl_dict st /\
  ndo_epg_site_dict (with_vmac st) = ndo_epg_site_dict st /\
  src_bd_site_data (with_vmac st) = src_bd_site_data st /\
  src_epg_tmpl_data (with_vmac st) = src_epg_tmpl_data st /\
  src_epg_site_data (with_vmac st) = src_epg_site_data st.
Proof.
  unfold with_vmac. destruct (Py.getitem _ _) as [v|[]]; simpl; auto 10.
Qed.


Lemma setitem_run (a : alias) (key : string) (v : json) (st : State) :
  setitem a key v st = (Normal tt, store a (Py.dict_set key v (deref a st)) st).
Proof. reflexivity. Qed.

Ltac bind_step H :=
  let a := fresh "a" in
  let s := fresh "s" in
  let Hm := fresh "Hm" in
  apply bind_Normal in H as (a & s & Hm & H);
  match type of a with unit => destruct a | _ => idtac end.

(** ** The mapping of the bridge domain

    The source BD is stretched: lines 902-912. *)
Lemma copy_src_bd_stretched (st st1 : State) :
  Py.getitem (src_bd_tmpl_data st) "l2Stretch" = Ok (JBool true) ->
  copy_src_bd st = (Normal tt, st1) ->
  exists t s,
    copy_items (Py.keys (ndo_bd_tmpl_dict st)) (src_bd_tmpl_data (with_vmac st))
      (ndo_bd_tmpl_dict st) = (t, None) /\
    copy_items (Py.keys (ndo_bd_site_dict st)) (src_bd_site_data st)
      (ndo_bd_site_dict st) = (s, None) /\
    st1 = store dst_bd_site_data s (store dst_bd_tmpl_data t (with_vmac st)).
Proof.
  intros Hs H. unfold copy_src_bd in H.
  bind_step H. apply src_item_Normal in Hm as [Hv ->].
  rewrite Hs in Hv. injection Hv as <-. cbn [Py.is_True] in H.
  destruct (getitem_is_dict _ _ _ Hs) as [d Hd].
  bind_step H. rewrite (default_vmac_dict _ _ Hd) in Hm. injection Hm as <-.
  bind_step H. apply copy_from_Normal in Hm as (t & Ht & ->).
  apply copy_from_Normal in H as (s' & Hs' & ->).
  destruct (with_vmac_frame st) as (E1 & E2 & _ & _ & E5 & _).
  simpl in Ht, Hs'. rewrite E1 in Ht. rewrite E2, E5 in Hs'.
  exists t, s'. auto.
Qed.

(** The source BD is not stretched: lines 915-930. *)
Lemma copy_src_bd_local (st st1 : State) :
  Py.getitem (src_bd_tmpl_data st) "l2Stretch" = Ok (JBool false) ->
  copy_src_bd st = (Normal tt, st1) ->
  exists t s subnets,
    copy_items (Py.keys (ndo_bd_tmpl_dict st)) (src_bd_tmpl_data (with_vmac st))
      (ndo_bd_tmpl_dict st) = (t, None) /\
    Py.getitem (src_bd_site_data st) "subnets" = Ok subnets /\
    copy_items (Py.keys (ndo_bd_site_dict st)) (src_bd_site_data st)
      (ndo_bd_site_dict st) = (s, None) /\
    st1 = store dst_bd_site_data s
            (store dst_bd_tmpl_data
               (Py.dict_set "subnets" subnets
                  (Py.dict_set "optimizeWanBandwidth" (JBool true)
                     (Py.dict_set "l2Stretch" (JBool true)
                        (Py.dict_set "intersiteBumTrafficAllow" (JBool true)
                           (Py.dict_set "arpFlood" (JBool true) t)))))
               (with_vmac st)).
Proof.
  intros Hs H. unfold copy_src_bd in H.
  bind_step H. apply src_item_Normal in Hm as [Hv ->].
  rewrite Hs in Hv. injection Hv as <-. cbn [Py.is_True] in H.
  bind_step H. apply src_item_Normal in Hm as [Hv ->].
  rewrite Hs in Hv. injection Hv as <-. cbn [Py.is_False] in H.
  destruct (getitem_is_dict _ _ _ Hs) as [d Hd].
  bind_step H. rewrite (default_vmac_dict _ _ Hd) in Hm. injection Hm as <-.
  bind_step H. apply copy_from_Normal in Hm as (t & Ht & ->).
  do 4 (bind_step H; rewrite setitem_run in Hm; injection Hm as <-).
  bind_step H. apply src_item_Normal in Hm as [Hv ->].
  bind_step H. rewrite setitem_run in Hm. injection Hm as <-.
  apply copy_from_Normal in H as (s' & Hs' & ->).
  destruct (with_vmac_frame st) as (E1 & E2 & _ & _ & E5 & _).
  simpl in Ht, Hs', Hv. rewrite E1 in Ht. rewrite E2, E5 in Hs'. rewrite E5 in Hv.
  exists t, s'. eexists. repeat split; eauto.
Qed.

(** Neither: nothing happens. *)
Lemma copy_src_bd_neither (st : State) (v : json) :
  Py.getitem (src_bd_tmpl_data st) "l2Stretch" = Ok v ->
  v <> JBool true -> v <> JBool false ->
  copy_src_bd st = (Normal tt, st).
Proof.
  intros Hs Ht Hf. unfold copy_src_bd, src_item, bind, gets, lift.
  rewrite Hs.
  destruct v as [| [|] | | | |]; try congruence;
    cbn [Py.is_True Py.is_False]; rewrite Hs; reflexivity.
Qed.

Lemma place_bd_Normal (dst : Dst.row) (st st' : State) :
  place_bd dst st = (Normal tt, st') ->
  exists subnets items s,
    Py.dict_get "subnets" (placed_tmpl dst (ndo_bd_tmpl_dict st)) = Some subnets /\
    Py.iter subnets = Ok items /\
    hostBasedRouting_items items (Dst.bdName dst)
      (placed_l3outs dst (ndo_bd_site_dict st)) = (s, None) /\
    st' = store dst_bd_site_data
            (Py.dict_set "bdRef" (JStr (dst_bd_ref_of dst)) s)
            (store dst_bd_tmpl_data (placed_tmpl dst (ndo_bd_tmpl_dict st)) st).
Proof.
  intros H. unfold place_bd in H.
  do 5 (bind_step H; rewrite setitem_run in Hm; injection Hm as <-).
  bind_step H. rewrite setitem_run in H. injection H as <-.
  unfold hostBasedRouting_loop in Hm.
  bind_step Hm. apply getitem_of_Normal in Hm0 as [Hsub ->].
  bind_step Hm. apply lift_Normal in Hm0 as [Hit ->].
  simpl in Hm, Hsub.
  destruct (hostBasedRouting_items _ _ _) as [d [e|]] eqn:Eh; inversion Hm; subst.
  do 3 eexists. repeat split; eauto.
Qed.

Lemma placed_tmpl_other (dst : Dst.row) (t : dict) (k : string) :
  k <> "name" -> k <> "displayName" -> k <> "vrfRef" ->
  Py.dict_get k (placed_tmpl dst t) = Py.dict_get k t.
Proof.
  intros H1 H2 H3. unfold placed_tmpl.
  rewrite !dict_get_set_other by congruence. reflexivity.
Qed.

Lemma skeleton_keys_initial : skeleton_keys initial_state.
Proof. repeat split. Qed.

(** C4 -- Stretch rule of the BD mapping.  When the mapping of a unit
    returns, a source template BD with [l2Stretch = true] gives the
    destination template BD the subnets of the source template BD, and one
    with [l2Stretch = false] gives it [arpFlood], [intersiteBumTrafficAllow],
    [optimizeWanBandwidth] and [l2Stretch] set to [true] and the subnets of
    the source site BD. *)
Theorem stretch_rule (dst : Dst.row) (st st' : State) :
  skeleton_keys st ->
  map_bd dst st = (Normal tt, st') ->
  (Py.getitem (src_bd_tmpl_data st) "l2Stretch" = Ok (JBool true) ->
   exists subnets,
     Py.getitem (src_bd_tmpl_data st) "subnets" = Ok subnets /\
     Py.dict_get "subnets" (ndo_bd_tmpl_dict st') = Some subnets) /\
  (Py.getitem (src_bd_tmpl_data st) "l2Stretch" = Ok (JBool false) ->
   Py.dict_get "arpFlood" (ndo_bd_tmpl_dict st') = Some (JBool true) /\
   Py.dict_get "intersiteBumTrafficAllow" (ndo_bd_tmpl_dict st') = Some (JBool true) /\
   Py.dict_get "optimizeWanBandwidth" (ndo_bd_tmpl_dict st') = Some (JBool true) /\
   Py.dict_get "l2Stretch" (ndo_bd_tmpl_dict st') = Some (JBool true) /\
   exists subnets,
     Py.getitem (src_bd_site_data st) "subnets" = Ok subnets /\
     Py.dict_get "subnets" (ndo_bd_tmpl_dict st') = Some subnets).
Proof.
  intros (Hk & _) H.
  unfold map_bd in H. apply bind_Normal in H as ([] & st1 & H1 & H2).
  apply place_bd_Normal in H2 as (subs & items & s' & _ & _ & _ & ->).
  split; intros Hs.
  - apply (copy_src_bd_stretched _ _ Hs) in H1 as (t & s & Ht & _ & ->).
    destruct (copy_items_copied _ _ "subnets" _ _ Ht) as (v & Hv & Hd).
    { rewrite Hk. simpl. auto 20. }
    exists v. rewrite with_vmac_src in Hv by congruence.
    split; [assumption|]. simpl.
    rewrite placed_tmpl_other by congruence. assumption.
  - apply (copy_src_bd_local _ _ Hs) in H1 as (t & s & v & _ & Hv & _ & ->).
    simpl. rewrite !placed_tmpl_other by congruence.
    repeat split;
      repeat first [ apply dict_get_set_same
                   | rewrite dict_get_set_other by congruence ].
    exists v. split; [assumption | apply dict_get_set_same].
Qed.

(** The rule at work on the stretched [BD1] and on the site-local [BD3]. *)
Lemma stretch_rule_witness :
  (exists subnets,
     Py.getitem Fabric.bd1 "subnets" = Ok subnets /\
     Py.dict_get "subnets"
       (ndo_bd_tmpl_dict (snd (map_bd Fabric.dst1 (Fabric.resolved Fabric.src1 Fabric.loaded)))) = Some subnets) /\
  (exists subnets,
     Py.getitem Fabric.site_bd3 "subnets" = Ok subnets /\
     Py.dict_get "subnets"
       (ndo_bd_tmpl_dict (snd (map_bd Fabric.dst3 (Fabric.resolved Fabric.src3 Fabric.loaded)))) = Some subnets).
Proof.
  split.
  - apply (stretch_rule Fabric.dst1 (Fabric.resolved Fabric.src1 Fabric.loaded)
             (snd (map_bd Fabric.dst1 (Fabric.resolved Fabric.src1 Fabric.loaded)))).
    + vm_compute. repeat split.
    + vm_compute. reflexivity.
    + vm_compute. reflexivity.
  - apply (stretch_rule Fabric.dst3 (Fabric.resolved Fabric.src3 Fabric.loaded)
             (snd (map_bd Fabric.dst3 (Fabric.resolved Fabric.src3 Fabric.loaded)))).
    + vm_compute. repeat split.
    + vm_compute. reflexivity.
    + vm_compute. reflexivity.
Defined.

(** ** Host-based routing *)

(** C5, as stated, fails: the first destination subnet of [WB-BD4] is
    [10.14.4.1/24], in the prefix recognised for [WB], and the mapped site BD
    has [hostBasedRouting = false], the verdict of the second subnet. *)
Lemma hostBasedRouting_first_subnet_overwritten :
  let st' := snd (map_bd Fabric.dst4 (Fabric.resolved Fabric.src4 Fabric.loaded)) in
  map_bd Fabric.dst4 (Fabric.resolved Fabric.src4 Fabric.loaded) = (Normal tt, st') /\
  Py.dict_get "subnets" (ndo_bd_tmpl_dict st') =
    Some (JList [Fabric.bd_subnet "10.14.4.1/24"; Fabric.bd_subnet "10.20.4.1/24"]) /\
  hostBasedRouting_of (Fabric.bd_subnet "10.14.4.1/24") (Dst.bdName Fabric.dst4) = Ok true /\
  Py.dict_get "hostBasedRouting" (ndo_bd_site_dict st') = Some (JBool false).
Proof. vm_compute. repeat split. Qed.

(** C5, amended -- The loop of lines 940-946 assigns the flag once per
    destination subnet, so the mapped site BD keeps the verdict of the last
    one: [true] when its ip starts with "10.14" and the BD name with "WB",
    or with "10.17" and "YK", [false] otherwise.  Without a destination
    subnet the flag is not assigned. *)
Theorem hostBasedRouting_of_last_subnet (dst : Dst.row) (st st' : State) :
  place_bd dst st = (Normal tt, st') ->
  (forall (subnets : list json) (last : json) (ip : string),
      Py.dict_get "subnets" (ndo_bd_tmpl_dict st') = Some (JList (subnets ++ [last])) ->
      Py.getitem last "ip" = Ok (JStr ip) ->
      Py.dict_get "hostBasedRouting" (ndo_bd_site_dict st') =
        Some (JBool (Py.startswith ip "10.14" && Py.startswith (Dst.bdName dst) "WB"
                     || Py.startswith ip "10.17" && Py.startswith (Dst.bdName dst) "YK"))) /\
  (Py.dict_get "subnets" (ndo_bd_tmpl_dict st') = Some (JList []) ->
   Py.dict_get "hostBasedRouting" (ndo_bd_site_dict st') =
     Py.dict_get "hostBasedRouting" (ndo_bd_site_dict st)).
Proof.
  intros H.
  apply place_bd_Normal in H as (subs & items & s & Hsub & Hit & Hh & ->).
  simpl. split.
  - intros subnets last ip Hs Hip. rewrite Hs in Hsub. injection Hsub as <-.
    simpl in Hit. injection Hit as <-.
    apply hostBasedRouting_items_last in Hh as (b & Hb & Hd).
    rewrite dict_get_set_other by congruence. rewrite Hd.
    unfold hostBasedRouting_of in Hb. rewrite Hip in Hb. simpl in Hb.
    injection Hb as <-. do 2 f_equal.
    destruct (Py.startswith ip "10.14" && Py.startswith (Dst.bdName dst) "WB");
      [reflexivity|].
    destruct (Py.startswith ip "10.17" && Py.startswith (Dst.bdName dst) "YK");
      reflexivity.
  - intros Hs. rewrite Hs in Hsub. injection Hsub as <-.
    simpl in Hit. injection Hit as <-. simpl in Hh. injection Hh as <-.
    unfold placed_l3outs. rewrite !dict_get_set_other by congruence. reflexivity.
Qed.

(** [WB-BD1], whose only subnet is [10.14.1.1/24], maps to [true];
    [WB-BD4], whose last subnet is [10.20.4.1/24], maps to [false]. *)
Lemma hostBasedRouting_of_last_subnet_witness :
  Py.dict_get "hostBasedRouting"
    (ndo_bd_site_dict
       (snd (place_bd Fabric.dst1
               (snd (copy_src_bd (Fabric.resolved Fabric.src1 Fabric.loaded))))))
    = Some (JBool true) /\
  Py.dict_get "hostBasedRouting"
    (ndo_bd_site_dict
       (snd (place_bd Fabric.dst4
               (snd (copy_src_bd (Fabric.resolved Fabric.src4 Fabric.loaded))))))
    = Some (JBool false).
Proof.
  split.
  - apply (proj1 (hostBasedRouting_of_last_subnet Fabric.dst1
                    (snd (copy_src_bd (Fabric.resolved Fabric.src1 Fabric.loaded)))
                    _ ltac:(vm_compute; reflexivity))
             [] (Fabric.bd_subnet "10.14.1.1/24") "10.14.1.1/24");
      vm_compute; reflexivity.
  - apply (proj1 (hostBasedRouting_of_last_subnet Fabric.dst4
                    (snd (copy_src_bd (Fabric.resolved Fabric.src4 Fabric.loaded)))
                    _ ltac:(vm_compute; reflexivity))
             [Fabric.bd_subnet "10.14.4.1/24"] (Fabric.bd_subnet "10.20.4.1/24")
             "10.20.4.1/24");
      vm_compute; reflexivity.
Defined.

(** ** Events and requests of a run *)

Lemma extend_extend (t1 t2 : list Event) (n1 n2 : nat) (st : State) :
  extend t2 n2 (extend t1 n1 st) = extend (t1 ++ t2) (n2 + n1) st.
Proof.
  unfold extend. simpl. now rewrite app_assoc, Nat.add_assoc.
Qed.

Lemma extend_nil (st : State) : extend [] 0 st = st.
Proof. destruct st. unfold extend. simpl. now rewrite app_nil_r. Qed.

Lemma emit_extend (e : Event) (st : State) : emit e st = extend [e] 0 st.
Proof. reflexivity. Qed.

Lemma requests_app (t1 t2 : list Event) :
  requests (t1 ++ t2) = requests t1 ++ requests t2.
Proof.
  induction t1 as [|[] t1 IH]; simpl; congruence.
Qed.

Lemma exchanges_app (t1 t2 : list Event) :
  exchanges (t1 ++ t2) = exchanges t1 ++ exchanges t2.
Proof.
  induction t1 as [|[] t1 IH]; simpl; congruence.
Qed.

Lemma requests_exchanges (t : list Event) :
  requests t = map fst (exchanges t).
Proof.
  induction t as [|[] t IH]; simpl; congruence.
Qed.

Lemma for_each_emit (l : list Event) (st : State) :
  for_each l (fun e => modify (emit e)) st = (Normal tt, extend l 0 st).
Proof.
  revert st. induction l as [|e l IH]; intros st; simpl.
  - now rewrite extend_nil.
  - unfold bind, modify. rewrite IH, emit_extend, extend_extend. reflexivity.
Qed.

Section Calls.

Variable remote : nat -> Reply.

Lemma exchange_run (s : Session) (rq : Request) (info : Response -> list Event)
  (st : State) :
  exchange remote (Some s) rq info st =
  match remote (sent st) with
  | Replied r =>
      if good r
      then (Normal r, extend (Http rq (Replied r) :: info r) 1 st)
      else (Raised RequestException, extend [Http rq (Replied r)] 1 st)
  | NoReply => (Raised RequestException, extend [Http rq NoReply] 1 st)
  end.
Proof.
  unfold exchange, session_request, bind, raise_for_status, good.
  destruct (remote (sent st)) as [|r]; [reflexivity|].
  destruct ((400 <=? status_code r) && (status_code r <? 600)); simpl.
  - reflexivity.
  - rewrite for_each_emit. unfold ret.
    change (emit (Http rq (Replied r)) (count_request st))
      with (extend [Http rq (Replied r)] 1 st).
    rewrite extend_extend. reflexivity.
Qed.

(** A decorated remote function whose request is built: it returns what
    [answer] says, and raises nothing. *)
Lemma decorated_run (s : Session) (rq : Request) (info : Response -> list Event)
  (st : State) :
  request_logger debug_response (exchange remote (Some s) rq info) st =
  (Normal (fst (answer remote rq info st)), snd (answer remote rq info st)).
Proof.
  unfold request_logger, answer. rewrite exchange_run.
  destruct (remote (sent st)) as [|r]; simpl.
  - rewrite emit_extend, extend_extend. reflexivity.
  - destruct (good r); simpl; rewrite emit_extend, extend_extend; reflexivity.
Qed.

Lemma lift_bind {A B} (r : result A) (k : A -> M B) (st : State) :
  bind (lift r) k st =
  match r with
  | Ok a => k a st
  | Err e => (Raised e, st)
  end.
Proof. destruct r; reflexivity. Qed.

(** A decorated remote function that builds its request first. *)
Lemma decorated_built (s : Session) (built : result Request)
  (info : Response -> list Event) (st : State) :
  request_logger debug_response
    (rq <- lift built ;; exchange remote (Some s) rq info) st =
  match built with
  | Ok rq => (Normal (fst (answer remote rq info st)), snd (answer remote rq info st))
  | Err e =>
      if Exn_eqb e RequestException
      then (Normal None, emit (Log CRITICAL "%s" []) st)
      else (Raised e, st)
  end.
Proof.
  destruct built as [rq|e].
  - rewrite <- (decorated_run s). unfold request_logger. now rewrite lift_bind.
  - unfold request_logger. now rewrite lift_bind.
Qed.

(** The decorator lets no [RequestException] through. *)
Lemma request_logger_swallows {A} (debug : A -> Event) (func : M A)
  (st st' : State) :
  func st = (Raised RequestException, st') ->
  request_logger debug func st = (Normal None, emit (Log CRITICAL "%s" []) st').
Proof. unfold request_logger. now intros ->. Qed.

Lemma request_logger_passes {A} (debug : A -> Event) (func : M A)
  (st st' : State) (e : Exn) :
  e <> RequestException ->
  func st = (Raised e, st') ->
  request_logger debug func st = (Raised e, st').
Proof.
  unfold request_logger. intros He ->. destruct e; try reflexivity. congruence.
Qed.

End Calls.

(** ** The deployment status check *)

Section StatusCheck.

Variable remote : nat -> Reply.
Variable s : Session.
Variable id : json.

(** One turn of the loop of lines 287-295. *)
Lemma status_check_turn (fuel : nat) (st : State) :
  ndo_deploy_status_check_func remote (S fuel) (Some s) id st =
  match remote (sent st) with
  | NoReply =>
      (Raised RequestException, extend [Http (GET_deployments id) NoReply] 1 st)
  | Replied r =>
      if good r then
        match taskStatus_of r with
        | Err e => (Raised e, extend [Http (GET_deployments id) (Replied r)] 1 st)
        | Ok status =>
            if Py.eq_str status "Error" then
              match first_site_msg r with
              | Err e =>
                  (Raised e, extend [Http (GET_deployments id) (Replied r)] 1 st)
              | Ok msg =>
                  (Raised RequestException,
                   extend [Http (GET_deployments id) (Replied r);
                           Log ERROR "%s" [msg]] 1 st)
              end
            else if Py.eq_str status "Complete" then
              (Normal r, extend (poll_events id r status) 1 st)
            else
              ndo_deploy_status_check_func remote fuel (Some s) id
                (extend (poll_events id r status) 1 st)
        end
      else
        (Raised RequestException,
         extend [Http (GET_deployments id) (Replied r)] 1 st)
  end.
Proof.
  cbn [ndo_deploy_status_check_func].
  unfold bind at 1. unfold session_request.
  change (emit (Http (GET_deployments id) (remote (sent st))) (count_request st))
    with (extend [Http (GET_deployments id) (remote (sent st))] 1 st).
  destruct (remote (sent st)) as [|r]; [reflexivity|].
  unfold bind at 1. unfold raise_for_status, good.
  destruct ((400 <=? status_code r) && (status_code r <? 600)); simpl;
    [reflexivity|].
  unfold taskStatus_of, first_site_msg, rbind.
  rewrite lift_bind.
  destruct (Py.getitem (body r) "operDetails") as [details|e]; [|reflexivity].
  rewrite lift_bind.
  destruct (Py.getitem details "taskStatus") as [status|e]; [|reflexivity].
  destruct (Py.eq_str status "Error").
  - unfold bind at 1. rewrite !lift_bind.
    destruct (Py.getitem details "execSiteStatus") as [sites|e]; [|reflexivity].
    rewrite lift_bind.
    destruct (Py.getindex sites 0) as [site|e]; [|reflexivity].
    rewrite lift_bind.
    destruct (Py.getitem site "status") as [status'|e]; [|reflexivity].
    rewrite lift_bind.
    destruct (Py.getitem status' "msg") as [msg|e]; [|reflexivity].
    rewrite lift_bind.
    destruct (Py.drop_last3 msg) as [msg'|e]; [|reflexivity].
    unfold bind, log, modify, raise.
    rewrite emit_extend, extend_extend. reflexivity.
  - unfold bind at 1. unfold ret at 1.
    unfold bind at 1. unfold log, modify.
    unfold bind at 1. unfold sleep, modify.
    rewrite !emit_extend, !extend_extend. simpl.
    destruct (Py.eq_str status "Complete"); reflexivity.
Qed.

Lemma pending_inv (rp : Reply) :
  pending rp = true ->
  exists r status,
    rp = Replied r /\ good r = true /\ taskStatus_of r = Ok status /\
    Py.eq_str status "Complete" = false /\ Py.eq_str status "Error" = false.
Proof.
  destruct rp as [|r]; simpl; [discriminate|].
  destruct (good r) eqn:Eg; simpl; [|discriminate].
  destruct (taskStatus_of r) as [status|e] eqn:Es; [|discriminate].
  intros H. apply andb_prop in H as [H1 H2].
  apply negb_true_iff in H1, H2. exists r, status. auto.
Qed.

Lemma observes_inv (status : string) (rp : Reply) :
  observes status rp = true ->
  exists r j,
    rp = Replied r /\ good r = true /\ taskStatus_of r = Ok j /\
    Py.eq_str j status = true.
Proof.
  destruct rp as [|r]; simpl; [discriminate|].
  destruct (good r) eqn:Eg; simpl; [|discriminate].
  destruct (taskStatus_of r) as [j|e] eqn:Es; [|discriminate].
  intros H. exists r, j. auto.
Qed.

Lemma eq_str_inj (j : json) (a b : string) :
  Py.eq_str j a = true -> Py.eq_str j b = true -> a = b.
Proof.
  destruct j; simpl; try discriminate.
  intros H1 H2. apply String.eqb_eq in H1, H2. congruence.
Qed.

Lemma getitem_err (j : json) (k : string) (e : Exn) :
  Py.getitem j k = Err e -> e = KeyError \/ e = TypeError.
Proof.
  destruct j; simpl; try (intros H; injection H as <-; auto).
  destruct (Py.dict_get k d); [discriminate|]. intros H; injection H as <-; auto.
Qed.

Lemma taskStatus_of_err (r : Response) (e : Exn) :
  taskStatus_of r = Err e -> e <> RequestException.
Proof.
  unfold taskStatus_of, rbind.
  destruct (Py.getitem (body r) "operDetails") as [d|e'] eqn:E; intros H.
  - apply getitem_err in H as [->| ->]; discriminate.
  - injection H as <-. apply getitem_err in E as [->| ->]; discriminate.
Qed.

(** While the polls are pending the loop goes on: each turn sends the
    poll, logs the status and sleeps for half a second. *)
Lemma status_check_pending (n : nat) :
  forall (fuel : nat) (st : State),
    (forall j, (j < n)%nat -> pending (remote (sent st + j)%nat) = true) ->
    ndo_deploy_status_check_func remote (n + fuel) (Some s) id st =
    ndo_deploy_status_check_func remote fuel (Some s) id
      (extend (waiting remote id (sent st) n) n st).
Proof.
  induction n as [|n IH]; intros fuel st Hp.
  - simpl. now rewrite extend_nil.
  - destruct (pending_inv _ (Hp 0%nat ltac:(lia))) as (r & status & Hr & Hg & Hs & Hc & He).
    rewrite Nat.add_0_r in Hr.
    cbn [Nat.add waiting]. rewrite status_check_turn, Hr, Hg, Hs, He, Hc.
    rewrite (IH fuel (extend (poll_events id r status) 1 st)).
    + rewrite extend_extend. cbn [sent extend]. rewrite Nat.add_1_r. reflexivity.
    + intros j Hj. cbn [sent extend]. specialize (Hp (S j) ltac:(lia)).
      now rewrite Nat.add_succ_r in Hp.
Qed.

Lemma sleeps_app (t1 t2 : list Event) :
  sleeps (t1 ++ t2) = sleeps t1 ++ sleeps t2.
Proof.
  induction t1 as [|[] t1 IH]; simpl; auto. now rewrite IH.
Qed.

Lemma waiting_pending (n : nat) :
  forall (from : nat),
    (forall j, (j < n)%nat -> pending (remote (from + j)%nat) = true) ->
    sleeps (waiting remote id from n) = repeat 500 n /\
    List.length (requests (waiting remote id from n)) = n /\
    silent CRITICAL (waiting remote id from n) = true /\
    silent ERROR (waiting remote id from n) = true.
Proof.
  induction n as [|n IH]; intros from Hp; [repeat split|].
  destruct (pending_inv _ (Hp 0%nat ltac:(lia))) as (r & status & Hr & _ & Hs & _).
  rewrite Nat.add_0_r in Hr. cbn [waiting]. rewrite Hr, Hs.
  destruct (IH (S from)) as (I1 & I2 & I3 & I4).
  { intros j Hj. specialize (Hp (S j) ltac:(lia)).
    now rewrite Nat.add_succ_r in Hp. }
  cbn [poll_events app sleeps requests List.length repeat].
  rewrite I1, I2. repeat split; simpl; assumption.
Qed.

Lemma getindex_err (j : json) (i : Z) (e : Exn) :
  Py.getindex j i = Err e -> e = IndexError \/ e = KeyError \/ e = TypeError.
Proof.
  unfold Py.getindex, Py.seq_index. intros H.
  destruct j; try (injection H as <-; auto);
    destruct (Py.norm_index _ _); try (injection H as <-; auto);
    destruct (nth_error _ _); try discriminate; injection H as <-; auto.
Qed.

(** The look-up of the first site's message fails with the exception of
    a subscript only. *)
Lemma first_site_msg_err (r : Response) (e : Exn) :
  first_site_msg r = Err e -> e = IndexError \/ e = KeyError \/ e = TypeError.
Proof.
  unfold first_site_msg, rbind.
  destruct (Py.getitem (body r) "operDetails") as [details|e1] eqn:E1.
  2:{ intros H. injection H as <-. apply getitem_err in E1. tauto. }
  destruct (Py.getitem details "execSiteStatus") as [sites|e2] eqn:E2.
  2:{ intros H. injection H as <-. apply getitem_err in E2. tauto. }
  destruct (Py.getindex sites 0) as [site|e3] eqn:E3.
  2:{ intros H. injection H as <-. now apply getindex_err in E3. }
  destruct (Py.getitem site "status") as [status|e4] eqn:E4.
  2:{ intros H. injection H as <-. apply getitem_err in E4. tauto. }
  destruct (Py.getitem status "msg") as [msg|e5] eqn:E5.
  2:{ intros H. injection H as <-. apply getitem_err in E5. tauto. }
  destruct msg; simpl; intros H; try discriminate; injection H as <-; auto.
Qed.

(** The undecorated check returns only a response whose status is Complete. *)
Lemma status_check_returns (fuel : nat) :
  forall (st st' : State) (r : Response),
    ndo_deploy_status_check_func remote fuel (Some s) id st = (Normal r, st') ->
    observes "Complete" (Replied r) = true /\
    exists k, remote (sent st + k)%nat = Replied r /\ sent st' = (S k + sent st)%nat.
Proof.
  induction fuel as [|fuel IH]; intros st st' r H; [discriminate|].
  rewrite status_check_turn in H.
  destruct (remote (sent st)) as [|r0] eqn:Er; [discriminate|].
  destruct (good r0) eqn:Eg; [|discriminate].
  destruct (taskStatus_of r0) as [status|e] eqn:Es; [|discriminate].
  destruct (Py.eq_str status "Error") eqn:Ee.
  { destruct (first_site_msg r0); discriminate. }
  destruct (Py.eq_str status "Complete") eqn:Ec.
  - injection H as <- <-. simpl. rewrite Eg, Es, Ec. split; [reflexivity|].
    exists 0%nat. now rewrite Nat.add_0_r.
  - apply IH in H as (Ho & k & Hk & Hsent). split; [assumption|].
    cbn [sent extend] in Hk, Hsent. exists (S k).
    rewrite Nat.add_succ_r. split; [assumption | lia].
Qed.

(** It raises a [RequestException] only on a poll that got no good
    response, or that observed Error. *)
Lemma status_check_raises (fuel : nat) :
  forall (st st' : State),
    ndo_deploy_status_check_func remote fuel (Some s) id st =
      (Raised RequestException, st') ->
    exists k,
      sent st' = (S k + sent st)%nat /\
      (observes "Error" (remote (sent st + k)%nat) = true \/
       match remote (sent st + k)%nat with
       | Replied r => good r = false
       | NoReply => True
       end).
Proof.
  induction fuel as [|fuel IH]; intros st st' H; [discriminate|].
  rewrite status_check_turn in H.
  destruct (remote (sent st)) as [|r0] eqn:Er.
  { injection H as <-. exists 0%nat. rewrite Nat.add_0_r, Er. auto. }
  destruct (good r0) eqn:Eg.
  2:{ injection H as <-. exists 0%nat. rewrite Nat.add_0_r, Er. auto. }
  destruct (taskStatus_of r0) as [status|e] eqn:Es.
  2:{ injection H as He _. subst e. now apply taskStatus_of_err in Es. }
  destruct (Py.eq_str status "Error") eqn:Ee.
  { exists 0%nat. rewrite Nat.add_0_r, Er. simpl. rewrite Eg, Es, Ee.
    destruct (first_site_msg r0) as [msg|e].
    - injection H as <-. split; [reflexivity | now left].
    - injection H as _ <-. split; [reflexivity | now left]. }
  destruct (Py.eq_str status "Complete") eqn:Ec; [discriminate|].
  apply IH in H as (k & Hsent & Hk).
  cbn [sent extend] in Hk, Hsent. exists (S k).
  rewrite Nat.add_succ_r. split; [lia | assumption].
Qed.

End StatusCheck.

(** C8, as stated, fails: the poll observes Error, the function body raises
    its [RequestException], and the decorated [ndo_deploy_status_check]
    returns [None] to its caller instead of raising. *)
Lemma status_check_error_is_swallowed :
  let remote := Fabric.slow 0 "Error" in
  observes "Error" (remote 0%nat) = true /\
  fst (ndo_deploy_status_check_func remote 3 (Some session_cookie) (JStr "task-1")
         initial_state) = Raised RequestException /\
  fst (ndo_deploy_status_check remote 3 (Some session_cookie) (JStr "task-1")
         initial_state) = Normal None.
Proof. vm_compute. repeat split. Qed.

(** An Error task that reports no site: line 292 raises [IndexError]
    before the [RequestException] of line 293 is reached, and the
    decorator lets it through. *)
Lemma status_check_unreadable_message :
  let remote := fun _ : nat => Fabric.reply 200 Fabric.siteless in
  observes "Error" (remote 0%nat) = true /\
  fst (ndo_deploy_status_check_func remote 3 (Some session_cookie) (JStr "task-1")
         initial_state) = Raised IndexError /\
  fst (ndo_deploy_status_check remote 3 (Some session_cookie) (JStr "task-1")
         initial_state) = Raised IndexError.
Proof. vm_compute. repeat split. Qed.

(** C8, amended -- After [n] pending polls, each followed by a sleep of
    half a second: if the next poll observes Complete, the function body
    and the decorated [ndo_deploy_status_check] return that response,
    after one more sleep; if it observes Error and the first site's
    message can be read, the body logs it and raises [RequestException],
    which [request_logger] logs and turns into a [None] result, so the
    caller sees no exception; if it observes Error and the message cannot
    be read, the [IndexError], [KeyError] or [TypeError] of that look-up
    passes the decorator and reaches the caller.  The
    decorated call returns a response only when a poll observed
    Complete.  While every poll is pending the loop goes on polling and
    sleeping, whatever budget it is given: there is no timeout. *)
Theorem status_check_outcomes (remote : nat -> Reply) (s : Session) (id : json)
  (st : State) (n : nat) :
  (forall j, (j < n)%nat -> pending (remote (sent st + j)%nat) = true) ->
  (forall r,
      remote (sent st + n)%nat = Replied r ->
      observes "Complete" (Replied r) = true ->
      forall fuel, (n < fuel)%nat ->
      exists st' status,
        ndo_deploy_status_check_func remote fuel (Some s) id st = (Normal r, st') /\
        ndo_deploy_status_check remote fuel (Some s) id st =
          (Normal (Some r), emit (debug_response r) st') /\
        sent st' = (S n + sent st)%nat /\
        trace st' =
          trace st ++ waiting remote id (sent st) n ++ poll_events id r status /\
        sleeps (waiting remote id (sent st) n ++ poll_events id r status)
          = repeat 500 (S n)) /\
  (forall r msg,
      remote (sent st + n)%nat = Replied r ->
      observes "Error" (Replied r) = true ->
      first_site_msg r = Ok msg ->
      forall fuel, (n < fuel)%nat ->
      exists st',
        ndo_deploy_status_check_func remote fuel (Some s) id st =
          (Raised RequestException, st') /\
        ndo_deploy_status_check remote fuel (Some s) id st =
          (Normal None, emit (Log CRITICAL "%s" []) st') /\
        sent st' = (S n + sent st)%nat /\
        trace st' =
          trace st ++ waiting remote id (sent st) n ++
          [Http (GET_deployments id) (Replied r); Log ERROR "%s" [msg]] /\
        sleeps (waiting remote id (sent st) n) = repeat 500 n) /\
  (forall r e,
      remote (sent st + n)%nat = Replied r ->
      observes "Error" (Replied r) = true ->
      first_site_msg r = Err e ->
      forall fuel, (n < fuel)%nat ->
      exists st',
        (e = IndexError \/ e = KeyError \/ e = TypeError) /\
        ndo_deploy_status_check_func remote fuel (Some s) id st = (Raised e, st') /\
        ndo_deploy_status_check remote fuel (Some s) id st = (Raised e, st') /\
        sent st' = (S n + sent st)%nat /\
        trace st' =
          trace st ++ waiting remote id (sent st) n ++
          [Http (GET_deployments id) (Replied r)]) /\
  (forall fuel r st',
      ndo_deploy_status_check remote fuel (Some s) id st = (Normal (Some r), st') ->
      observes "Complete" (Replied r) = true) /\
  ((forall j, pending (remote (sent st + j)%nat) = true) ->
   forall fuel,
   exists st',
     ndo_deploy_status_check_func remote fuel (Some s) id st = (Unfinished, st') /\
     ndo_deploy_status_check remote fuel (Some s) id st = (Unfinished, st') /\
     sent st' = (fuel + sent st)%nat /\
     trace st' = trace st ++ waiting remote id (sent st) fuel /\
     sleeps (waiting remote id (sent st) fuel) = repeat 500 fuel).
Proof.
  intros Hp.
  assert (Hw := waiting_pending remote id n (sent st) Hp).
  destruct Hw as (Wsleep & _).
  split; [|split; [|split; [|split]]].
  - intros r Hr Ho fuel Hf.
    pose proof (status_check_pending remote s id n (fuel - n) st Hp) as Ht.
    replace (n + (fuel - n))%nat with fuel in Ht by lia.
    destruct (fuel - n)%nat as [|f] eqn:Ef; [lia|].
    rewrite status_check_turn in Ht. cbn [sent extend] in Ht.
    rewrite (Nat.add_comm n), Hr in Ht.
    apply observes_inv in Ho as (r' & j & Hr' & Hg & Hs & Hc).
    injection Hr' as <-. rewrite Hg, Hs in Ht.
    assert (He : Py.eq_str j "Error" = false).
    { destruct (Py.eq_str j "Error") eqn:E; [|reflexivity].
      pose proof (eq_str_inj _ _ _ Hc E). discriminate. }
    rewrite He, Hc in Ht. eexists. exists j. split; [exact Ht|].
    split; [unfold ndo_deploy_status_check, request_logger; now rewrite Ht|].
    split; [cbn [sent extend]; lia|].
    split; [cbn [trace extend]; now rewrite <- app_assoc|].
    rewrite sleeps_app, Wsleep. cbn [poll_events sleeps repeat].
    symmetry. apply repeat_cons.
  - intros r msg Hr Ho Hm fuel Hf.
    pose proof (status_check_pending remote s id n (fuel - n) st Hp) as Ht.
    replace (n + (fuel - n))%nat with fuel in Ht by lia.
    destruct (fuel - n)%nat as [|f] eqn:Ef; [lia|].
    rewrite status_check_turn in Ht. cbn [sent extend] in Ht.
    rewrite (Nat.add_comm n), Hr in Ht.
    apply observes_inv in Ho as (r' & j & Hr' & Hg & Hs & Hc).
    injection Hr' as <-. rewrite Hg, Hs, Hc, Hm in Ht.
    eexists. split; [exact Ht|].
    split; [unfold ndo_deploy_status_check, request_logger; now rewrite Ht|].
    split; [cbn [sent extend]; lia|].
    split; [cbn [trace extend]; now rewrite <- app_assoc|].
    exact Wsleep.
  - intros r e Hr Ho Hm fuel Hf.
    pose proof (status_check_pending remote s id n (fuel - n) st Hp) as Ht.
    replace (n + (fuel - n))%nat with fuel in Ht by lia.
    destruct (fuel - n)%nat as [|f] eqn:Ef; [lia|].
    rewrite status_check_turn in Ht. cbn [sent extend] in Ht.
    rewrite (Nat.add_comm n), Hr in Ht.
    apply observes_inv in Ho as (r' & j & Hr' & Hg & Hs & Hc).
    injection Hr' as <-. rewrite Hg, Hs, Hc, Hm in Ht.
    pose proof (first_site_msg_err r e Hm) as Hne.
    eexists. split; [exact Hne|]. split; [exact Ht|].
    split.
    { unfold ndo_deploy_status_check, request_logger. rewrite Ht.
      destruct Hne as [->|[->| ->]]; reflexivity. }
    split; [cbn [sent extend]; lia|].
    cbn [trace extend]. now rewrite <- app_assoc.
  - intros fuel r st' H.
    unfold ndo_deploy_status_check, request_logger in H.
    destruct (ndo_deploy_status_check_func remote fuel (Some s) id st)
      as [[r0|e|] st0] eqn:E.
    + injection H as <- _. now apply status_check_returns in E.
    + destruct (Exn_eqb e RequestException); discriminate.
    + discriminate.
  - intros Hall fuel.
    pose proof (status_check_pending remote s id fuel 0 st (fun j _ => Hall j)) as Ht.
    rewrite Nat.add_0_r in Ht. cbn [ndo_deploy_status_check_func] in Ht.
    eexists. split; [exact Ht|].
    split; [unfold ndo_deploy_status_check, request_logger; now rewrite Ht|].
    split; [reflexivity|]. split; [reflexivity|].
    apply (waiting_pending remote id fuel (sent st) (fun j _ => Hall j)).
Qed.

(** Two polls in progress, then Complete: the third poll ends the check,
    after three sleeps of half a second. *)
Lemma status_check_outcomes_witness :
  exists r st',
    Fabric.slow 2 "Complete" 2%nat = Replied r /\
    ndo_deploy_status_check (Fabric.slow 2 "Complete") 3 (Some session_cookie)
      (JStr "task-1") initial_state = (Normal (Some r), emit (debug_response r) st') /\
    sent st' = 3%nat /\
    sleeps (trace st') = [500; 500; 500].
Proof.
  eexists.
  destruct (proj1 (status_check_outcomes (Fabric.slow 2 "Complete") session_cookie
                     (JStr "task-1") initial_state 2
                     (fun j Hj =>
                        match j as j0 return (j0 < 2)%nat -> pending (Fabric.slow 2 "Complete" (0 + j0)%nat) = true with
                        | 0%nat | 1%nat => fun _ => eq_refl
                        | S (S _) => fun H => ltac:(lia)
                        end Hj))
              _ eq_refl eq_refl 3%nat ltac:(lia))
    as (st' & status & _ & H & Hs & Ht & Hz).
  exists st'. split; [reflexivity|]. split; [exact H|]. split; [exact Hs|].
  rewrite Ht. exact Hz.
Defined.

(** ** The start of [main]: session, schemas, and the count check *)

Lemma get_ndo_session_run (remote : nat -> Reply) (st : State) :
  get_ndo_session remote st =
  match remote (sent st) with
  | Replied r =>
      if good r
      then (Normal (Some session_cookie),
            extend [Http POST_login (Replied r);
                    Log INFO "User '%(user)s' successfully authenticated to %(url)s" [];
                    debug_session session_cookie] 1 st)
      else (Normal None,
            extend [Http POST_login (Replied r); Log CRITICAL "%s" []] 1 st)
  | NoReply =>
      (Normal None, extend [Http POST_login NoReply; Log CRITICAL "%s" []] 1 st)
  end.
Proof.
  unfold get_ndo_session, get_ndo_session_func, request_logger.
  unfold bind at 1. rewrite exchange_run.
  destruct (remote (sent st)) as [|r]; simpl.
  - now rewrite emit_extend, extend_extend.
  - destruct (good r); simpl; now rewrite emit_extend, extend_extend.
Qed.

Lemma get_ndo_schemas_None (remote : nat -> Reply) (st : State) :
  get_ndo_schemas remote None st = (Raised AttributeError, st).
Proof. reflexivity. Qed.

Lemma get_ndo_schemas_run (remote : nat -> Reply) (s : Session) (st : State) :
  get_ndo_schemas remote (Some s) st =
  let a := answer remote GET_schemas
             (fun _ => [Log INFO "Received all schemas information from %s" []]) st in
  (Normal (fst a), snd a).
Proof. apply decorated_run. Qed.

Lemma trace_extend (t : list Event) (n : nat) (st : State) :
  trace (extend t n st) = trace st ++ t.
Proof. reflexivity. Qed.

Lemma sent_extend (t : list Event) (n : nat) (st : State) :
  sent (extend t n st) = (n + sent st)%nat.
Proof. reflexivity. Qed.

Lemma same_variables_extend (t : list Event) (n : nat) (st : State) :
  same_variables st (extend t n st).
Proof. repeat split. Qed.

Lemma same_variables_set_schemas (j : json) (st : State) :
  same_variables st (set_schemas j st).
Proof. repeat split. Qed.

Lemma same_variables_trans (st1 st2 st3 : State) :
  same_variables st1 st2 -> same_variables st2 st3 -> same_variables st1 st3.
Proof.
  unfold same_variables. intuition congruence.
Qed.

(** C7 -- Unequal lists of source and destination units: the run ends with
    an exception before the unit loop, having sent no patch and no
    deployment task and mapped no unit; whenever the session and the
    schemas were obtained, the exception is the [sys.exit()] of the count
    check, after its error message. *)
Theorem count_mismatch_aborts (remote : nat -> Reply) (fuel : nat)
  (src_epgs : list Src.row) (dst_epgs : list Dst.row) (st : State) :
  List.length src_epgs <> List.length dst_epgs ->
  exists e st' t,
    main remote fuel src_epgs dst_epgs st = (Raised e, st') /\
    trace st' = trace st ++ t /\
    read_only t = true /\
    same_variables st st' /\
    (forall r0 r1,
        remote (sent st) = Replied r0 -> good r0 = true ->
        remote (S (sent st)) = Replied r1 -> good r1 = true ->
        e = SystemExit /\
        In (Log ERROR "Source and destination EPG quantities don't match...Exiting" [])
           t).
Proof.
  intros Hlen. apply Nat.eqb_neq in Hlen.
  unfold main. unfold bind at 1. rewrite get_ndo_session_run.
  destruct (remote (sent st)) as [|r0] eqn:E0.
  - (* no session: [session.get] on [None] *)
    do 3 eexists. split; [reflexivity|]. split; [reflexivity|].
    repeat split. all: discriminate.
  - destruct (good r0) eqn:G0.
    2:{ do 3 eexists. split; [reflexivity|]. split; [reflexivity|].
        repeat split. all: intros; congruence. }
    unfold bind at 1. rewrite get_ndo_schemas_run. unfold answer.
    cbn [sent extend]. 
    destruct (remote (1 + sent st)%nat) as [|r1] eqn:E1.
    + cbn. do 3 eexists. split; [reflexivity|]. split.
      { rewrite !trace_extend, <- !app_assoc. reflexivity. }
      repeat split. all: intros; simpl in *; congruence.
    + destruct (good r1) eqn:G1.
      * cbn [fst snd]. unfold bind at 1. cbn [json_of].
        unfold ret at 1. unfold bind at 1. unfold modify at 1.
        unfold bind at 1. rewrite Hlen.
        unfold bind at 1. unfold log, modify, raise.
        do 3 eexists. split; [reflexivity|]. split.
        { cbn [trace emit set_schemas]. rewrite !trace_extend, <- !app_assoc. reflexivity. }
        repeat split. intros. simpl. auto 10.
      * cbn. do 3 eexists. split; [reflexivity|]. split.
        { rewrite !trace_extend, <- !app_assoc. reflexivity. }
        repeat split. all: intros; simpl in *; congruence.
Qed.

(** One source unit against two destination units, on a healthy NDO. *)
Lemma count_mismatch_aborts_witness :
  exists st' t,
    main Fabric.healthy 5 [Fabric.src1] [Fabric.dst1; Fabric.dst2] initial_state
      = (Raised SystemExit, st') /\
    trace st' = t /\ read_only t = true.
Proof.
  destruct (count_mismatch_aborts Fabric.healthy 5 [Fabric.src1]
              [Fabric.dst1; Fabric.dst2] initial_state ltac:(simpl; lia))
    as (e & st' & t & Hm & Ht & Hr & _ & He).
  destruct (He _ _ eq_refl eq_refl eq_refl eq_refl) as [-> _].
  exists st', t. auto.
Defined.

(** ** The mapping of the endpoint group *)

Lemma map_epg_Normal (dst : Dst.row) (st st' : State) :
  map_epg dst st = (Normal tt, st') ->
  exists t s bdRef,
    copy_items (Py.keys (ndo_epg_tmpl_dict st)) (src_epg_tmpl_data st)
      (ndo_epg_tmpl_dict st) = (t, None) /\
    Py.dict_get "bdRef" (ndo_bd_site_dict st) = Some bdRef /\
    copy_items (Py.keys (ndo_epg_site_dict st)) (src_epg_site_data st)
      (ndo_epg_site_dict st) = (s, None) /\
    st' = store dst_epg_site_data
            (Py.dict_set "epgRef"
               (JStr (dst_epg_ref_of dst (Dst.epgName dst))) s)
            (store dst_epg_tmpl_data (placed_epg dst bdRef t) st).
Proof.
  intros H. unfold map_epg in H.
  bind_step H. apply copy_from_Normal in Hm as (t & Ht & ->).
  bind_step H. apply getitem_of_Normal in Hm as [Hb ->].
  do 4 (bind_step H; rewrite setitem_run in Hm; injection Hm as <-).
  bind_step H. apply copy_from_Normal in Hm as (s' & Hs' & ->).
  bind_step H. apply getitem_of_Normal in Hm as [_ ->].
  rewrite setitem_run in H. injection H as <-.
  simpl in *. exists t, s'. eexists. repeat split; eauto.
Qed.

Lemma placed_epg_other (dst : Dst.row) (bdRef : json) (t : dict) (k : string) :
  k <> "bdRef" -> k <> "name" -> k <> "displayName" -> k <> "preferredGroup" ->
  Py.dict_get k (placed_epg dst bdRef t) = Py.dict_get k t.
Proof.
  intros. unfold placed_epg. rewrite !dict_get_set_other by congruence. reflexivity.
Qed.

(** The destination template EPG keeps the contract relationships of the
    source EPG: the consumer relationship of the destination row is built
    (lines 962-964) and never stored. *)
Lemma map_epg_contractRelationships (dst : Dst.row) (st st' : State) :
  skeleton_keys st ->
  map_epg dst st = (Normal tt, st') ->
  exists v,
    Py.getitem (src_epg_tmpl_data st) "contractRelationships" = Ok v /\
    Py.dict_get "contractRelationships" (ndo_epg_tmpl_dict st') = Some v.
Proof.
  intros (_ & _ & Hk & _) H.
  apply map_epg_Normal in H as (t & s & b & Ht & _ & _ & ->).
  destruct (copy_items_copied _ _ "contractRelationships" _ _ Ht) as (v & Hv & Hd).
  { rewrite Hk. simpl. auto 20. }
  exists v. split; [assumption|]. simpl.
  rewrite placed_epg_other by congruence. assumption.
Qed.

(** C1 -- the code at a unit whose source EPG has no contract: the payload
    of the template-EPG [add] patch has the destination BD path, the
    destination name and [preferredGroup = true], and its
    [contractRelationships] is the empty list of the source EPG; the consumer
    relationship of the destination row is not in it. *)
Theorem consumer_contract_not_attached :
  let st := snd (main Fabric.healthy 5 [Fabric.src1] [Fabric.dst1] initial_state) in
  exists payload,
    added_epgs (trace st) = [payload] /\
    Py.getitem payload "bdRef" = Ok (JStr (dst_bd_ref_of Fabric.dst1)) /\
    Py.getitem payload "name" = Ok (JStr (Dst.epgName Fabric.dst1)) /\
    Py.getitem payload "displayName" = Ok (JStr (Dst.epgName Fabric.dst1)) /\
    Py.getitem payload "preferredGroup" = Ok (JBool true) /\
    Py.getitem payload "contractRelationships" = Ok (JList []) /\
    Py.getitem payload "contractRelationships"
      <> Ok (JList [consumer_of Fabric.dst1]).
Proof.
  vm_compute. eexists. repeat split. discriminate.
Qed.

(** ** Two invocations of the mapping *)

(** C2 -- the code at two units mapped one after the other.  The skeleton
    dictionaries are created once (lines 797-814) and lines 896-930 assign
    into them, so no invocation starts from a fresh copy.  Unit 2 (whose
    [l2Stretch] is unset) is mapped once from the skeletons of lines
    797-814 and once after unit 1: the source objects are the same, the
    invocation after unit 1 starts from a template dictionary that is no
    longer the default one, both invocations return, and the two
    destination template BDs differ in their subnets: the one mapped after
    unit 1 carries the subnet of unit 1.  Mapping unit 1 also changed its
    source template BD in the tree: it gained a [vmac]. *)
Theorem mapping_depends_on_previous_unit :
  let fresh := Fabric.resolved Fabric.src2 Fabric.loaded in
  let after1 :=
    snd (mapping Fabric.dst1 (Fabric.resolved Fabric.src1 Fabric.loaded)) in
  let used := Fabric.resolved Fabric.src2 after1 in
  (src_bd_tmpl_data fresh = src_bd_tmpl_data used /\
   src_bd_site_data fresh = src_bd_site_data used /\
   src_epg_tmpl_data fresh = src_epg_tmpl_data used /\
   src_epg_site_data fresh = src_epg_site_data used) /\
  Py.dict_get "subnets" (ndo_bd_tmpl_dict used)
    <> Py.dict_get "subnets" (ndo_bd_tmpl_dict initial_state) /\
  fst (mapping Fabric.dst2 fresh) = Normal tt /\
  fst (mapping Fabric.dst2 used) = Normal tt /\
  Py.dict_get "subnets" (ndo_bd_tmpl_dict (snd (mapping Fabric.dst2 fresh)))
    = Some (JList []) /\
  Py.dict_get "subnets" (ndo_bd_tmpl_dict (snd (mapping Fabric.dst2 used)))
    = Some (JList [Fabric.bd_subnet "10.14.1.1/24"]) /\
  Py.getitem Fabric.bd1 "vmac" = Err KeyError /\
  option_map (fun bd => Py.getitem bd "vmac")
    (json_at [SKey "schemas"; SIdx 0; SKey "templates"; SIdx 0; SKey "bds"; SIdx 0]
       (ndo_schemas_json after1)) = Some (Ok (JStr "")).
Proof. vm_compute. repeat split; discriminate. Qed.

Lemma with_vmac_src_data (st : State) (d : dict) :
  src_bd_tmpl_data st = JDict d ->
  src_bd_tmpl_data (with_vmac st) =
  on_dict (Py.setdefault "vmac" (JStr "")) (src_bd_tmpl_data st).
Proof.
  intros Hd. unfold with_vmac. rewrite Hd. simpl.
  unfold Py.setdefault.
  destruct (Py.dict_get "vmac" d) eqn:E; simpl; rewrite Hd; simpl.
  - reflexivity.
  - unfold Py.setdefault. now rewrite E.
Qed.

Lemma skeleton_keys_NoDup (st : State) :
  skeleton_keys st ->
  NoDup (Py.keys (ndo_bd_tmpl_dict st)) /\
  NoDup (Py.keys (ndo_bd_site_dict st)) /\
  NoDup (Py.keys (ndo_epg_tmpl_dict st)) /\
  NoDup (Py.keys (ndo_epg_site_dict st)).
Proof.
  intros (-> & -> & -> & ->).
  repeat split;
    match goal with
    | |- NoDup ?l =>
        replace l with (nodup string_dec l) by (vm_compute; reflexivity);
        apply NoDup_nodup
    end.
Qed.

(** The copy loop of the BD block, run from two states with the same
    source objects. *)
Lemma copy_src_bd_forgets (st1 st2 r1 r2 : State) :
  skeleton_keys st1 -> skeleton_keys st2 ->
  src_bd_tmpl_data st1 = src_bd_tmpl_data st2 ->
  src_bd_site_data st1 = src_bd_site_data st2 ->
  (Py.getitem (src_bd_tmpl_data st1) "l2Stretch" = Ok (JBool true) \/
   Py.getitem (src_bd_tmpl_data st1) "l2Stretch" = Ok (JBool false)) ->
  copy_src_bd st1 = (Normal tt, r1) ->
  copy_src_bd st2 = (Normal tt, r2) ->
  ndo_bd_tmpl_dict r1 = ndo_bd_tmpl_dict r2 /\
  ndo_bd_site_dict r1 = ndo_bd_site_dict r2 /\
  ndo_epg_tmpl_dict r1 = ndo_epg_tmpl_dict st1 /\
  ndo_epg_site_dict r1 = ndo_epg_site_dict st1 /\
  src_bd_tmpl_data r1 =
    on_dict (Py.setdefault "vmac" (JStr "")) (src_bd_tmpl_data st1) /\
  src_bd_site_data r1 = src_bd_site_data st1 /\
  src_epg_tmpl_data r1 = src_epg_tmpl_data st1 /\
  src_epg_site_data r1 = src_epg_site_data st1.
Proof.
  intros K1 K2 Et Es Hs H1 H2.
  destruct (skeleton_keys_NoDup _ K1) as (N1 & N2 & _).
  destruct K1 as (K1a & K1b & _), K2 as (K2a & K2b & _).
  assert (Hv : src_bd_tmpl_data (with_vmac st1) = src_bd_tmpl_data (with_vmac st2)).
  { destruct Hs as [Hs|Hs]; destruct (getitem_is_dict _ _ _ Hs) as [d Hd];
      rewrite (with_vmac_src_data _ _ Hd);
      rewrite Et in Hd; rewrite (with_vmac_src_data _ _ Hd); now rewrite Et. }
  destruct (with_vmac_frame st1) as (_ & _ & F3 & F4 & F5 & F6 & F7).
  destruct Hs as [Hs|Hs].
  - pose proof Hs as Hs2. rewrite Et in Hs2.
    apply (copy_src_bd_stretched _ _ Hs) in H1 as (t1 & s1 & Ht1 & Hs1 & ->).
    apply (copy_src_bd_stretched _ _ Hs2) in H2 as (t2 & s2 & Ht2 & Hs2' & ->).
    rewrite <- Hv in Ht2. rewrite <- Es in Hs2'.
    assert (t1 = t2)
      by (apply (copy_items_forget _ _ _ _ _ N1 (eq_trans K1a (eq_sym K2a)) Ht1 Ht2)).
    assert (s1 = s2)
      by (apply (copy_items_forget _ _ _ _ _ N2 (eq_trans K1b (eq_sym K2b)) Hs1 Hs2')).
    subst. simpl. destruct (getitem_is_dict _ _ _ Hs) as [d Hd].
    rewrite (with_vmac_src_data _ _ Hd). auto 10.
  - pose proof Hs as Hs2. rewrite Et in Hs2.
    apply (copy_src_bd_local _ _ Hs) in H1 as (t1 & s1 & v1 & Ht1 & Hv1 & Hs1 & ->).
    apply (copy_src_bd_local _ _ Hs2) in H2 as (t2 & s2 & v2 & Ht2 & Hv2 & Hs2' & ->).
    rewrite <- Hv in Ht2. rewrite <- Es in Hs2', Hv2.
    assert (t1 = t2)
      by (apply (copy_items_forget _ _ _ _ _ N1 (eq_trans K1a (eq_sym K2a)) Ht1 Ht2)).
    assert (s1 = s2)
      by (apply (copy_items_forget _ _ _ _ _ N2 (eq_trans K1b (eq_sym K2b)) Hs1 Hs2')).
    assert (v1 = v2) by congruence.
    subst. simpl. destruct (getitem_is_dict _ _ _ Hs) as [d Hd].
    rewrite (with_vmac_src_data _ _ Hd). auto 10.
Qed.

(** When the source template BD has [l2Stretch] exactly [True] or exactly
    [False], every key of the skeletons is assigned: run from two states
    with the same source objects and the same destination row, the
    mapping yields the same four destination dictionaries, whatever the
    skeleton dictionaries held in each state; it leaves the source site BD
    and the two source EPG objects as they were and changes the source
    template BD only by [setdefault("vmac", "")]. *)
Lemma mapping_forgets_skeleton (dst : Dst.row) (st1 st2 r1 r2 : State) :
  skeleton_keys st1 -> skeleton_keys st2 ->
  src_bd_tmpl_data st1 = src_bd_tmpl_data st2 ->
  src_bd_site_data st1 = src_bd_site_data st2 ->
  src_epg_tmpl_data st1 = src_epg_tmpl_data st2 ->
  src_epg_site_data st1 = src_epg_site_data st2 ->
  (Py.getitem (src_bd_tmpl_data st1) "l2Stretch" = Ok (JBool true) \/
   Py.getitem (src_bd_tmpl_data st1) "l2Stretch" = Ok (JBool false)) ->
  mapping dst st1 = (Normal tt, r1) ->
  mapping dst st2 = (Normal tt, r2) ->
  (ndo_bd_tmpl_dict r1 = ndo_bd_tmpl_dict r2 /\
   ndo_bd_site_dict r1 = ndo_bd_site_dict r2 /\
   ndo_epg_tmpl_dict r1 = ndo_epg_tmpl_dict r2 /\
   ndo_epg_site_dict r1 = ndo_epg_site_dict r2) /\
  (src_bd_tmpl_data r1 =
     on_dict (Py.setdefault "vmac" (JStr "")) (src_bd_tmpl_data st1) /\
   src_bd_site_data r1 = src_bd_site_data st1 /\
   src_epg_tmpl_data r1 = src_epg_tmpl_data st1 /\
   src_epg_site_data r1 = src_epg_site_data st1).
Proof.
  intros K1 K2 Et Es Eet Ees Hs H1 H2.
  unfold mapping, map_bd in H1, H2.
  bind_step H1. bind_step Hm. bind_step H2. bind_step Hm1.
  rename Hm0 into C1, Hm into P1, H1 into M1, Hm2 into C2, Hm1 into P2, H2 into M2.
  pose proof (copy_src_bd_forgets _ _ _ _ K1 K2 Et Es Hs C1 C2)
    as (Bt & Bs & Xt & Xs & Sbt & Sbs & Set' & Ses).
  assert (Yt : ndo_epg_tmpl_dict s2 = ndo_epg_tmpl_dict st2 /\
               ndo_epg_site_dict s2 = ndo_epg_site_dict st2 /\
               src_epg_tmpl_data s2 = src_epg_tmpl_data st2 /\
               src_epg_site_data s2 = src_epg_site_data st2).
  { rewrite Et in Hs.
    pose proof (copy_src_bd_forgets _ _ _ _ K2 K2 eq_refl eq_refl Hs C2 C2).
    tauto. }
  destruct Yt as (Yt & Ys & Yet & Yes).
  apply place_bd_Normal in P1 as (sub1 & it1 & h1 & Hsub1 & Hit1 & Hh1 & ->).
  apply place_bd_Normal in P2 as (sub2 & it2 & h2 & Hsub2 & Hit2 & Hh2 & ->).
  rewrite <- Bt in Hsub2. rewrite <- Bs in Hh2.
  assert (sub1 = sub2) by congruence. subst sub2.
  assert (it1 = it2) by congruence. subst it2.
  assert (h1 = h2) by congruence. subst h2.
  apply map_epg_Normal in M1 as (t1 & e1 & b1 & Ht1 & Hb1 & He1 & ->).
  apply map_epg_Normal in M2 as (t2 & e2 & b2 & Ht2 & Hb2 & He2 & ->).
  simpl in *.
  assert (b1 = b2) by congruence. subst b2.
  destruct (skeleton_keys_NoDup _ K1) as (_ & _ & N3 & N4).
  destruct K1 as (_ & _ & K1c & K1d), K2 as (_ & _ & K2c & K2d).
  rewrite Xt, Set' in Ht1. rewrite Yt, Yet, <- Eet in Ht2.
  rewrite Xs, Ses in He1. rewrite Ys, Yes, <- Ees in He2.
  assert (t1 = t2)
    by (apply (copy_items_forget _ _ _ _ _ N3 (eq_trans K1c (eq_sym K2c)) Ht1 Ht2)).
  assert (e1 = e2)
    by (apply (copy_items_forget _ _ _ _ _ N4 (eq_trans K1d (eq_sym K2d)) He1 He2)).
  subst. rewrite Bt. auto 10.
Qed.

(** Unit 1, mapped from the default skeletons and again from the
    skeletons its own mapping left. *)
Lemma mapping_forgets_skeleton_witness :
  let st1 := Fabric.resolved Fabric.src1 Fabric.loaded in
  let r1 := snd (mapping Fabric.dst1 st1) in
  let st2 := Fabric.resolved Fabric.src1 (set_schemas Fabric.schemas r1) in
  let r2 := snd (mapping Fabric.dst1 st2) in
  ndo_bd_tmpl_dict r1 = ndo_bd_tmpl_dict r2 /\
  ndo_bd_site_dict r1 = ndo_bd_site_dict r2 /\
  ndo_epg_tmpl_dict r1 = ndo_epg_tmpl_dict r2 /\
  ndo_epg_site_dict r1 = ndo_epg_site_dict r2.
Proof.
  intros st1 r1 st2 r2.
  apply (mapping_forgets_skeleton Fabric.dst1 st1 st2 r1 r2);
    vm_compute; repeat split; auto.
Defined.

(** ** The remote phases of a unit *)

Lemma silent_app (lvl : Level) (t1 t2 : list Event) :
  silent lvl (t1 ++ t2) = silent lvl t1 && silent lvl t2.
Proof. apply forallb_app. Qed.

Ltac built_request H :=
  unfold rbind, allowed in H; simpl in H;
  repeat match type of H with
         | context [match ?r with Ok _ => _ | Err _ => _ end] =>
             lazymatch r with
             | context [match _ with Ok _ => _ | Err _ => _ end] => fail
             | _ => destruct r; try discriminate H; cbn beta iota in H
             end
         end;
  injection H as <-; do 2 eexists; repeat split.

Lemma tmpl_bds_request_add (data ref : json) (rq : Request) :
  tmpl_bds_request data ref "add" = Ok rq ->
  patches "add" on_tmpl_bd (Some data) rq.
Proof. intros H. unfold tmpl_bds_request in H. built_request H. Qed.

Lemma tmpl_bds_request_remove (data ref : json) (rq : Request) :
  tmpl_bds_request data ref "remove" = Ok rq ->
  patches "remove" on_tmpl_bd None rq.
Proof. intros H. unfold tmpl_bds_request in H. built_request H. Qed.

Lemma site_bds_request_replace (data : json) (siteId : string) (rq : Request) :
  site_bds_request data siteId "replace" = Ok rq ->
  patches "replace" on_site_bd (Some data) rq.
Proof. intros H. unfold site_bds_request in H. built_request H. Qed.

Lemma tmpl_epgs_request_add (data ref : json) (rq : Request) :
  tmpl_epgs_request data ref "add" = Ok rq ->
  patches "add" on_tmpl_epg (Some data) rq.
Proof. intros H. unfold tmpl_epgs_request in H. built_request H. Qed.

Lemma tmpl_epgs_request_remove (data ref : json) (rq : Request) :
  tmpl_epgs_request data ref "remove" = Ok rq ->
  patches "remove" on_tmpl_epg None rq.
Proof. intros H. unfold tmpl_epgs_request in H. built_request H. Qed.

Lemma site_epgs_request_replace (data : json) (siteId : string) (rq : Request) :
  site_epgs_request data siteId "replace" = Ok rq ->
  patches "replace" on_site_epg (Some data) rq.
Proof.
  intros H. unfold site_epgs_request in H. unfold rbind, allowed in H. simpl in H.
  destruct (epgRef_parts data) as [[[[a b] c] d]|]; [|discriminate].
  injection H as <-. do 2 eexists. repeat split.
Qed.

Lemma static_ports_request_replace (data : json) (siteId : string)
  (ports : json) (rq : Request) :
  static_ports_request data siteId ports "replace" = Ok rq ->
  patches "replace" on_static_ports (Some ports) rq.
Proof.
  intros H. unfold static_ports_request in H. unfold rbind, allowed in H.
  simpl in H.
  destruct (epgRef_parts data) as [[[[a b] c] d]|]; [|discriminate].
  injection H as <-. do 2 eexists. repeat split.
Qed.

Lemma accepted_good (rq : Request) (r : Response) :
  good r = true -> accepted (rq, Replied r).
Proof. intros G. exists r. auto. Qed.

Section Phases.

Variable remote : nat -> Reply.
Variable s : Session.

(** A decorated call that returned: the events it added, and what they
    are when no error was logged. *)
Lemma decorated_call (built : result Request) (info : Response -> list Event)
  (st st' : State) (x : option Response) :
  (forall r, exchanges (info r) = []) ->
  request_logger debug_response
    (rq <- lift built ;; exchange remote (Some s) rq info) st = (Normal x, st') ->
  exists t n,
    st' = extend t n st /\
    (silent CRITICAL t = true ->
     exists rq r,
       built = Ok rq /\ x = Some r /\ good r = true /\
       exchanges t = [(rq, Replied r)]).
Proof.
  intros Hinfo H. rewrite decorated_built in H.
  destruct built as [rq|e].
  - unfold answer in H. destruct (remote (sent st)) as [|r].
    + injection H as <- <-. do 2 eexists. split; [reflexivity|]. discriminate.
    + destruct (good r) eqn:G; injection H as <- <-;
        (do 2 eexists; split; [reflexivity|]).
      * intros _. exists rq, r. repeat split; auto.
        simpl. rewrite exchanges_app.
        pose proof (Hinfo r) as E.
        now rewrite E.
      * discriminate.
  - destruct (Exn_eqb e RequestException); [|discriminate].
    injection H as <- <-. exists [Log CRITICAL "%s" []], 0%nat.
    split; [reflexivity | discriminate].
Qed.

(** The events of the undecorated status check. *)
Lemma status_check_func_trace (id : json) (fuel : nat) :
  forall (st st' : State) (o : Outcome Response),
    ndo_deploy_status_check_func remote fuel (Some s) id st = (o, st') ->
    exists t n,
      st' = extend t n st /\
      silent CRITICAL t = true /\
      (forall r, o = Normal r ->
         exists front,
           exchanges t = front ++ [(GET_deployments id, Replied r)] /\
           Forall (fun x => fst x = GET_deployments id /\ pending (snd x) = true)
             front /\
           observes "Complete" (Replied r) = true).
Proof.
  induction fuel as [|fuel IH]; intros st st' o H.
  - injection H as <- <-. exists [], 0%nat. rewrite extend_nil.
    repeat split. discriminate.
  - rewrite status_check_turn in H.
    destruct (remote (sent st)) as [|r0].
    { injection H as <- <-. do 2 eexists. split; [reflexivity|].
      split; [reflexivity | discriminate]. }
    destruct (good r0) eqn:G.
    2:{ injection H as <- <-. do 2 eexists. split; [reflexivity|].
        split; [reflexivity | discriminate]. }
    destruct (taskStatus_of r0) as [status|e] eqn:Es.
    2:{ injection H as <- <-. do 2 eexists. split; [reflexivity|].
        split; [reflexivity | discriminate]. }
    destruct (Py.eq_str status "Error") eqn:Ee.
    { destruct (first_site_msg r0); injection H as <- <-;
        (do 2 eexists; split; [reflexivity|]; split; [reflexivity | discriminate]). }
    destruct (Py.eq_str status "Complete") eqn:Ec.
    + injection H as <- <-. do 2 eexists. split; [reflexivity|].
      split; [reflexivity|]. intros r Hr. injection Hr as <-.
      exists []. repeat split; auto.
      simpl. now rewrite G, Es, Ec.
    + apply IH in H as (t & n & -> & Hs & Ha).
      rewrite extend_extend. do 2 eexists. split; [reflexivity|].
      split; [rewrite silent_app, Hs; reflexivity|].
      intros r Hr. destruct (Ha r Hr) as (front & Hx & Hf & Ho).
      exists ((GET_deployments id, Replied r0) :: front).
      rewrite exchanges_app, Hx. repeat split; auto.
      apply Forall_cons; [|assumption]. split; [reflexivity|].
      simpl. now rewrite G, Es, Ee, Ec.
Qed.

(** The decorated status check that returned. *)
Lemma status_check_Normal (id : json) (fuel : nat) (st st' : State)
  (x : option Response) :
  ndo_deploy_status_check remote fuel (Some s) id st = (Normal x, st') ->
  exists t n,
    st' = extend t n st /\
    (silent CRITICAL t = true ->
     exists front r,
       exchanges t = front ++ [(GET_deployments id, Replied r)] /\
       Forall (fun x => fst x = GET_deployments id /\ pending (snd x) = true)
         front /\
       observes "Complete" (Replied r) = true).
Proof.
  unfold ndo_deploy_status_check, request_logger. intros H.
  destruct (ndo_deploy_status_check_func remote fuel (Some s) id st)
    as [[r|e|] st1] eqn:E; [| |discriminate].
  - injection H as <- <-.
    apply status_check_func_trace in E as (t & n & -> & _ & Ha).
    rewrite emit_extend, extend_extend. do 2 eexists. split; [reflexivity|].
    intros _. destruct (Ha r eq_refl) as (front & Hx & Hf & Ho).
    rewrite exchanges_app, Hx. simpl. rewrite app_nil_r.
    exists front, r. auto.
  - destruct (Exn_eqb e RequestException); [|discriminate].
    injection H as <- <-.
    apply status_check_func_trace in E as (t & n & -> & _ & _).
    rewrite emit_extend, extend_extend. do 2 eexists. split; [reflexivity|].
    rewrite silent_app. simpl. rewrite andb_false_r. discriminate.
Qed.

(** A deployment and its check that returned. *)
Lemma deploy_and_check_Normal (fuel : nat) (schm tmpl : string) (st st' : State) :
  deploy_and_check remote fuel (Some s) schm tmpl st = (Normal tt, st') ->
  exists t n,
    st' = extend t n st /\
    (silent CRITICAL t = true ->
     exists x polls,
       exchanges t = x :: polls /\
       fst x = POST_task schm tmpl /\ accepted x /\ awaited x polls).
Proof.
  unfold deploy_and_check. intros H.
  bind_step H. unfold deploy_ndo_template, deploy_ndo_template_func in Hm.
  rewrite decorated_run in Hm. injection Hm as <- <-.
  bind_step H. bind_step Hm.
  unfold answer in Hm0.
  destruct (remote (sent st)) as [|r]; [discriminate|].
  destruct (good r) eqn:G; [|discriminate].
  injection Hm0 as <- <-. apply lift_Normal in Hm as [Hid ->].
  bind_step H. injection H as <-.
  apply status_check_Normal in Hm as (t & n & -> & Ha).
  rewrite extend_extend. do 2 eexists. split; [reflexivity|].
  rewrite silent_app. intros Hs. apply andb_prop in Hs as [_ Hs].
  rewrite exchanges_app. simpl.
  destruct (Ha Hs) as (front & r' & Hx & Hf & Ho).
  eexists _, _. split; [reflexivity|].
  split; [reflexivity|]. split; [exists r; auto|].
  exists r, a, front, r'. auto.
Qed.

Lemma gets_run {A} (f : State -> A) (st st' : State) (a : A) :
  gets f st = (Normal a, st') -> a = f st /\ st' = st.
Proof. unfold gets. intros H. injection H as <- <-. auto. Qed.

(** The creation of the destination BD (lines 978-987). *)
Lemma create_dst_bd_Normal (fuel : nat) (dst : Dst.row) (bd_ref : json)
  (st st' : State) :
  create_dst_bd remote fuel (Some s) dst bd_ref st = (Normal tt, st') ->
  exists t n,
    st' = extend t n st /\
    (silent CRITICAL t = true ->
     exists bd_add bd_site dep polls,
       exchanges t = bd_add :: bd_site :: dep :: polls /\
       sends (tmpl_bds_request (JDict (ndo_bd_tmpl_dict st)) bd_ref "add")
         "add" on_tmpl_bd (Some (JDict (ndo_bd_tmpl_dict st))) (fst bd_add) /\
       sends (site_bds_request (JDict (ndo_bd_site_dict st)) (Dst.siteId dst)
                "replace")
         "replace" on_site_bd (Some (JDict (ndo_bd_site_dict st))) (fst bd_site) /\
       fst dep = POST_task (Dst.schemaId dst) (Dst.templName dst) /\
       awaited dep polls /\
       Forall accepted [bd_add; bd_site; dep]).
Proof.
  unfold create_dst_bd. intros H.
  bind_step H. apply gets_run in Hm as [-> ->].
  bind_step H. apply decorated_call in Hm as (t1 & n1 & -> & H1); [|reflexivity].
  bind_step H. apply gets_run in Hm as [-> ->].
  bind_step H. apply decorated_call in Hm as (t2 & n2 & -> & H2); [|reflexivity].
  apply deploy_and_check_Normal in H as (t3 & n3 & -> & H3).
  rewrite !extend_extend, <- ?app_assoc. do 2 eexists. split; [reflexivity|].
  rewrite !silent_app. intros Hs.
  apply andb_prop in Hs as [Hs1 Hs]. apply andb_prop in Hs as [Hs2 Hs3].
  destruct (H1 Hs1) as (rq1 & r1 & Hb1 & _ & G1 & X1).
  destruct (H2 Hs2) as (rq2 & r2 & Hb2 & _ & G2 & X2).
  destruct (H3 Hs3) as (x3 & polls & X3 & Hd & A3 & Hp).
  rewrite !exchanges_app, X1, X2, X3. simpl.
  do 4 eexists. split; [reflexivity|]. simpl.
  split; [split; [exact Hb1 | now apply tmpl_bds_request_add in Hb1]|].
  split; [split; [exact Hb2 | now apply site_bds_request_replace in Hb2]|].
  repeat split; auto.
  repeat apply Forall_cons; auto using accepted_good.
Qed.

End Phases.

(** ** What a computation preserves *)

Section Preserved.

Variable P : State -> State -> Prop.
Hypothesis P_refl : forall st, P st st.
Hypothesis P_trans : forall st1 st2 st3, P st1 st2 -> P st2 st3 -> P st1 st3.

Lemma preserves_ret {A} (a : A) : preserves P (ret a).
Proof. intros st o st' H. injection H as _ <-. apply P_refl. Qed.

Lemma preserves_raise {A} (e : Exn) : preserves P (@raise A e).
Proof. intros st o st' H. injection H as _ <-. apply P_refl. Qed.

Lemma preserves_lift {A} (r : result A) : preserves P (lift r).
Proof.
  intros st o st' H. destruct r; injection H as _ <-; apply P_refl.
Qed.

Lemma preserves_gets {A} (f : State -> A) : preserves P (gets f).
Proof. intros st o st' H. injection H as _ <-. apply P_refl. Qed.

Lemma preserves_modify (f : State -> State) :
  (forall st, P st (f st)) -> preserves P (modify f).
Proof. intros Hf st o st' H. injection H as _ <-. apply Hf. Qed.

Lemma preserves_bind {A B} (m : M A) (k : A -> M B) :
  preserves P m -> (forall a, preserves P (k a)) -> preserves P (bind m k).
Proof.
  intros Hm Hk st o st' H. unfold bind in H.
  destruct (m st) as [[a|e|] st1] eqn:E.
  - eapply P_trans; [eapply Hm; eauto | eapply Hk; eauto].
  - injection H as _ <-. eapply Hm; eauto.
  - injection H as _ <-. eapply Hm; eauto.
Qed.

Lemma preserves_for_each {A} (l : list A) (body : A -> M unit) :
  (forall a, preserves P (body a)) -> preserves P (for_each l body).
Proof.
  intros Hb. induction l as [|a l IH]; simpl.
  - apply preserves_ret.
  - apply preserves_bind; auto.
Qed.

Lemma preserves_try_except {A} (m : M A) (exc : Exn) (handler : M A) :
  preserves P m -> preserves P handler -> preserves P (try_except m exc handler).
Proof.
  intros Hm Hh st o st' H. unfold try_except in H.
  destruct (m st) as [[a|e|] st1] eqn:E.
  - injection H as _ <-. eapply Hm; eauto.
  - destruct (Exn_eqb e exc).
    + eapply P_trans; [eapply Hm; eauto | eapply Hh; eauto].
    + injection H as _ <-. eapply Hm; eauto.
  - injection H as _ <-. eapply Hm; eauto.
Qed.

Lemma preserves_if {A} (b : bool) (m1 m2 : M A) :
  preserves P m1 -> preserves P m2 -> preserves P (if b then m1 else m2).
Proof. destruct b; auto. Qed.

Lemma preserves_src_item (x : State -> json) (key : string) :
  preserves P (src_item x key).
Proof.
  apply preserves_bind; [apply preserves_gets | intros; apply preserves_lift].
Qed.

Lemma preserves_getitem_of (a : alias) (key : string) :
  preserves P (getitem_of a key).
Proof.
  apply preserves_bind; [apply preserves_gets | intros; apply preserves_lift].
Qed.

Lemma preserves_row_at {A} (rows : list A) (i : nat) : preserves P (row_at rows i).
Proof.
  unfold row_at. destruct (nth_error rows i);
    [apply preserves_ret | apply preserves_raise].
Qed.

Ltac preserved_step :=
  lazymatch goal with
  | |- preserves _ (bind _ _) => apply preserves_bind; [|intros]
  | |- preserves _ (ret _) => apply preserves_ret
  | |- preserves _ (raise _) => apply preserves_raise
  | |- preserves _ (lift _) => apply preserves_lift
  | |- preserves _ (gets _) => apply preserves_gets
  | |- preserves _ (src_item _ _) => apply preserves_src_item
  | |- preserves _ (getitem_of _ _) => apply preserves_getitem_of
  | |- preserves _ (row_at _ _) => apply preserves_row_at
  | |- preserves _ (if _ then _ else _) => apply preserves_if
  | |- preserves _ (for_each _ _) => apply preserves_for_each; intros
  | |- preserves _ (match ?p with pair _ _ => _ end) => destruct p
  end.

(** The look-up of the source objects changes the source variables only. *)
Lemma preserves_resolve (src : Src.row) :
  (forall x j p st, P st (assign x j p st)) ->
  preserves P (resolve src).
Proof.
  intros Ha. unfold resolve.
  repeat first [ preserved_step | apply preserves_modify; intros; apply Ha ].
Qed.

(** *** The mapping *)

Section Mapping.

Hypothesis P_copy : forall a src st,
  P st (store a (fst (copy_items (Py.keys (deref a st)) src (deref a st))) st).
Hypothesis P_set : forall a key v st,
  In key (Py.keys (deref a initial_state)) ->
  P st (store a (Py.dict_set key v (deref a st)) st).
Hypothesis P_routing : forall subnets bdName st,
  P st (store dst_bd_site_data
          (fst (hostBasedRouting_items subnets bdName (deref dst_bd_site_data st)))
          st).
Hypothesis P_debug : forall fmt args st, P st (emit (Log DEBUG fmt args) st).
Hypothesis P_mutate : forall f st, P st (mutate_src_bd_tmpl f st).

Lemma preserves_copy_from (a : alias) (src : State -> json) :
  preserves P (copy_from a src).
Proof.
  intros st o st' H. unfold copy_from in H.
  pose proof (P_copy a (src st) st) as Hc.
  destruct (copy_items _ _ _) as [d stop]. injection H as _ <-. exact Hc.
Qed.

Lemma preserves_setitem (a : alias) (key : string) (v : json) :
  In key (Py.keys (deref a initial_state)) ->
  preserves P (setitem a key v).
Proof. intros Hk. apply preserves_modify. intros st. now apply P_set. Qed.

Lemma preserves_default_vmac : preserves P default_vmac.
Proof.
  unfold default_vmac. apply preserves_try_except.
  - repeat preserved_step.
  - apply preserves_bind; [|intros; apply preserves_modify; intros; apply P_mutate].
    apply preserves_modify. intros. apply P_debug.
Qed.

Lemma preserves_routing_items (subnets : list json) (bdName : string) :
  preserves P
    (fun st =>
       let '(d, stop) :=
         hostBasedRouting_items subnets bdName (deref dst_bd_site_data st) in
       (match stop with None => Normal tt | Some e => Raised e end,
        store dst_bd_site_data d st)).
Proof.
  intros st o st' H.
  pose proof (P_routing subnets bdName st) as Hr.
  destruct (hostBasedRouting_items _ _ _). injection H as _ <-. exact Hr.
Qed.

Ltac mapping_step :=
  first
    [ preserved_step
    | lazymatch goal with
      | |- preserves _ default_vmac => apply preserves_default_vmac
      | |- preserves _ (copy_from _ _) => apply preserves_copy_from
      | |- preserves _ (setitem _ _ _) => apply preserves_setitem; simpl; tauto
      | |- preserves _ (fun st => _) => apply preserves_routing_items
      end ].

Lemma preserves_copy_src_bd : preserves P copy_src_bd.
Proof. unfold copy_src_bd. repeat mapping_step. Qed.

Lemma preserves_place_bd (dst : Dst.row) : preserves P (place_bd dst).
Proof. unfold place_bd, hostBasedRouting_loop. repeat mapping_step. Qed.

Lemma preserves_map_bd (dst : Dst.row) : preserves P (map_bd dst).
Proof.
  unfold map_bd. apply preserves_bind;
    [apply preserves_copy_src_bd | intros; apply preserves_place_bd].
Qed.

Lemma preserves_map_epg (dst : Dst.row) : preserves P (map_epg dst).
Proof. unfold map_epg. repeat mapping_step. Qed.

End Mapping.

(** *** The remote calls *)

Section RemoteCalls.

Variable remote : nat -> Reply.

Hypothesis P_emit : forall e st, P st (emit e st).
Hypothesis P_count : forall st, P st (count_request st).

Lemma preserves_log (lvl : Level) (fmt : string) (args : list json) :
  preserves P (log lvl fmt args).
Proof. apply preserves_modify. intros. apply P_emit. Qed.

Lemma preserves_sleep (ms : Z) : preserves P (sleep ms).
Proof. apply preserves_modify. intros. apply P_emit. Qed.

Lemma preserves_session_request (session : option Session) (rq : Request) :
  preserves P (session_request remote session rq).
Proof.
  destruct session as [c|]; simpl; [|apply preserves_raise].
  intros st o st' H.
  assert (Hp : P st (emit (Http rq (remote (sent st))) (count_request st)))
    by (eapply P_trans; [apply P_count | apply P_emit]).
  destruct (remote (sent st)); injection H as _ <-; exact Hp.
Qed.

Lemma preserves_raise_for_status (r : Response) : preserves P (raise_for_status r).
Proof.
  unfold raise_for_status. apply preserves_if;
    [apply preserves_raise | apply preserves_ret].
Qed.

Lemma preserves_exchange (session : option Session) (rq : Request)
  (info : Response -> list Event) :
  preserves P (exchange remote session rq info).
Proof.
  unfold exchange.
  apply preserves_bind; [apply preserves_session_request | intros].
  apply preserves_bind; [apply preserves_raise_for_status | intros].
  apply preserves_bind; [|intros; apply preserves_ret].
  apply preserves_for_each. intros. apply preserves_modify. intros. apply P_emit.
Qed.

Lemma preserves_request_logger {A} (debug : A -> Event) (func : M A) :
  preserves P func -> preserves P (request_logger debug func).
Proof.
  intros Hf st o st' H. unfold request_logger in H.
  destruct (func st) as [[a|e|] st1] eqn:E.
  - injection H as _ <-. eapply P_trans; [eapply Hf; eauto | apply P_emit].
  - destruct (Exn_eqb e RequestException); injection H as _ <-.
    + eapply P_trans; [eapply Hf; eauto | apply P_emit].
    + eapply Hf; eauto.
  - injection H as _ <-. eapply Hf; eauto.
Qed.

Lemma preserves_built (session : option Session) (built : result Request)
  (info : Response -> list Event) :
  preserves P
    (request_logger debug_response
       (rq <- lift built ;; exchange remote session rq info)).
Proof.
  apply preserves_request_logger.
  apply preserves_bind; [apply preserves_lift | intros; apply preserves_exchange].
Qed.

Ltac remote_step :=
  first
    [ preserved_step
    | lazymatch goal with
      | |- preserves _ (session_request _ _ _) => apply preserves_session_request
      | |- preserves _ (raise_for_status _) => apply preserves_raise_for_status
      | |- preserves _ (log _ _ _) => apply preserves_log
      | |- preserves _ (sleep _) => apply preserves_sleep
      | |- preserves _ (modify (emit _)) =>
          apply preserves_modify; intros; apply P_emit
      | |- preserves _ (patch_ndo_tmpl_bds _ _ _ _ _) => apply preserves_built
      | |- preserves _ (patch_ndo_site_bds _ _ _ _ _) => apply preserves_built
      | |- preserves _ (patch_ndo_tmpl_epgs _ _ _ _ _) => apply preserves_built
      | |- preserves _ (patch_ndo_site_epgs _ _ _ _ _) => apply preserves_built
      | |- preserves _ (patch_ndo_epg_static_ports _ _ _ _ _ _) =>
          apply preserves_built
      end ].

Lemma preserves_status_check_func (session : option Session) (id : json)
  (fuel : nat) :
  preserves P (ndo_deploy_status_check_func remote fuel session id).
Proof.
  induction fuel as [|fuel IH]; cbn [ndo_deploy_status_check_func].
  - intros st o st' H. injection H as _ <-. apply P_refl.
  - repeat first [ exact IH | remote_step ].
Qed.

Lemma preserves_deploy_and_check (fuel : nat) (session : option Session)
  (schm tmpl : string) :
  preserves P (deploy_and_check remote fuel session schm tmpl).
Proof.
  unfold deploy_and_check.
  apply preserves_bind; [|intros].
  { apply preserves_request_logger, preserves_exchange. }
  apply preserves_bind; [|intros].
  { apply preserves_bind; [|intros; apply preserves_lift].
    unfold json_of. destruct a; [apply preserves_ret | apply preserves_raise]. }
  apply preserves_bind; [|intros; apply preserves_ret].
  apply preserves_request_logger, preserves_status_check_func.
Qed.

Ltac phase_step :=
  first
    [ remote_step
    | lazymatch goal with
      | |- preserves _ (deploy_and_check _ _ _ _ _) =>
          apply preserves_deploy_and_check
      end ].

Lemma preserves_create_dst_bd (fuel : nat) (session : option Session)
  (dst : Dst.row) (bd_ref : json) :
  preserves P (create_dst_bd remote fuel session dst bd_ref).
Proof. unfold create_dst_bd. repeat phase_step. Qed.

Lemma preserves_create_dst_epg (session : option Session) (dst : Dst.row)
  (epg_ref : json) :
  preserves P (create_dst_epg remote session dst epg_ref).
Proof. unfold create_dst_epg. repeat phase_step. Qed.

Lemma preserves_detach_src_ports (fuel : nat) (session : option Session)
  (src : Src.row) :
  preserves P (detach_src_ports remote fuel session src).
Proof. unfold detach_src_ports. repeat phase_step. Qed.

Lemma preserves_grace_wait : preserves P grace_wait.
Proof. unfold grace_wait. repeat phase_step. Qed.

Lemma preserves_remove_src (fuel : nat) (session : option Session)
  (src : Src.row) (src_bf_ref src_epg_ref : json) :
  preserves P (remove_src remote fuel session src src_bf_ref src_epg_ref).
Proof. unfold remove_src. repeat phase_step. Qed.

Lemma preserves_confirm (i items : nat) : preserves P (confirm i items).
Proof. unfold confirm. repeat phase_step. Qed.

Lemma preserves_remote_phases (fuel : nat) (session : option Session)
  (src : Src.row) (dst : Dst.row) (i items : nat) :
  preserves P (remote_phases remote fuel session src dst i items).
Proof.
  unfold remote_phases.
  repeat lazymatch goal with
         | |- preserves _ (bind _ _) => apply preserves_bind; [|intros]
         | |- preserves _ (getitem_of _ _) => apply preserves_getitem_of
         | |- preserves _ (create_dst_bd _ _ _ _ _) => apply preserves_create_dst_bd
         | |- preserves _ (create_dst_epg _ _ _ _) => apply preserves_create_dst_epg
         | |- preserves _ (detach_src_ports _ _ _ _) =>
             apply preserves_detach_src_ports
         | |- preserves _ grace_wait => apply preserves_grace_wait
         | |- preserves _ (deploy_and_check _ _ _ _ _) =>
             apply preserves_deploy_and_check
         | |- preserves _ (remove_src _ _ _ _ _ _) => apply preserves_remove_src
         | |- preserves _ (confirm _ _) => apply preserves_confirm
         end.
Qed.

End RemoteCalls.

End Preserved.

(** ** The script of a unit whose calls were all accepted *)

Lemma for_each_sleep {A} (ms : Z) (l : list A) (st : State) :
  for_each l (fun _ => sleep ms) st =
  (Normal tt, extend (map (fun _ => Sleep ms) l) 0 st).
Proof.
  revert st. induction l as [|a l IH]; intros st; simpl.
  - now rewrite extend_nil.
  - unfold bind, sleep, modify. rewrite IH, emit_extend, extend_extend.
    reflexivity.
Qed.

Lemma exchanges_sleeps {A} (ms : Z) (l : list A) :
  exchanges (map (fun _ => Sleep ms) l) = [].
Proof. induction l; simpl; auto. Qed.

Lemma grace_wait_run (st : State) :
  exists t, grace_wait st = (Normal tt, extend t 0 st) /\ exchanges t = [].
Proof.
  unfold grace_wait. rewrite for_each_sleep. eexists. split; [reflexivity|].
  apply exchanges_sleeps.
Qed.

Section Script.

Variable remote : nat -> Reply.
Variable s : Session.

(** The creation of the destination EPG (lines 989-992). *)
Lemma create_dst_epg_Normal (dst : Dst.row) (epg_ref : json) (st st' : State) :
  create_dst_epg remote (Some s) dst epg_ref st = (Normal tt, st') ->
  exists t n,
    st' = extend t n st /\
    (silent CRITICAL t = true ->
     exists epg_add epg_site,
       exchanges t = [epg_add; epg_site] /\
       sends (tmpl_epgs_request (JDict (ndo_epg_tmpl_dict st)) epg_ref "add")
         "add" on_tmpl_epg (Some (JDict (ndo_epg_tmpl_dict st))) (fst epg_add) /\
       sends (site_epgs_request (JDict (ndo_epg_site_dict st)) (Dst.siteId dst)
                "replace")
         "replace" on_site_epg (Some (JDict (ndo_epg_site_dict st)))
         (fst epg_site) /\
       Forall accepted [epg_add; epg_site]).
Proof.
  unfold create_dst_epg. intros H.
  bind_step H. apply gets_run in Hm as [-> ->].
  bind_step H. apply (decorated_call remote s) in Hm as (t1 & n1 & -> & H1);
    [|reflexivity].
  bind_step H. apply gets_run in Hm as [-> ->].
  bind_step H. apply (decorated_call remote s) in Hm as (t2 & n2 & -> & H2);
    [|reflexivity].
  injection H as <-.
  rewrite !extend_extend. do 2 eexists. split; [reflexivity|].
  rewrite !silent_app. intros Hs. apply andb_prop in Hs as [Hs1 Hs2].
  destruct (H1 Hs1) as (rq1 & r1 & Hb1 & _ & G1 & X1).
  destruct (H2 Hs2) as (rq2 & r2 & Hb2 & _ & G2 & X2).
  rewrite !exchanges_app, X1, X2. simpl.
  do 2 eexists. split; [reflexivity|]. simpl.
  split; [split; [exact Hb1 | now apply tmpl_epgs_request_add in Hb1]|].
  split; [split; [exact Hb2 | now apply site_epgs_request_replace in Hb2]|].
  repeat apply Forall_cons; auto using accepted_good.
Qed.

(** The removal of the static ports of the source EPG (lines 994-1012). *)
Lemma detach_src_ports_Normal (fuel : nat) (src : Src.row) (st st' : State)
  (refs : json * json) :
  detach_src_ports remote fuel (Some s) src st = (Normal refs, st') ->
  exists t n,
    st' = extend t n st /\
    (silent CRITICAL t = true ->
     exists ports dep polls,
       exchanges t = ports :: dep :: polls /\
       Py.getitem (src_bd_site_data st) "bdRef" = Ok (fst refs) /\
       Py.getitem (src_epg_site_data st) "epgRef" = Ok (snd refs) /\
       sends (static_ports_request (src_epg_site_data st) (Src.siteId src)
                (JList []) "replace")
         "replace" on_static_ports (Some (JList [])) (fst ports) /\
       fst dep = POST_task (Src.schemaId src) (Src.templName src) /\
       awaited dep polls /\
       Forall accepted [ports; dep]).
Proof.
  unfold detach_src_ports. intros H.
  bind_step H. apply src_item_Normal in Hm as [Rbd ->].
  bind_step H. apply src_item_Normal in Hm as [Repg ->].
  bind_step H. apply gets_run in Hm as [-> ->].
  bind_step H. apply (decorated_call remote s) in Hm as (t1 & n1 & -> & H1);
    [|reflexivity].
  bind_step H. apply deploy_and_check_Normal in Hm as (t2 & n2 & -> & H2).
  injection H as <- <-.
  rewrite !extend_extend. do 2 eexists. split; [reflexivity|].
  rewrite !silent_app. intros Hs. apply andb_prop in Hs as [Hs1 Hs2].
  destruct (H1 Hs1) as (rq1 & r1 & Hb1 & _ & G1 & X1).
  destruct (H2 Hs2) as (x2 & polls & X2 & Hd & A2 & Hp).
  rewrite !exchanges_app, X1, X2. simpl.
  do 3 eexists. split; [reflexivity|]. simpl.
  split; [exact Rbd|]. split; [exact Repg|].
  split; [split; [exact Hb1 | now apply static_ports_request_replace in Hb1]|].
  repeat split; auto.
  repeat apply Forall_cons; auto using accepted_good.
Qed.

(** The removal of the source EPG and BD (lines 1028-1038). *)
Lemma remove_src_Normal (fuel : nat) (src : Src.row) (src_bf_ref src_epg_ref : json)
  (st st' : State) :
  remove_src remote fuel (Some s) src src_bf_ref src_epg_ref st = (Normal tt, st') ->
  exists t n,
    st' = extend t n st /\
    (silent CRITICAL t = true ->
     exists epg_rm bd_rm dep polls,
       exchanges t = epg_rm :: bd_rm :: dep :: polls /\
       sends (tmpl_epgs_request (src_epg_tmpl_data st) src_epg_ref "remove")
         "remove" on_tmpl_epg None (fst epg_rm) /\
       sends (tmpl_bds_request (src_bd_tmpl_data st) src_bf_ref "remove")
         "remove" on_tmpl_bd None (fst bd_rm) /\
       fst dep = POST_task (Src.schemaId src) (Src.templName src) /\
       awaited dep polls /\
       Forall accepted [epg_rm; bd_rm; dep]).
Proof.
  unfold remove_src. intros H.
  bind_step H. apply gets_run in Hm as [-> ->].
  bind_step H. apply (decorated_call remote s) in Hm as (t1 & n1 & -> & H1);
    [|reflexivity].
  bind_step H. apply gets_run in Hm as [-> ->].
  bind_step H. apply (decorated_call remote s) in Hm as (t2 & n2 & -> & H2);
    [|reflexivity].
  apply deploy_and_check_Normal in H as (t3 & n3 & -> & H3).
  rewrite !extend_extend, <- ?app_assoc. do 2 eexists. split; [reflexivity|].
  rewrite !silent_app. intros Hs.
  apply andb_prop in Hs as [Hs1 Hs]. apply andb_prop in Hs as [Hs2 Hs3].
  destruct (H1 Hs1) as (rq1 & r1 & Hb1 & _ & G1 & X1).
  destruct (H2 Hs2) as (rq2 & r2 & Hb2 & _ & G2 & X2).
  destruct (H3 Hs3) as (x3 & polls & X3 & Hd & A3 & Hp).
  rewrite !exchanges_app, X1, X2, X3. simpl.
  do 4 eexists. split; [reflexivity|]. simpl.
  split; [split; [exact Hb1 | now apply tmpl_epgs_request_remove in Hb1]|].
  split; [split; [exact Hb2 | now apply tmpl_bds_request_remove in Hb2]|].
  repeat split; auto.
  repeat apply Forall_cons; auto using accepted_good.
Qed.

Lemma confirm_Normal (i items : nat) (st st' : State) :
  confirm i items st = (Normal tt, st') ->
  exists t, st' = extend t 0 st /\ exchanges t = [].
Proof.
  unfold confirm. intros H.
  bind_step H. apply getitem_of_Normal in Hm as [_ ->].
  bind_step H. unfold log, modify in Hm. injection Hm as <-.
  destruct (Z.of_nat i <? Z.of_nat items - 1).
  - unfold modify in H. injection H as <-.
    rewrite !emit_extend, extend_extend. eexists. split; reflexivity.
  - injection H as <-. rewrite emit_extend. eexists. split; reflexivity.
Qed.

(** The remote phases of a unit (lines 971-1043). *)
Lemma remote_phases_Normal (fuel : nat) (src : Src.row) (dst : Dst.row)
  (i items : nat) (st st' : State) :
  remote_phases remote fuel (Some s) src dst i items st = (Normal tt, st') ->
  exists t n,
    st' = extend t n st /\
    (silent CRITICAL t = true -> follows_script src dst st (exchanges t)).
Proof.
  unfold remote_phases. intros H.
  bind_step H. apply getitem_of_Normal in Hm as [Rbd ->].
  bind_step H. apply getitem_of_Normal in Hm as [Repg ->].
  bind_step H. apply create_dst_bd_Normal in Hm as (t1 & n1 & -> & H1).
  bind_step H. apply create_dst_epg_Normal in Hm as (t2 & n2 & -> & H2).
  bind_step H. apply detach_src_ports_Normal in Hm as (t3 & n3 & -> & H3).
  bind_step H.
  match type of Hm with
  | grace_wait ?x = _ => destruct (grace_wait_run x) as (tg & Hg & Xg)
  end.
  rewrite Hg in Hm. injection Hm as <-.
  bind_step H. apply deploy_and_check_Normal in Hm as (t4 & n4 & -> & H4).
  bind_step H. apply remove_src_Normal in Hm as (t5 & n5 & -> & H5).
  apply confirm_Normal in H as (t6 & -> & X6).
  rewrite !extend_extend, <- ?app_assoc. do 2 eexists. split; [reflexivity|].
  rewrite !silent_app. intros Hs.
  apply andb_prop in Hs as [Hs1 Hs]. apply andb_prop in Hs as [Hs2 Hs].
  apply andb_prop in Hs as [Hs3 Hs]. apply andb_prop in Hs as [_ Hs].
  apply andb_prop in Hs as [Hs4 Hs]. apply andb_prop in Hs as [Hs5 _].
  destruct (H1 Hs1) as (bd_add & bd_site & dep1 & polls1 & X1 & P1 & P2 & D1 & A1 & F1).
  destruct (H2 Hs2) as (epg_add & epg_site & X2 & P3 & P4 & F2).
  destruct (H3 Hs3) as (ports & dep2 & polls2 & X3 & Sbd & Sepg & P5 & D2 & A2 & F3).
  destruct (H4 Hs4) as (dep3 & polls3 & X4 & D3 & Ac3 & A3).
  destruct (H5 Hs5) as (epg_rm & bd_rm & dep4 & polls4 & X5 & P6 & P7 & D4 & A4 & F5).
  rewrite !exchanges_app, X1, X2, X3, X4, X5, X6, Xg.
  match type of Sbd with _ = Ok ?b => set (src_bf_ref := b) in * end.
  match type of Sepg with _ = Ok ?b => set (src_epg_ref := b) in * end.
  match type of Rbd with _ = Some ?b => set (bd_ref := b) in * end.
  match type of Repg with _ = Some ?b => set (epg_ref := b) in * end.
  exists bd_ref, epg_ref, src_bf_ref, src_epg_ref,
    bd_add, bd_site, dep1, polls1, epg_add, epg_site, ports, dep2, polls2,
    dep3, polls3, epg_rm, bd_rm, dep4, polls4.
  split; [simpl; rewrite ?app_nil_r; reflexivity|].
  cbn [deref sent trace extend] in *.
  do 4 (split; [assumption|]).
  do 15 (split; [assumption|]).
  inversion F1 as [|? ? Fa F1']; inversion F1' as [|? ? Fb F1'']; 
    inversion F1'' as [|? ? Fc _]; subst.
  inversion F2 as [|? ? Fd F2']; inversion F2' as [|? ? Fe _]; subst.
  inversion F3 as [|? ? Ff F3']; inversion F3' as [|? ? Fg _]; subst.
  inversion F5 as [|? ? Fh F5']; inversion F5' as [|? ? Fi F5''];
    inversion F5'' as [|? ? Fj _]; subst.
  repeat apply Forall_cons; auto.
Qed.

End Script.

(** ** What the trace of a unit is made of *)

Lemma grows_refl (st : State) : grows st st.
Proof. exists []. now rewrite app_nil_r. Qed.

Lemma grows_trans (st1 st2 st3 : State) :
  grows st1 st2 -> grows st2 st3 -> grows st1 st3.
Proof.
  intros [t1 H1] [t2 H2]. exists (t1 ++ t2). now rewrite H2, H1, app_assoc.
Qed.

Lemma grows_same_trace (st st' : State) : trace st' = trace st -> grows st st'.
Proof. intros H. exists []. now rewrite app_nil_r. Qed.

Lemma grows_emit (e : Event) (st : State) : grows st (emit e st).
Proof. now exists [e]. Qed.

Lemma quiet_refl (st : State) : quiet st st.
Proof. split; [reflexivity|]. exists []. now rewrite app_nil_r. Qed.

Lemma quiet_trans (st1 st2 st3 : State) :
  quiet st1 st2 -> quiet st2 st3 -> quiet st1 st3.
Proof.
  intros [S1 (t1 & H1 & Q1)] [S2 (t2 & H2 & Q2)]. split; [congruence|].
  exists (t1 ++ t2). rewrite H2, H1, app_assoc, forallb_app, Q1, Q2. auto.
Qed.

Lemma quiet_same (st st' : State) :
  sent st' = sent st -> trace st' = trace st -> quiet st st'.
Proof.
  intros Hs Ht. split; [assumption|]. exists []. now rewrite app_nil_r.
Qed.

Lemma quiet_debug (fmt : string) (args : list json) (st : State) :
  quiet st (emit (Log DEBUG fmt args) st).
Proof. split; [reflexivity|]. now exists [Log DEBUG fmt args]. Qed.

Lemma debug_only (t : list Event) :
  forallb (is_log DEBUG) t = true ->
  exchanges t = [] /\ silent CRITICAL t = true /\ silent WARNING t = true.
Proof.
  induction t as [|e t IH]; simpl; [auto|].
  intros H. apply andb_prop in H as [He Ht]. destruct (IH Ht) as (X & C & W).
  destruct e as [| [] | |]; simpl in *; try discriminate; auto.
Qed.

(** The look-up and the mapping send nothing and log debug messages only. *)
Lemma resolve_quiet (src : Src.row) : preserves quiet (resolve src).
Proof.
  apply (preserves_resolve quiet quiet_refl quiet_trans).
  intros. now apply quiet_same.
Qed.

Lemma map_bd_quiet (dst : Dst.row) : preserves quiet (map_bd dst).
Proof.
  apply (preserves_map_bd quiet quiet_refl quiet_trans);
    auto using quiet_debug;
    intros; apply quiet_same; try reflexivity; destruct a; reflexivity.
Qed.

Lemma map_epg_quiet (dst : Dst.row) : preserves quiet (map_epg dst).
Proof.
  apply (preserves_map_epg quiet quiet_refl quiet_trans);
    intros; apply quiet_same; try reflexivity; destruct a; reflexivity.
Qed.

(** Whatever happens to a unit, the trace it started with is still there. *)
Lemma unit_body_grows (remote : nat -> Reply) (fuel : nat)
  (session : option Session) (src_epgs : list Src.row) (dst_epgs : list Dst.row)
  (items i : nat) :
  preserves grows (unit_body remote fuel session src_epgs dst_epgs items i).
Proof.
  assert (R := grows_refl). assert (T := grows_trans).
  unfold unit_body.
  apply (preserves_bind grows T); [now apply preserves_row_at | intros src].
  apply (preserves_bind grows T); [now apply preserves_row_at | intros dst].
  apply (preserves_bind grows T); [|intros _].
  { apply (preserves_resolve grows R T). intros. now apply grows_same_trace. }
  apply (preserves_bind grows T); [|intros _].
  { apply (preserves_map_bd grows R T); auto using grows_emit;
      intros; apply grows_same_trace; try reflexivity; destruct a; reflexivity. }
  apply (preserves_bind grows T); [|intros _].
  { apply (preserves_map_epg grows R T);
      intros; apply grows_same_trace; try reflexivity; destruct a; reflexivity. }
  apply (preserves_remote_phases grows R T); auto using grows_emit;
    intros; now apply grows_same_trace.
Qed.

(** ** The order of the phases *)

(** C6 -- A unit that returns with no error and no warning logged went
    through the script of lines 978-1038 with every call accepted: the
    template patch, the site patch and the deployment of the destination
    BD, and the polls of that deployment's own task id, pending until the
    last one observes Complete, come before the [add] patch of the
    destination template EPG; the [remove] patch of the source template EPG
    comes before the [remove] patch of the source template BD.  Each patch
    is the request its function builds from the arguments of the call: the
    added objects are the destination dictionaries under the destination
    [bdRef] and [epgRef], the removed ones are the source template EPG and
    BD under the source [epgRef] and [bdRef]. *)
Theorem phase_order (remote : nat -> Reply) (fuel : nat) (s : Session)
  (src_epgs : list Src.row) (dst_epgs : list Dst.row) (items i : nat)
  (st st' : State) (t : list Event) :
  migrate_unit remote fuel (Some s) src_epgs dst_epgs items i st = (Normal tt, st') ->
  trace st' = trace st ++ t ->
  silent CRITICAL t = true ->
  silent WARNING t = true ->
  exists src dst,
    nth_error src_epgs i = Some src /\
    nth_error dst_epgs i = Some dst /\
    follows_script src dst st' (exchanges t).
Proof.
  intros H Ht Hc Hw. unfold migrate_unit, try_except in H.
  destruct (unit_body remote fuel (Some s) src_epgs dst_epgs items i st)
    as [[[]|e|] st1] eqn:E.
  - injection H as <-. unfold unit_body in E.
    bind_step E. unfold row_at in Hm.
    destruct (nth_error src_epgs i) as [src|] eqn:Esrc; [|discriminate].
    injection Hm as <- <-.
    bind_step E. unfold row_at in Hm.
    destruct (nth_error dst_epgs i) as [dst|] eqn:Edst; [|discriminate].
    injection Hm as <- <-.
    bind_step E. apply resolve_quiet in Hm as [S1 (q1 & T1 & Q1)].
    bind_step E. apply map_bd_quiet in Hm as [S2 (q2 & T2 & Q2)].
    bind_step E. apply map_epg_quiet in Hm as [S3 (q3 & T3 & Q3)].
    apply remote_phases_Normal in E as (tr & n & -> & Hscript).
    exists src, dst. repeat split; auto.
    rewrite trace_extend, T3, T2, T1, <- !app_assoc in Ht.
    apply app_inv_head in Ht. subst t.
    apply debug_only in Q1 as (X1 & C1 & _).
    apply debug_only in Q2 as (X2 & C2 & _).
    apply debug_only in Q3 as (X3 & C3 & _).
    rewrite !silent_app in Hc.
    apply andb_prop in Hc as [_ Hc]. apply andb_prop in Hc as [_ Hc].
    apply andb_prop in Hc as [_ Hc].
    rewrite !exchanges_app, X1, X2, X3. simpl. now apply Hscript.
  - destruct (Exn_eqb e IndexError); [|discriminate].
    apply unit_body_grows in E as [t1 T1].
    unfold skip_unit, row_at in H.
    destruct (nth_error src_epgs i) as [src|]; [|discriminate].
    cbn in H. injection H as <-. cbn in Ht.
    rewrite T1, <- app_assoc in Ht. apply app_inv_head in Ht. subst t.
    rewrite silent_app in Hw. simpl in Hw. rewrite andb_false_r in Hw.
    discriminate.
  - discriminate.
Qed.

(** The first unit of the fabric on a healthy NDO. *)
Lemma phase_order_witness :
  let st' :=
    snd (migrate_unit Fabric.healthy 5 (Some session_cookie) [Fabric.src1]
           [Fabric.dst1] 1 0 Fabric.bootstrapped) in
  follows_script Fabric.src1 Fabric.dst1 st' (exchanges (trace st')).
Proof.
  intros st'.
  destruct (phase_order Fabric.healthy 5 session_cookie [Fabric.src1]
              [Fabric.dst1] 1 0 Fabric.bootstrapped st' (trace st'))
    as (src & dst & Hs & Hd & H).
  - vm_compute. reflexivity.
  - vm_compute. reflexivity.
  - vm_compute. reflexivity.
  - vm_compute. reflexivity.
  - injection Hs as <-. injection Hd as <-. exact H.
Defined.

(** ** Errors inside a unit *)

(** C3, as stated, fails.  With the first patch of unit 1 rejected (status
    500), the run logs the error and sends every request of the
    unrejected run: the unit's remaining phases are not stopped.  With the
    first deployment task rejected, the run ends with an [AttributeError]
    after five requests: the loop does not continue with unit 2. *)
Lemma rejected_calls_in_a_unit :
  let units := main Fabric.healthy 5 [Fabric.src1; Fabric.src3]
                 [Fabric.dst1; Fabric.dst3] initial_state in
  let rejected_patch :=
    main (Fabric.except_at 2 (Fabric.reply 500 JNone)) 5
      [Fabric.src1; Fabric.src3] [Fabric.dst1; Fabric.dst3] initial_state in
  let rejected_deploy :=
    main (Fabric.except_at 4 (Fabric.reply 500 JNone)) 5
      [Fabric.src1; Fabric.src3] [Fabric.dst1; Fabric.dst3] initial_state in
  fst rejected_patch = Normal tt /\
  silent CRITICAL (trace (snd rejected_patch)) = false /\
  requests (trace (snd rejected_patch)) = requests (trace (snd units)) /\
  List.length (requests (trace (snd units))) = 32%nat /\
  fst rejected_deploy = Raised AttributeError /\
  List.length (requests (trace (snd rejected_deploy))) = 5%nat.
Proof. vm_compute. repeat split. Qed.

Lemma deploy_and_check_rejected (remote : nat -> Reply) (fuel : nat) (s : Session)
  (schm tmpl : string) (st : State) :
  bad (remote (sent st)) = true ->
  deploy_and_check remote fuel (Some s) schm tmpl st =
  (Raised AttributeError,
   extend [Http (POST_task schm tmpl) (remote (sent st)); Log CRITICAL "%s" []] 1 st).
Proof.
  intros Hb. unfold deploy_and_check, deploy_ndo_template, deploy_ndo_template_func.
  unfold bind at 1. rewrite decorated_run. unfold answer.
  destruct (remote (sent st)) as [|r]; [reflexivity|].
  simpl in Hb. apply negb_true_iff in Hb. rewrite Hb. reflexivity.
Qed.

Lemma decorated_rejected (remote : nat -> Reply) (s : Session) (rq : Request)
  (info : Response -> list Event) (st : State) :
  bad (remote (sent st)) = true ->
  request_logger debug_response (exchange remote (Some s) rq info) st =
  (Normal None,
   extend [Http rq (remote (sent st)); Log CRITICAL "%s" []] 1 st).
Proof.
  intros Hb. rewrite decorated_run. unfold answer.
  destruct (remote (sent st)) as [|r]; [reflexivity|].
  simpl in Hb. apply negb_true_iff in Hb. rewrite Hb. reflexivity.
Qed.

(** C3, amended -- A rejected or unanswered request raises a
    [RequestException] inside the remote function; [request_logger] logs
    it at critical level and returns [None], so a failed patch or status
    check does not stop the phases of the unit, and a failed deployment
    task makes the following [deploy.json()] raise [AttributeError].  The
    handler of a unit catches [IndexError] only: the unit is then skipped
    with a warning and the loop goes on with the next unit; any other
    exception raised in a unit ends the loop, and the run. *)
Theorem errors_of_a_unit (remote : nat -> Reply) (fuel : nat)
  (session : option Session) (src_epgs : list Src.row) (dst_epgs : list Dst.row)
  (items : nat) :
  (forall (A : Type) (debug : A -> Event) (func : M A) (st st' : State),
      func st = (Raised RequestException, st') ->
      request_logger debug func st =
        (Normal None, emit (Log CRITICAL "%s" []) st')) /\
  (forall (s : Session) (rq : Request) (info : Response -> list Event) (st : State),
      bad (remote (sent st)) = true ->
      request_logger debug_response (exchange remote (Some s) rq info) st =
        (Normal None,
         extend [Http rq (remote (sent st)); Log CRITICAL "%s" []] 1 st)) /\
  (forall (s : Session) (schm tmpl : string) (st : State),
      bad (remote (sent st)) = true ->
      deploy_and_check remote fuel (Some s) schm tmpl st =
        (Raised AttributeError,
         extend [Http (POST_task schm tmpl) (remote (sent st));
                 Log CRITICAL "%s" []] 1 st)) /\
  (forall (i : nat) (rest : list nat) (src : Src.row) (st st1 : State),
      nth_error src_epgs i = Some src ->
      unit_body remote fuel session src_epgs dst_epgs items i st
        = (Raised IndexError, st1) ->
      for_each (i :: rest)
        (migrate_unit remote fuel session src_epgs dst_epgs items) st =
      for_each rest
        (migrate_unit remote fuel session src_epgs dst_epgs items)
        (emit (Log WARNING
                 "Source BD/EPG information for %(epg)s is not valid...skipping"
                 [JStr (Src.epgName src)]) st1)) /\
  (forall (i : nat) (rest : list nat) (e : Exn) (st st1 : State),
      e <> IndexError ->
      unit_body remote fuel session src_epgs dst_epgs items i st = (Raised e, st1) ->
      for_each (i :: rest)
        (migrate_unit remote fuel session src_epgs dst_epgs items) st =
      (Raised e, st1)).
Proof.
  split; [intros; now apply request_logger_swallows|].
  split; [intros; now apply decorated_rejected|].
  split; [intros; now apply deploy_and_check_rejected|].
  split.
  - intros i rest src st st1 Hsrc H. simpl.
    unfold bind at 1. unfold migrate_unit at 1. unfold try_except.
    rewrite H. simpl. unfold skip_unit, row_at. rewrite Hsrc. reflexivity.
  - intros i rest e st st1 He H. simpl.
    unfold bind at 1. unfold migrate_unit at 1. unfold try_except.
    rewrite H. destruct e; try reflexivity. congruence.
Qed.

(** A deployment task rejected with status 500. *)
Lemma errors_of_a_unit_witness :
  fst (deploy_and_check (Fabric.except_at 2 (Fabric.reply 500 JNone)) 5
         (Some session_cookie) "S2" "T2" Fabric.bootstrapped)
  = Raised AttributeError.
Proof.
  rewrite (proj1 (proj2 (proj2
             (errors_of_a_unit (Fabric.except_at 2 (Fabric.reply 500 JNone)) 5
                (Some session_cookie) [] [] 0)))
             session_cookie "S2" "T2" Fabric.bootstrapped eq_refl).
  reflexivity.
Defined.

(** ** Source rows that match no schema *)

(** C9 -- the code at units whose [schemaId] matches no fetched schema.
    As the second unit: nothing is raised, no warning is logged, and the
    unit sends its patches and deployment tasks with the source objects
    of the first unit, whose EPG and BD it removes a second time.  As the
    first unit: the look-up of [l2Stretch] in the empty [src_bd_tmpl_data]
    raises [KeyError], which ends the run. *)
Theorem unmatched_schema_is_not_skipped :
  let stray := Fabric.src_row "S9" 1 "EPG2" in
  let second :=
    main Fabric.healthy 5 [Fabric.src1; stray] [Fabric.dst1; Fabric.dst2]
      initial_state in
  let first :=
    main Fabric.healthy 5 [stray; Fabric.src1] [Fabric.dst2; Fabric.dst1]
      initial_state in
  fst (resolve stray Fabric.loaded) = Normal tt /\
  fst second = Normal tt /\
  silent WARNING (trace (snd second)) = true /\
  List.length (filter mutation (requests (trace (snd second)))) = 22%nat /\
  removed (trace (snd second)) =
    [JStr "EPG1"; JStr "BD1"; JStr "EPG1"; JStr "BD1"] /\
  fst first = Raised KeyError /\
  read_only (trace (snd first)) = true.
Proof. vm_compute. repeat split. Qed.

(** ** A source bridge domain whose [l2Stretch] is neither [True] nor [False] *)

Lemma split_slash_length (s : string) :
  List.length (Py.split_slash s) = S (slashes s).
Proof.
  induction s as [|a s IH]; [reflexivity|]. simpl.
  destruct (Ascii.eqb a "/"); simpl; [now rewrite IH|].
  destruct (Py.split_slash s); simpl in *; [discriminate|exact IH].
Qed.

Lemma slashes_app (a b : string) :
  slashes (a ++ b) = (slashes a + slashes b)%nat.
Proof. induction a as [|c a IH]; simpl; [reflexivity|]. rewrite IH. lia. Qed.

Lemma seq_index_in_range {A} (l : list A) (i : Z) :
  0 <= i < Z.of_nat (List.length l) -> exists a, Py.seq_index l i = Ok a.
Proof.
  intros H. unfold Py.seq_index, Py.norm_index.
  replace (0 <=? i) with true by (symmetry; apply Z.leb_le; lia).
  replace (i <? Z.of_nat (List.length l)) with true
    by (symmetry; apply Z.ltb_lt; lia).
  simpl. destruct (nth_error l (Z.to_nat i)) eqn:E; [eauto|].
  apply nth_error_None in E. lia.
Qed.

Lemma split_at_in_range (ref : string) (i : Z) :
  0 <= i <= Z.of_nat (slashes ref) -> exists a, split_at (JStr ref) i = Ok a.
Proof.
  intros H. unfold split_at. simpl. apply seq_index_in_range.
  rewrite split_slash_length. lia.
Qed.

Lemma dst_bd_ref_slashes (dst : Dst.row) :
  (6 <= slashes (dst_bd_ref_of dst))%nat.
Proof.
  unfold dst_bd_ref_of. cbn [String.concat].
  rewrite !slashes_app. simpl. lia.
Qed.

Lemma tmpl_bds_request_built (data : json) (dst : Dst.row) :
  exists schema_id templ_name,
    tmpl_bds_request data (JStr (dst_bd_ref_of dst)) "add" =
    Ok (PATCH_schemas schema_id
          [{| op := "add"; path := tmpl_bds_new templ_name;
              value := Some data |}]).
Proof.
  pose proof (dst_bd_ref_slashes dst) as H.
  destruct (split_at_in_range (dst_bd_ref_of dst) 2) as [a Ha]; [lia|].
  destruct (split_at_in_range (dst_bd_ref_of dst) 4) as [b Hb]; [lia|].
  exists a, b. unfold tmpl_bds_request. rewrite Ha, Hb. reflexivity.
Qed.

Lemma answer_trace (remote : nat -> Reply) (rq : Request)
  (info : Response -> list Event) (st : State) :
  exists t, trace (snd (answer remote rq info st)) =
            trace st ++ Http rq (remote (sent st)) :: t.
Proof.
  unfold answer. destruct (remote (sent st)) as [|r]; [|destruct (good r)];
    simpl; eauto.
Qed.

Lemma create_dst_bd_first (remote : nat -> Reply) (fuel : nat) (s : Session)
  (dst : Dst.row) (bd_ref : json) (rq : Request) (st st' : State)
  (o : Outcome unit) :
  tmpl_bds_request (JDict (ndo_bd_tmpl_dict st)) bd_ref "add" = Ok rq ->
  create_dst_bd remote fuel (Some s) dst bd_ref st = (o, st') ->
  exists t, trace st' = trace st ++ Http rq (remote (sent st)) :: t.
Proof.
  intros Hb H. unfold create_dst_bd in H.
  unfold bind at 1 in H. unfold gets at 1 in H.
  unfold bind at 1 in H.
  unfold patch_ndo_tmpl_bds, patch_ndo_tmpl_bds_func in H.
  rewrite decorated_built in H. simpl deref in H. rewrite Hb in H.
  match type of H with
  | ?k ?a ?s1 = _ =>
      assert (G : grows s1 st')
  end.
  { eapply (preserves_bind grows grows_trans); [| | exact H].
    - apply (preserves_gets grows grows_refl).
    - intros data.
      apply (preserves_bind grows grows_trans).
      + apply (preserves_built grows grows_refl grows_trans remote grows_emit).
        intros; now apply grows_same_trace.
      + intros _.
        apply (preserves_deploy_and_check grows grows_refl grows_trans remote
                 grows_emit).
        intros; now apply grows_same_trace. }
  destruct G as [t' G]. rewrite G.
  match type of G with
  | trace _ = trace (snd (answer _ _ ?i _)) ++ _ =>
      destruct (answer_trace remote rq i st) as [t0 Ht0]; rewrite Ht0
  end.
  rewrite <- app_assoc. simpl. eauto.
Qed.

Lemma remote_phases_first (remote : nat -> Reply) (fuel : nat) (s : Session)
  (src : Src.row) (dst : Dst.row) (i items : nat) (rq : Request)
  (bd_ref epg_ref : json) (st st' : State) (o : Outcome unit) :
  Py.dict_get "bdRef" (ndo_bd_site_dict st) = Some bd_ref ->
  Py.dict_get "epgRef" (ndo_epg_site_dict st) = Some epg_ref ->
  tmpl_bds_request (JDict (ndo_bd_tmpl_dict st)) bd_ref "add" = Ok rq ->
  remote_phases remote fuel (Some s) src dst i items st = (o, st') ->
  exists t, trace st' = trace st ++ Http rq (remote (sent st)) :: t.
Proof.
  intros Hbd Hepg Hb H. unfold remote_phases in H.
  unfold bind at 1 in H. unfold getitem_of at 1 in H.
  unfold bind at 1, gets at 1, lift at 1 in H. simpl deref in H.
  unfold Py.getitem at 1 in H. rewrite Hbd in H.
  unfold bind at 1 in H. unfold getitem_of at 1 in H.
  unfold bind at 1, gets at 1, lift at 1 in H. simpl deref in H.
  unfold Py.getitem at 1 in H. rewrite Hepg in H.
  unfold bind at 1 in H.
  destruct (create_dst_bd remote fuel (Some s) dst bd_ref st) as [o1 s1] eqn:E.
  destruct (create_dst_bd_first remote fuel s dst bd_ref rq st s1 o1 Hb E)
    as [t Ht].
  assert (G : grows s1 st').
  { destruct o1 as [[]|e|]; try (injection H as _ <-; apply grows_refl).
    cbv beta iota in H.
    assert (R := grows_refl). assert (T := grows_trans). assert (Em := grows_emit).
    assert (C : forall st, grows st (count_request st))
      by (intros; now apply grows_same_trace).
    match type of H with
    | ?m s1 = _ => assert (Pm : preserves grows m)
    end.
    { repeat lazymatch goal with
             | |- preserves _ (bind _ _) =>
                 apply (preserves_bind grows T); [|intros]
             | |- preserves _ (create_dst_epg _ _ _ _) =>
                 apply (preserves_create_dst_epg grows R T remote Em C)
             | |- preserves _ (detach_src_ports _ _ _ _) =>
                 apply (preserves_detach_src_ports grows R T remote Em C)
             | |- preserves _ grace_wait =>
                 apply (preserves_grace_wait grows R T Em)
             | |- preserves _ (deploy_and_check _ _ _ _ _) =>
                 apply (preserves_deploy_and_check grows R T remote Em C)
             | |- preserves _ (remove_src _ _ _ _ _ _) =>
                 apply (preserves_remove_src grows R T remote Em C)
             | |- preserves _ (confirm _ _) =>
                 apply (preserves_confirm grows R T Em)
             end. }
    exact (Pm _ _ _ H). }
  destruct G as [t' G]. rewrite G, Ht, <- app_assoc. simpl. eauto.
Qed.

(** C10, as stated, fails for a missing [l2Stretch]: the look-up at line
    902 raises [KeyError], which the handler of the unit does not catch;
    the run ends there, having sent the login and the schema request
    only. *)
Lemma missing_l2Stretch_raises :
  let run := main bare_ndo 5 [Fabric.src1; Fabric.src3]
               [Fabric.dst1; Fabric.dst3] initial_state in
  Py.getitem bare_bd "l2Stretch" = Err KeyError /\
  fst run = Raised KeyError /\
  requests (trace (snd run)) = [POST_login; GET_schemas] /\
  silent WARNING (trace (snd run)) = true.
Proof. vm_compute. repeat split. Qed.

(** C10, amended -- If the source template BD has an [l2Stretch] entry
    whose value is neither [True] nor [False], lines 902-930 raise nothing
    and leave every variable as it was: no field of the source BD reaches
    the destination dictionaries.  When the placement of lines 932-950 and
    the mapping of the EPG then succeed, the template dictionary is its
    prior content with [name], [displayName] and [vrfRef] set from the
    destination row, the site dictionary differs from its prior content
    at most at [l3Outs], [l3OutRefs], [hostBasedRouting] and [bdRef], the
    source objects are unchanged, and the first request of the remote
    phases is the [add] patch of the template BD with that template
    dictionary as its value. *)
Theorem unset_l2Stretch_copies_nothing (remote : nat -> Reply) (fuel : nat)
  (s : Session) (src : Src.row) (dst : Dst.row) (i items : nat)
  (st st1 st2 st3 : State) (v : json) (o : Outcome unit) :
  Py.getitem (src_bd_tmpl_data st) "l2Stretch" = Ok v ->
  v <> JBool true -> v <> JBool false ->
  map_bd dst st = (Normal tt, st1) ->
  map_epg dst st1 = (Normal tt, st2) ->
  remote_phases remote fuel (Some s) src dst i items st2 = (o, st3) ->
  copy_src_bd st = (Normal tt, st) /\
  ndo_bd_tmpl_dict st1 = placed_tmpl dst (ndo_bd_tmpl_dict st) /\
  (forall k, k <> "l3Outs" -> k <> "l3OutRefs" -> k <> "hostBasedRouting" ->
             k <> "bdRef" ->
             Py.dict_get k (ndo_bd_site_dict st1) =
             Py.dict_get k (ndo_bd_site_dict st)) /\
  src_bd_tmpl_data st1 = src_bd_tmpl_data st /\
  src_bd_site_data st1 = src_bd_site_data st /\
  ndo_schemas_json st1 = ndo_schemas_json st /\
  exists schema_id templ_name t,
    trace st3 =
    trace st2 ++
    Http (PATCH_schemas schema_id
            [{| op := "add"; path := tmpl_bds_new templ_name;
                value := Some (JDict (placed_tmpl dst (ndo_bd_tmpl_dict st))) |}])
         (remote (sent st2)) :: t.
Proof.
  intros Hv Ht Hf Hbd Hepg Hr.
  pose proof (copy_src_bd_neither st v Hv Ht Hf) as Hc.
  split; [exact Hc|].
  unfold map_bd, bind in Hbd. rewrite Hc in Hbd.
  apply place_bd_Normal in Hbd as (subnets & items' & s' & _ & _ & Hh & ->).
  split; [reflexivity|].
  split.
  { intros k K1 K2 K3 K4. simpl.
    rewrite dict_get_set_other by congruence.
    rewrite (hostBasedRouting_items_other k _ _ _ _ _ K3 Hh).
    unfold placed_l3outs. rewrite !dict_get_set_other by congruence.
    reflexivity. }
  do 3 (split; [reflexivity|]).
  apply map_epg_Normal in Hepg as (t & se & bdRef & _ & _ & _ & ->).
  destruct (tmpl_bds_request_built (JDict (placed_tmpl dst (ndo_bd_tmpl_dict st))) dst)
    as (schema_id & templ_name & Hb).
  exists schema_id, templ_name.
  eapply remote_phases_first; [| |exact Hb|exact Hr].
  - simpl. apply dict_get_set_same.
  - simpl. apply dict_get_set_same.
Qed.

(** The second bridge domain of the fabric, whose [l2Stretch] is [None]. *)
Lemma unset_l2Stretch_copies_nothing_witness :
  let st := Fabric.resolved Fabric.src2 Fabric.bootstrapped in
  let st1 := snd (map_bd Fabric.dst2 st) in
  ndo_bd_tmpl_dict st1 = placed_tmpl Fabric.dst2 (ndo_bd_tmpl_dict st).
Proof.
  intros st st1.
  pose (st2 := snd (map_epg Fabric.dst2 st1)).
  pose (r := remote_phases Fabric.healthy 5 (Some session_cookie) Fabric.src2
               Fabric.dst2 0 1 st2).
  apply (unset_l2Stretch_copies_nothing Fabric.healthy 5 session_cookie
           Fabric.src2 Fabric.dst2 0 1 st st1 st2 (snd r) JNone (fst r)).
  - vm_compute. reflexivity.
  - discriminate.
  - discriminate.
  - vm_compute. reflexivity.
  - vm_compute. reflexivity.
  - vm_compute. reflexivity.
Defined.

(** ** The patch functions and the references they split *)

(** An operation that a patch function does not support raises
    [ValueError] before anything is sent; the decorator lets it through. *)
Theorem unsupported_oper_raises (remote : nat -> Reply) (session : option Session)
  (data ref ports : json) (siteId oper : string) (st : State) :
  existsb (String.eqb oper) ["add"; "remove"; "replace"] = false ->
  patch_ndo_tmpl_bds remote session data ref oper st = (Raised ValueError, st) /\
  patch_ndo_site_bds remote session data siteId oper st = (Raised ValueError, st) /\
  patch_ndo_tmpl_epgs remote session data ref oper st = (Raised ValueError, st) /\
  patch_ndo_site_epgs remote session data siteId oper st = (Raised ValueError, st) /\
  patch_ndo_epg_static_ports remote session data siteId ports oper st
    = (Raised ValueError, st).
Proof.
  intros H. simpl in H.
  apply orb_false_elim in H as [Ha H]. apply orb_false_elim in H as [Hr H].
  apply orb_false_elim in H as [Hp _].
  unfold patch_ndo_tmpl_bds, patch_ndo_site_bds, patch_ndo_tmpl_epgs,
    patch_ndo_site_epgs, patch_ndo_epg_static_ports,
    patch_ndo_tmpl_bds_func, patch_ndo_site_bds_func, patch_ndo_tmpl_epgs_func,
    patch_ndo_site_epgs_func, patch_ndo_epg_static_ports_func.
  unfold request_logger, bind, lift, tmpl_bds_request, site_bds_request,
    tmpl_epgs_request, site_epgs_request, static_ports_request, allowed.
  simpl. rewrite Ha, Hr, Hp. simpl. repeat split.
Qed.

Lemma unsupported_oper_raises_witness :
  patch_ndo_tmpl_bds Fabric.healthy (Some session_cookie) Fabric.bd1
    (JStr "/schemas/S1/templates/T1/bds/BD1") "update" Fabric.bootstrapped
  = (Raised ValueError, Fabric.bootstrapped).
Proof.
  apply (unsupported_oper_raises Fabric.healthy (Some session_cookie) Fabric.bd1
           (JStr "/schemas/S1/templates/T1/bds/BD1") (JList []) "1" "update"
           Fabric.bootstrapped).
  reflexivity.
Defined.

Lemma split_slash_app (a b : string) :
  Py.split_slash (a ++ String "/" b)%string =
  Py.split_slash a ++ Py.split_slash b.
Proof.
  induction a as [|c a IH]; [reflexivity|].
  cbn [append Py.split_slash]. rewrite IH.
  destruct (Ascii.eqb c "/"); [reflexivity|].
  pose proof (split_slash_length a) as L.
  destruct (Py.split_slash a); [discriminate|reflexivity].
Qed.

Lemma split_slash_none (s : string) :
  slashes s = 0%nat -> Py.split_slash s = [s].
Proof.
  induction s as [|c s IH]; [reflexivity|]. simpl.
  destruct (Ascii.eqb c "/"); [discriminate|].
  intros H. now rewrite IH.
Qed.

Lemma split_dst_bd_ref (dst : Dst.row) :
  slashes (Dst.schemaId dst) = 0%nat ->
  slashes (Dst.templName dst) = 0%nat ->
  Py.split_slash (dst_bd_ref_of dst) =
  [""; "schemas"; Dst.schemaId dst; "templates"; Dst.templName dst; "bds"]
    ++ Py.split_slash (Dst.bdName dst).
Proof.
  intros Hs Ht. unfold dst_bd_ref_of.
  change (String.concat ""
            ["/schemas/"; Dst.schemaId dst; "/templates/"; Dst.templName dst;
             "/bds/"; Dst.bdName dst])
    with ("" ++ String "/" ("schemas" ++ String "/" (Dst.schemaId dst ++
            String "/" ("templates" ++ String "/" (Dst.templName dst ++
              String "/" ("bds" ++ String "/" (Dst.bdName dst)))))))%string.
  rewrite !split_slash_app.
  rewrite (split_slash_none _ Hs), (split_slash_none _ Ht). reflexivity.
Qed.

(** The reference line 948 builds for the destination BD, split again by
    [patch_ndo_tmpl_bds] and [patch_ndo_site_bds]: when the schema id, the
    template name and the BD name of the destination row hold no ["/"],
    the two patches are addressed to that schema, that template and that
    BD. *)
Theorem dst_bd_ref_round_trip (dst : Dst.row) (data : json) (site : dict)
  (siteId : string) :
  slashes (Dst.schemaId dst) = 0%nat ->
  slashes (Dst.templName dst) = 0%nat ->
  slashes (Dst.bdName dst) = 0%nat ->
  Py.dict_get "bdRef" site = Some (JStr (dst_bd_ref_of dst)) ->
  tmpl_bds_request data (JStr (dst_bd_ref_of dst)) "add" =
    Ok (PATCH_schemas (Dst.schemaId dst)
          [{| op := "add"; path := tmpl_bds_new (Dst.templName dst);
              value := Some data |}]) /\
  site_bds_request (JDict site) siteId "replace" =
    Ok (PATCH_schemas (Dst.schemaId dst)
          [{| op := "replace";
              path := site_bds_at siteId (Dst.templName dst) (Dst.bdName dst);
              value := Some (JDict site) |}]).
Proof.
  intros Hs Ht Hb Hr.
  pose proof (split_dst_bd_ref dst Hs Ht) as E.
  rewrite (split_slash_none _ Hb) in E.
  assert (X2 : split_at (JStr (dst_bd_ref_of dst)) 2 = Ok (Dst.schemaId dst))
    by (unfold split_at, Py.str_method, rbind; rewrite E; reflexivity).
  assert (X4 : split_at (JStr (dst_bd_ref_of dst)) 4 = Ok (Dst.templName dst))
    by (unfold split_at, Py.str_method, rbind; rewrite E; reflexivity).
  assert (Xl : split_at (JStr (dst_bd_ref_of dst)) (-1) = Ok (Dst.bdName dst))
    by (unfold split_at, Py.str_method, rbind; rewrite E; reflexivity).
  split.
  - unfold tmpl_bds_request. rewrite X2, X4. reflexivity.
  - unfold site_bds_request, Py.getitem. rewrite Hr.
    cbn -[split_at dst_bd_ref_of]. rewrite X2, X4, Xl. reflexivity.
Qed.

Lemma dst_bd_ref_round_trip_witness :
  tmpl_bds_request Fabric.bd1 (JStr (dst_bd_ref_of Fabric.dst1)) "add" =
    Ok (PATCH_schemas "S2"
          [{| op := "add"; path := tmpl_bds_new "T2";
              value := Some Fabric.bd1 |}]).
Proof.
  apply (dst_bd_ref_round_trip Fabric.dst1 Fabric.bd1
           [("bdRef", JStr (dst_bd_ref_of Fabric.dst1))] "2");
    reflexivity.
Defined.

(** ** The start of a run *)

(** A rejected or unanswered login: [get_ndo_session] returns [None], and
    [session.get] on it raises [AttributeError], which no handler
    catches.  The run ends having sent the login only. *)
Theorem login_rejected_ends_run (remote : nat -> Reply) (fuel : nat)
  (src_epgs : list Src.row) (dst_epgs : list Dst.row) (st : State) :
  bad (remote (sent st)) = true ->
  main remote fuel src_epgs dst_epgs st =
  (Raised AttributeError,
   extend [Http POST_login (remote (sent st)); Log CRITICAL "%s" []] 1 st).
Proof.
  intros Hb. unfold main. unfold bind at 1. rewrite get_ndo_session_run.
  destruct (remote (sent st)) as [|r]; [reflexivity|].
  simpl in Hb. apply negb_true_iff in Hb. rewrite Hb. reflexivity.
Qed.

Lemma login_rejected_ends_run_witness :
  fst (main (Fabric.except_at 0 (Fabric.reply 401 JNone)) 5 [Fabric.src1]
         [Fabric.dst1] initial_state) = Raised AttributeError.
Proof.
  rewrite (login_rejected_ends_run (Fabric.except_at 0 (Fabric.reply 401 JNone))
             5 [Fabric.src1] [Fabric.dst1] initial_state eq_refl).
  reflexivity.
Defined.

(** A rejected or unanswered schema request after an accepted login:
    [get_ndo_schemas] returns [None] and [ndo_schemas.json()] raises
    [AttributeError].  The run ends having sent two requests, before the
    count check. *)
Theorem schemas_rejected_ends_run (remote : nat -> Reply) (fuel : nat)
  (src_epgs : list Src.row) (dst_epgs : list Dst.row) (st : State)
  (r0 : Response) :
  remote (sent st) = Replied r0 -> good r0 = true ->
  bad (remote (S (sent st))) = true ->
  exists t,
    main remote fuel src_epgs dst_epgs st = (Raised AttributeError, extend t 2 st) /\
    requests t = [POST_login; GET_schemas] /\
    silent ERROR t = true.
Proof.
  intros H0 G0 Hb. unfold main. unfold bind at 1. rewrite get_ndo_session_run.
  rewrite H0, G0. unfold bind at 1. rewrite get_ndo_schemas_run.
  unfold answer. rewrite sent_extend. simpl Nat.add.
  destruct (remote (S (sent st))) as [|r1].
  - simpl. rewrite extend_extend. eexists. split; [reflexivity|].
    split; reflexivity.
  - simpl in Hb. apply negb_true_iff in Hb. rewrite Hb.
    simpl. rewrite extend_extend. eexists. split; [reflexivity|].
    split; reflexivity.
Qed.

Lemma schemas_rejected_ends_run_witness :
  fst (main (Fabric.except_at 1 (Fabric.reply 503 JNone)) 5 [Fabric.src1]
         [Fabric.dst1] initial_state) = Raised AttributeError.
Proof.
  destruct (schemas_rejected_ends_run (Fabric.except_at 1 (Fabric.reply 503 JNone))
              5 [Fabric.src1] [Fabric.dst1] initial_state
              {| status_code := 200; body := Fabric.task "Complete" |}
              eq_refl eq_refl eq_refl) as (t & H & _).
  rewrite H. reflexivity.
Defined.

(** ** What a whole run preserves *)

Section WholeRun.

Variable P : State -> State -> Prop.
Hypothesis P_refl : forall st, P st st.
Hypothesis P_trans : forall st1 st2 st3, P st1 st2 -> P st2 st3 -> P st1 st3.
Hypothesis P_assign : forall x j p st, P st (assign x j p st).
Hypothesis P_copy : forall a src st,
  P st (store a (fst (copy_items (Py.keys (deref a st)) src (deref a st))) st).
Hypothesis P_set : forall a key v st,
  In key (Py.keys (deref a initial_state)) ->
  P st (store a (Py.dict_set key v (deref a st)) st).
Hypothesis P_routing : forall subnets bdName st,
  P st (store dst_bd_site_data
          (fst (hostBasedRouting_items subnets bdName (deref dst_bd_site_data st)))
          st).
Hypothesis P_mutate : forall f st, P st (mutate_src_bd_tmpl f st).
Hypothesis P_emit : forall e st, P st (emit e st).
Hypothesis P_count : forall st, P st (count_request st).
Hypothesis P_schemas : forall j st, P st (set_schemas j st).

Variable remote : nat -> Reply.

Lemma preserves_unit_body (fuel : nat) (session : option Session)
  (src_epgs : list Src.row) (dst_epgs : list Dst.row) (items i : nat) :
  preserves P (unit_body remote fuel session src_epgs dst_epgs items i).
Proof.
  unfold unit_body.
  apply (preserves_bind P P_trans); [now apply preserves_row_at | intros src].
  apply (preserves_bind P P_trans); [now apply preserves_row_at | intros dst].
  apply (preserves_bind P P_trans); [|intros _].
  { now apply (preserves_resolve P P_refl P_trans). }
  apply (preserves_bind P P_trans); [|intros _].
  { apply (preserves_map_bd P P_refl P_trans); auto. }
  apply (preserves_bind P P_trans); [|intros _].
  { apply (preserves_map_epg P P_refl P_trans); auto. }
  apply (preserves_remote_phases P P_refl P_trans); auto.
Qed.

Lemma preserves_skip_unit (src_epgs : list Src.row) (i : nat) :
  preserves P (skip_unit src_epgs i).
Proof.
  unfold skip_unit.
  apply (preserves_bind P P_trans); [now apply preserves_row_at | intros src].
  now apply preserves_log.
Qed.

Lemma preserves_migrate_unit (fuel : nat) (session : option Session)
  (src_epgs : list Src.row) (dst_epgs : list Dst.row) (items i : nat) :
  preserves P (migrate_unit remote fuel session src_epgs dst_epgs items i).
Proof.
  unfold migrate_unit. apply (preserves_try_except P P_trans).
  - apply preserves_unit_body.
  - apply preserves_skip_unit.
Qed.

Lemma preserves_json_of (response : option Response) :
  preserves P (json_of response).
Proof.
  destruct response; [now apply preserves_ret | now apply preserves_raise].
Qed.

(** What follows the two requests of lines 857-860. *)
Lemma preserves_after_schemas (fuel : nat) (session : option Session)
  (src_epgs : list Src.row) (dst_epgs : list Dst.row)
  (ndo_schemas : option Response) :
  preserves P
    (ndo_schemas_json <- json_of ndo_schemas ;;
     modify (set_schemas ndo_schemas_json) ;;
     (if Nat.eqb (List.length src_epgs) (List.length dst_epgs)
      then log INFO "Length of source and destination EPG data matches" []
      else log ERROR "Source and destination EPG quantities don't match...Exiting" [] ;;
           raise SystemExit) ;;
     let items := List.length src_epgs in
     for_each (seq 0 items)
       (migrate_unit remote fuel session src_epgs dst_epgs items) ;;
     log INFO "All rows in the migration file have been processed!" [] ;;
     sleep 1000).
Proof.
  apply (preserves_bind P P_trans); [apply preserves_json_of | intros j].
  apply (preserves_bind P P_trans); [now apply preserves_modify | intros _].
  apply (preserves_bind P P_trans); [|intros _].
  { apply preserves_if; [now apply preserves_log|].
    apply (preserves_bind P P_trans);
      [now apply preserves_log | intros; now apply preserves_raise]. }
  apply (preserves_bind P P_trans); [|intros _].
  { apply (preserves_for_each P P_refl P_trans). intros i.
    apply preserves_migrate_unit. }
  apply (preserves_bind P P_trans);
    [now apply preserves_log | intros; now apply preserves_sleep].
Qed.

Lemma preserves_main (fuel : nat) (src_epgs : list Src.row)
  (dst_epgs : list Dst.row) :
  preserves P (main remote fuel src_epgs dst_epgs).
Proof.
  unfold main.
  apply (preserves_bind P P_trans); [|intros session].
  { apply (preserves_request_logger P P_trans); auto.
    unfold get_ndo_session_func.
    apply (preserves_bind P P_trans);
      [now apply (preserves_exchange P P_refl P_trans)
      | intros; now apply preserves_ret]. }
  apply (preserves_bind P P_trans); [|intros ndo_schemas].
  { apply (preserves_request_logger P P_trans); auto.
    now apply (preserves_exchange P P_refl P_trans). }
  apply preserves_after_schemas.
Qed.

End WholeRun.

Lemma keeps_skeleton_same (st st' : State) :
  ndo_bd_tmpl_dict st' = ndo_bd_tmpl_dict st ->
  ndo_bd_site_dict st' = ndo_bd_site_dict st ->
  ndo_epg_tmpl_dict st' = ndo_epg_tmpl_dict st ->
  ndo_epg_site_dict st' = ndo_epg_site_dict st ->
  keeps_skeleton st st'.
Proof. unfold keeps_skeleton, skeleton_keys. intros -> -> -> ->. tauto. Qed.

Lemma keeps_skeleton_store (a : alias) (d : dict) (st : State) :
  (skeleton_keys st -> Py.keys d = Py.keys (deref a st)) ->
  keeps_skeleton st (store a d st).
Proof.
  intros Hd Hs. specialize (Hd Hs). destruct Hs as (H1 & H2 & H3 & H4).
  unfold skeleton_keys.
  destruct a;
    cbn [store deref ndo_bd_tmpl_dict ndo_bd_site_dict ndo_epg_tmpl_dict
         ndo_epg_site_dict] in *;
    repeat split; congruence.
Qed.

Lemma skeleton_keys_deref (a : alias) (st : State) :
  skeleton_keys st -> Py.keys (deref a st) = Py.keys (deref a initial_state).
Proof. intros (H1 & H2 & H3 & H4). destruct a; assumption. Qed.

(** The destination payloads are assigned key by key, under keys the
    skeletons of lines 797-814 already have: whatever a run does, and
    however it ends, the four dictionaries keep exactly the keys of their
    skeleton, in the same order. *)
Theorem run_keeps_skeleton_keys (remote : nat -> Reply) (fuel : nat)
  (src_epgs : list Src.row) (dst_epgs : list Dst.row) (st st' : State)
  (o : Outcome unit) :
  skeleton_keys st ->
  main remote fuel src_epgs dst_epgs st = (o, st') ->
  skeleton_keys st'.
Proof.
  intros Hs H. revert Hs.
  change (keeps_skeleton st st').
  refine (preserves_main keeps_skeleton _ _ _ _ _ _ _ _ _ _ remote fuel
            src_epgs dst_epgs st o st' H).
  - intros s; exact (fun h => h).
  - intros s1 s2 s3 H1 H2 h. exact (H2 (H1 h)).
  - intros; now apply keeps_skeleton_same.
  - intros a src s. apply keeps_skeleton_store. intros _.
    destruct (copy_items (Py.keys (deref a s)) src (deref a s)) as [d stop] eqn:E.
    simpl. eapply copy_items_keys; [|exact E]. apply incl_refl.
  - intros a key v s Hk. apply keeps_skeleton_store. intros Hsk.
    apply keys_dict_set. now rewrite (skeleton_keys_deref a s Hsk).
  - intros subnets bdName s. apply keeps_skeleton_store. intros Hsk.
    destruct (hostBasedRouting_items subnets bdName (deref dst_bd_site_data s))
      as [d stop] eqn:E.
    simpl. refine (hostBasedRouting_items_keys _ _ _ _ _ _ E).
    rewrite (skeleton_keys_deref dst_bd_site_data s Hsk). simpl. tauto.
  - intros; now apply keeps_skeleton_same.
  - intros; now apply keeps_skeleton_same.
  - intros; now apply keeps_skeleton_same.
  - intros; now apply keeps_skeleton_same.
Qed.

Lemma run_keeps_skeleton_keys_witness :
  skeleton_keys
    (snd (main Fabric.healthy 5 [Fabric.src1; Fabric.src3]
            [Fabric.dst1; Fabric.dst3] initial_state)).
Proof.
  apply (run_keeps_skeleton_keys Fabric.healthy 5 [Fabric.src1; Fabric.src3]
           [Fabric.dst1; Fabric.dst3] initial_state _
           (fst (main Fabric.healthy 5 [Fabric.src1; Fabric.src3]
                   [Fabric.dst1; Fabric.dst3] initial_state))).
  - vm_compute. repeat split.
  - vm_compute. reflexivity.
Defined.

(** Every run begins with the login, and the only request that may follow
    it directly is the schema request: nothing is changed on the NDO
    before the schemas were asked for. *)
Theorem run_starts_with_login (remote : nat -> Reply) (fuel : nat)
  (src_epgs : list Src.row) (dst_epgs : list Dst.row) (st st' : State)
  (o : Outcome unit) :
  main remote fuel src_epgs dst_epgs st = (o, st') ->
  exists t,
    trace st' = trace st ++ t /\
    (requests t = [POST_login] \/
     exists rest, requests t = POST_login :: GET_schemas :: rest).
Proof.
  intros H. unfold main in H. unfold bind at 1 in H.
  rewrite get_ndo_session_run in H.
  assert (R := grows_refl). assert (T := grows_trans). assert (Em := grows_emit).
  assert (Same : forall s s', trace s' = trace s -> grows s s')
    by (intros; now apply grows_same_trace).
  destruct (remote (sent st)) as [|r0] eqn:E0.
  - cbv beta iota in H. unfold bind at 1 in H.
    rewrite get_ndo_schemas_None in H. injection H as _ <-.
    eexists. split; [apply trace_extend|]. left. reflexivity.
  - destruct (good r0).
    + cbv beta iota in H. unfold bind at 1 in H.
      rewrite get_ndo_schemas_run in H.
      cbv beta iota zeta in H.
      match type of H with
      | ?m (snd ?a) = _ => assert (Pm : preserves grows m); [|set (ans := a) in *]
      end.
      { apply (preserves_after_schemas grows R T); auto;
          intros; apply Same; try reflexivity; destruct a; reflexivity. }
      destruct (Pm _ _ _ H) as [t' Ht'].
      destruct (answer_trace remote GET_schemas
                  (fun _ => [Log INFO "Received all schemas information from %s" []])
                  (extend [Http POST_login (Replied r0);
                           Log INFO "User '%(user)s' successfully authenticated to %(url)s" [];
                           debug_session session_cookie] 1 st)) as [t1 Ht1].
      subst ans. rewrite Ht1, trace_extend in Ht'.
      rewrite <- !app_assoc in Ht'. eexists. split; [exact Ht'|].
      right. simpl. eexists. reflexivity.
    + cbv beta iota in H. unfold bind at 1 in H.
      rewrite get_ndo_schemas_None in H. injection H as _ <-.
      eexists. split; [apply trace_extend|]. left. reflexivity.
Qed.

Lemma run_starts_with_login_witness :
  exists t,
    trace (snd (main Fabric.healthy 5 [Fabric.src1] [Fabric.dst1] initial_state))
    = trace initial_state ++ t /\
    (requests t = [POST_login] \/
     exists rest, requests t = POST_login :: GET_schemas :: rest).
Proof.
  apply (run_starts_with_login Fabric.healthy 5 [Fabric.src1] [Fabric.dst1]
           initial_state _
           (fst (main Fabric.healthy 5 [Fabric.src1] [Fabric.dst1] initial_state))).
  vm_compute. reflexivity.
Defined.

(** ** The local phases of a unit *)

(** Looking up the source objects and mapping them onto the destination
    payloads (lines 876-969) sends no request, whatever the outcome: the
    only events are debug messages. *)
Theorem resolve_and_map_send_nothing (src : Src.row) (dst : Dst.row)
  (st st' : State) (o : Outcome unit) :
  (resolve src ;; map_bd dst ;; map_epg dst) st = (o, st') ->
  sent st' = sent st /\
  exists t, trace st' = trace st ++ t /\
            requests t = [] /\
            forallb (is_log DEBUG) t = true.
Proof.
  intros H.
  assert (Q : quiet st st').
  { refine (preserves_bind quiet quiet_trans _ _ _ _ st o st' H).
    - apply resolve_quiet.
    - intros _. apply (preserves_bind quiet quiet_trans).
      + apply map_bd_quiet.
      + intros _. apply map_epg_quiet. }
  destruct Q as (Hs & t & Ht & Hd). split; [exact Hs|].
  exists t. split; [exact Ht|]. split; [|exact Hd].
  rewrite requests_exchanges. now rewrite (proj1 (debug_only t Hd)).
Qed.

Lemma resolve_and_map_send_nothing_witness :
  sent (snd ((resolve Fabric.src1 ;; map_bd Fabric.dst1 ;; map_epg Fabric.dst1)
               Fabric.bootstrapped)) = sent Fabric.bootstrapped.
Proof.
  apply (resolve_and_map_send_nothing Fabric.src1 Fabric.dst1 Fabric.bootstrapped
           _ (fst ((resolve Fabric.src1 ;; map_bd Fabric.dst1 ;; map_epg Fabric.dst1)
                     Fabric.bootstrapped))).
  vm_compute. reflexivity.
Defined.

(** A unit whose indices are out of range in the fetched tree: the
    [IndexError] of the look-up is caught by the handler of the unit,
    which logs the warning and returns; nothing was sent for the unit and
    the destination payloads are as the preceding unit left them. *)
Theorem out_of_range_unit_is_skipped (remote : nat -> Reply) (fuel : nat)
  (session : option Session) (src_epgs : list Src.row) (dst_epgs : list Dst.row)
  (items i : nat) (src : Src.row) (dst : Dst.row) (st st1 : State) :
  nth_error src_epgs i = Some src ->
  nth_error dst_epgs i = Some dst ->
  resolve src st = (Raised IndexError, st1) ->
  migrate_unit remote fuel session src_epgs dst_epgs items i st =
    (Normal tt,
     emit (Log WARNING
             "Source BD/EPG information for %(epg)s is not valid...skipping"
             [JStr (Src.epgName src)]) st1) /\
  sent st1 = sent st /\
  trace st1 = trace st /\
  same_payloads st st1.
Proof.
  intros Hs Hd Hr.
  split.
  { unfold migrate_unit, try_except, unit_body, row_at. rewrite Hs, Hd.
    unfold bind at 1. unfold ret at 1. unfold bind at 1. unfold ret at 1.
    unfold bind at 1. rewrite Hr. simpl.
    unfold skip_unit, row_at. rewrite Hs. reflexivity. }
  assert (X : sent st1 = sent st /\ trace st1 = trace st /\ same_payloads st st1).
  { refine (preserves_resolve
              (fun a b => sent b = sent a /\ trace b = trace a /\ same_payloads a b)
              _ _ src _ st _ st1 Hr).
    - intros s. repeat split.
    - intros s1 s2 s3 (A1 & A2 & A3 & A4 & A5 & A6) (B1 & B2 & B3 & B4 & B5 & B6).
      repeat split; congruence.
    - intros. repeat split. }
  exact X.
Qed.

Lemma out_of_range_unit_is_skipped_witness :
  fst (migrate_unit Fabric.healthy 5 (Some session_cookie)
         [Fabric.src_row "S1" 7 "EPG8"] [Fabric.dst1] 1 0 Fabric.bootstrapped)
  = Normal tt.
Proof.
  destruct (out_of_range_unit_is_skipped Fabric.healthy 5 (Some session_cookie)
              [Fabric.src_row "S1" 7 "EPG8"] [Fabric.dst1] 1 0
              (Fabric.src_row "S1" 7 "EPG8") Fabric.dst1 Fabric.bootstrapped
              (snd (resolve (Fabric.src_row "S1" 7 "EPG8") Fabric.bootstrapped))
              eq_refl eq_refl) as [H _].
  - vm_compute. reflexivity.
  - rewrite H. reflexivity.
Defined.

(** ** The export: loops that collect rows *)

Lemma for_acc_Normal {A B} (I : B -> Prop) (l : list A) (body : B -> A -> M B) :
  (forall acc a st acc' st',
      In a l -> I acc -> body acc a st = (Normal acc', st') -> I acc') ->
  forall acc st r st',
    I acc -> for_acc l acc body st = (Normal r, st') -> I r.
Proof.
  induction l as [|a l IH]; intros Hb acc st r st' Hi H; simpl in H.
  - injection H as <- _. exact Hi.
  - apply bind_Normal in H as (acc1 & st1 & H1 & H2).
    refine (IH _ acc1 st1 r st' _ H2).
    + intros. eapply Hb; eauto. now right.
    + eapply Hb; eauto. now left.
Qed.

Lemma preserves_for_acc {A B} (P : State -> State -> Prop) (l : list A) (acc : B)
  (body : B -> A -> M B) :
  (forall st, P st st) ->
  (forall st1 st2 st3, P st1 st2 -> P st2 st3 -> P st1 st3) ->
  (forall acc a, In a l -> preserves P (body acc a)) ->
  preserves P (for_acc l acc body).
Proof.
  intros R T. revert acc. induction l as [|a l IH]; intros acc Hb; simpl.
  - now apply preserves_ret.
  - apply (preserves_bind P T); [apply Hb; now left|].
    intros acc'. apply IH. intros. apply Hb. now right.
Qed.

Lemma len_iter (j : json) (l : list json) :
  Py.iter j = Ok l -> Builtin.len j = Ok (List.length l).
Proof.
  destruct j; simpl; intros H; try discriminate; injection H as <-.
  - f_equal. induction s as [|a s IH]; simpl; congruence.
  - reflexivity.
  - now rewrite length_map.
Qed.

Lemma enumerate_In {A} (l : list A) (n : nat) (a : A) :
  In (n, a) (enumerate l) -> nth_error l n = Some a.
Proof.
  unfold enumerate. intros H.
  assert (G : forall (k : nat) (l : list A),
             In (n, a) (combine (seq k (List.length l)) l) ->
             (k <= n)%nat /\ nth_error l (n - k) = Some a).
  { clear. intros k l. revert k. induction l as [|x l IH]; intros k H; simpl in H.
    - contradiction.
    - destruct H as [H|H].
      + injection H as -> ->. split; [lia|]. now rewrite Nat.sub_diag.
      + apply IH in H as [Hk Hn]. split; [lia|].
        replace (n - k)%nat with (S (n - S k)) by lia. exact Hn. }
  apply G in H as [_ H]. now rewrite Nat.sub_0_r in H.
Qed.

(** ** What the functions of the export log *)

Lemma only_logs_refl (fmts : list string) (st : State) : only_logs fmts st st.
Proof.
  repeat split. exists []. split; [now rewrite app_nil_r | reflexivity].
Qed.

Lemma only_logs_trans (fmts : list string) (st1 st2 st3 : State) :
  only_logs fmts st1 st2 -> only_logs fmts st2 st3 -> only_logs fmts st1 st3.
Proof.
  intros (S1 & J1 & V1 & t1 & T1 & L1) (S2 & J2 & V2 & t2 & T2 & L2).
  split; [congruence|]. split; [congruence|].
  split; [eapply same_variables_trans; eauto|].
  exists (t1 ++ t2). split; [now rewrite T2, T1, app_assoc|].
  unfold logs_within in *. now rewrite forallb_app, L1, L2.
Qed.

Lemma only_logs_log (fmts : list string) (lvl : Level) (fmt : string)
  (args : list json) :
  logs_within fmts [Log lvl fmt args] = true ->
  preserves (only_logs fmts) (log lvl fmt args).
Proof.
  intros H st o st' E. injection E as _ <-.
  repeat split. exists [Log lvl fmt args]. split; [reflexivity|exact H].
Qed.

Section Collecting.

Variable fmts : list string.

Let P := only_logs fmts.
Let R := only_logs_refl fmts.
Let T := only_logs_trans fmts.

Lemma collecting_item (j : json) (k : string) : preserves P (item j k).
Proof. apply (preserves_lift P R). Qed.

Lemma collecting_elements (j : json) (k : string) : preserves P (elements j k).
Proof. apply (preserves_lift P R). Qed.

Lemma collecting_enumerated {B} (j : json) (k : list (nat * json) -> M B) :
  (forall l, Py.iter j = Ok l -> preserves P (k (enumerate l))) ->
  preserves P (bind (enumerated j) k).
Proof.
  intros Hk st o st' H. unfold enumerated, bind, lift, ret in H.
  destruct (Py.iter j) as [l|e] eqn:E.
  - eapply Hk; eauto.
  - injection H as _ <-. apply R.
Qed.

(** Inside a loop over the elements of [j], [len(j)] is at least 1. *)
Lemma collecting_len {B} (j : json) (l : list json) (x : nat * json)
  (k : nat -> M B) :
  Py.iter j = Ok l -> In x (enumerate l) ->
  (forall n, (1 <=? n)%nat = true -> preserves P (k n)) ->
  preserves P (bind (lift (Builtin.len j)) k).
Proof.
  intros Hi Hx Hk st o st' H. unfold bind, lift in H.
  rewrite (len_iter j l Hi) in H.
  eapply Hk; [|exact H].
  destruct x as [n a]. apply enumerate_In in Hx.
  destruct l; [destruct n; discriminate|reflexivity].
Qed.

Ltac collecting :=
  cbv beta iota zeta;
  lazymatch goal with
  | Hi : Py.iter ?j = Ok ?l, Hx : In _ (enumerate ?l)
    |- preserves _ (bind (lift (Builtin.len ?j)) _) =>
      let n := fresh "n" in
      let Hn := fresh "Hn" in
      apply (collecting_len j l _ _ Hi Hx); intros n Hn; rewrite Hn
  | |- preserves _ (bind (enumerated _) _) =>
      let l := fresh "l" in
      let Hi := fresh "Hi" in
      apply collecting_enumerated; intros l Hi
  | |- preserves _ (bind _ _) => apply (preserves_bind P T); [|intros ?]
  | |- preserves _ (for_acc _ _ _) =>
      let Hx := fresh "Hx" in
      apply (preserves_for_acc P _ _ _ R T); intros ? ? Hx
  | |- preserves _ (enumerated _) => unfold enumerated
  | |- preserves _ (item _ _) => apply collecting_item
  | |- preserves _ (elements _ _) => apply collecting_elements
  | |- preserves _ (lift _) => apply (preserves_lift P R)
  | |- preserves _ (ret _) => apply (preserves_ret P R)
  | |- preserves _ (raise _) => apply (preserves_raise P R)
  | |- preserves _ (log _ _ _) => apply only_logs_log
  | |- preserves _ (if _ then _ else _) => apply preserves_if
  | |- preserves _ (try_except _ _ _) => apply (preserves_try_except P T)
  | |- preserves _ (match ?p with pair _ _ => _ end) => destruct p
  | |- preserves _ ((match ?p with pair _ _ => _ end) _) => destruct p
  | |- logs_within _ _ = true => first [reflexivity | assumption]
  end.

Lemma collecting_sites (j : json) : preserves P (normalize_sites_data j).
Proof. unfold normalize_sites_data. repeat collecting. Qed.

Lemma collecting_tenants (j : json) : preserves P (normalize_tenants_data j).
Proof. unfold normalize_tenants_data. repeat collecting. Qed.

Lemma collecting_schema_templates (j : json) :
  preserves P (normalize_schema_template_data j).
Proof. unfold normalize_schema_template_data. repeat collecting. Qed.

Lemma collecting_schema_sites (j : json) :
  logs_within fmts [Log WARNING "Schema %s is not associated to any site yet" []]
    = true ->
  preserves P (normalize_schema_site_data j).
Proof. intros W. unfold normalize_schema_site_data. repeat collecting. Qed.

Lemma collecting_vrf_templates (j : json) :
  preserves P (normalize_vrf_template_data j).
Proof. unfold normalize_vrf_template_data. repeat collecting. Qed.

Lemma collecting_vrf_sites (j : json) :
  logs_within fmts
    [Log WARNING "%s schema is not currently associated to any site" []] = true ->
  preserves P (normalize_vrf_site_data j).
Proof. intros W. unfold normalize_vrf_site_data. repeat collecting. Qed.

Lemma collecting_bd_templates (j : json) :
  preserves P (normalize_bd_template_data j).
Proof. unfold normalize_bd_template_data. repeat collecting. Qed.

Lemma collecting_bd_sites (j : json) :
  logs_within fmts
    [Log WARNING "%s schema is not currently associated to any site" []] = true ->
  preserves P (normalize_bd_site_data j).
Proof. intros W. unfold normalize_bd_site_data. repeat collecting. Qed.

Lemma collecting_epg_templates (j : json) :
  preserves P (normalize_epg_template_data j).
Proof. unfold normalize_epg_template_data. repeat collecting. Qed.

Lemma collecting_epg_sites (j : json) :
  logs_within fmts
    [Log WARNING "%s schema is not currently associated to any site" []] = true ->
  preserves P (normalize_epg_site_data j).
Proof. intros W. unfold normalize_epg_site_data. repeat collecting. Qed.

Lemma collecting_contract_templates (j : json) :
  preserves P (normalize_contract_template_data j).
Proof. unfold normalize_contract_template_data. repeat collecting. Qed.

Lemma collecting_contract_sites (j : json) :
  logs_within fmts
    [Log WARNING "%s schema is not currently associated to any site" []] = true ->
  preserves P (normalize_contract_site_data j).
Proof. intros W. unfold normalize_contract_site_data. repeat collecting. Qed.

End Collecting.

(** The twelve functions add log messages only: they send nothing and
    assign no variable of [main].  The tables read from templates never
    log a warning, since the tests [len(...) == 0] are made inside a loop
    over the elements counted; those read from sites warn of a schema
    without sites only. *)
Theorem normalizer_only_logs (t : table) (j : json) (st st' : State)
  (o : Outcome (list dict)) :
  normalizer t j st = (o, st') -> only_logs (warnings t) st st'.
Proof.
  revert st o st'. change (preserves (only_logs (warnings t)) (normalizer t j)).
  destruct t; simpl normalizer.
  - apply collecting_sites.
  - apply collecting_tenants.
  - apply collecting_schema_templates.
  - now apply collecting_schema_sites.
  - apply collecting_vrf_templates.
  - now apply collecting_vrf_sites.
  - apply collecting_bd_templates.
  - now apply collecting_bd_sites.
  - apply collecting_epg_templates.
  - now apply collecting_epg_sites.
  - apply collecting_contract_templates.
  - now apply collecting_contract_sites.
Qed.

Lemma normalizer_only_logs_witness :
  only_logs [] initial_state
    (snd (normalizer EpgTemplates Sample.schemas initial_state)).
Proof.
  apply (normalizer_only_logs EpgTemplates Sample.schemas initial_state _
           (fst (normalizer EpgTemplates Sample.schemas initial_state))).
  vm_compute. reflexivity.
Defined.

(** ** The rows of the export *)

Lemma yields_ret {B} (I : B -> Prop) (b : B) : I b -> yields I (ret b).
Proof. intros H st r st' E. injection E as <- _. exact H. Qed.

Lemma yields_raise {B} (I : B -> Prop) (e : Exn) : yields I (raise e).
Proof. intros st r st' E. discriminate. Qed.

Lemma yields_bind {A B} (I : B -> Prop) (m : M A) (k : A -> M B) :
  (forall a, yields I (k a)) -> yields I (bind m k).
Proof.
  intros Hk st r st' H. apply bind_Normal in H as (a & s & _ & H).
  eapply Hk; eauto.
Qed.

Lemma yields_bind_with {A B} (J : A -> Prop) (I : B -> Prop) (m : M A)
  (k : A -> M B) :
  yields J m -> (forall a, J a -> yields I (k a)) -> yields I (bind m k).
Proof.
  intros Hm Hk st r st' H. apply bind_Normal in H as (a & s & Ha & H).
  eapply Hk; eauto.
Qed.

Lemma yields_lift {A B} (I : B -> Prop) (x : result A) (k : A -> M B) :
  (forall a, x = Ok a -> yields I (k a)) -> yields I (bind (lift x) k).
Proof.
  intros Hk st r st' H. apply bind_Normal in H as (a & s & Ha & H).
  apply lift_Normal in Ha as [Ha ->]. eapply Hk; eauto.
Qed.

Lemma yields_if {B} (I : B -> Prop) (b : bool) (m1 m2 : M B) :
  yields I m1 -> yields I m2 -> yields I (if b then m1 else m2).
Proof. destruct b; auto. Qed.

Lemma yields_for_acc {A B} (I : B -> Prop) (l : list A) (acc : B)
  (body : B -> A -> M B) :
  I acc ->
  (forall acc a, In a l -> I acc -> yields I (body acc a)) ->
  yields I (for_acc l acc body).
Proof.
  intros Hi Hb st r st' H.
  refine (for_acc_Normal I l body _ acc st r st' Hi H).
  intros. eapply Hb; eauto.
Qed.

Lemma uniform_snoc (cols : list string) (rows : list dict) (row : dict) :
  uniform cols rows -> Py.keys row = cols -> uniform cols (rows ++ [row]).
Proof. intros H K. apply Forall_app. split; [exact H|]. now constructor. Qed.

Ltac rows_of cols :=
  cbv beta iota zeta;
  lazymatch goal with
  | |- yields _ (bind (for_acc _ _ _) _) =>
      lazymatch goal with
      | |- @yields _ _ (@bind (list _) _ _ _) =>
          apply (yields_bind_with (uniform cols)); [|intros ? ?]
      | |- @yields _ _ (@bind (prod _ _) _ _ _) =>
          apply (yields_bind_with (fun r => uniform cols (fst r))); [|intros ? ?]
      end
  | |- @yields _ _ (@bind (prod (list _) _) _ (if _ then _ else _) _) =>
      apply (yields_bind_with (fun r => uniform cols (fst r))); [|intros ? ?]
  | |- yields _ (bind _ _) => apply yields_bind; intros ?
  | |- yields _ (for_acc _ _ _) =>
      apply yields_for_acc; [try assumption | intros ? ? ? ?]
  | |- yields _ (ret _) => apply yields_ret
  | |- yields _ (raise _) => apply yields_raise
  | |- yields _ (if _ then _ else _) => apply yields_if
  | |- yields _ (match ?p with pair _ _ => _ end) => destruct p
  | |- yields _ ((match ?p with pair _ _ => _ end) _) => destruct p
  | |- uniform _ (_ ++ [_]) => apply uniform_snoc; [|reflexivity]
  | |- uniform _ (fst (_, _)) => cbn [fst]
  | H : uniform _ (fst (_, _)) |- _ => cbn [fst] in H
  | |- uniform _ [] => constructor
  | |- uniform _ _ => assumption
  end.

Ltac spell H :=
  repeat lazymatch type of H with
         | Py.keys ?l = _ :: _ =>
             destruct l as [|[? ?] ?]; [discriminate H|];
             cbn [Py.keys map fst] in H;
             let E := fresh "E" in injection H as E H; subst
         | map fst ?l = _ :: _ =>
             destruct l as [|[? ?] ?]; [discriminate H|];
             cbn [map fst] in H;
             let E := fresh "E" in injection H as E H; subst
         | Py.keys ?l = [] => destruct l; [|discriminate H]
         | map fst ?l = [] => destruct l; [|discriminate H]
         end.

(** [normalize_vrf_template_data] passes [dict3] from the branches to the
    line that merges it. *)
Ltac vrf_rows :=
  cbv beta iota zeta;
  lazymatch goal with
  | |- @yields _ _ (@bind (prod json (list _)) _ (if _ then _ else _) _) =>
      let K := fresh "K" in
      apply (yields_bind_with
               (fun r : json * dict =>
                  Py.keys (snd r) =
                  ["VRF Name"; "VRF Display Name"; "VRF Number"; "VRF UUID";
                   "VRF Reference"]));
      [|intros [? ?] K; cbn [snd] in K; spell K]
  | |- Py.keys (snd (_, _)) = _ => reflexivity
  | |- _ => rows_of (columns VrfTemplates)
  end.

Lemma normalizer_uniform (t : table) (j : json) (st st' : State)
  (rows : list dict) :
  normalizer t j st = (Normal rows, st') -> uniform (columns t) rows.
Proof.
  revert st rows st'. change (yields (uniform (columns t)) (normalizer t j)).
  destruct t; cbn [normalizer].
  - unfold normalize_sites_data. repeat rows_of (columns Sites).
  - unfold normalize_tenants_data. repeat rows_of (columns Tenants).
  - unfold normalize_schema_template_data.
    repeat rows_of (columns SchemaTemplates).
  - unfold normalize_schema_site_data. repeat rows_of (columns SchemaSites).
  - unfold normalize_vrf_template_data. repeat vrf_rows.
  - unfold normalize_vrf_site_data. repeat rows_of (columns VrfSites).
  - unfold normalize_bd_template_data. repeat rows_of (columns BdTemplates).
  - unfold normalize_bd_site_data. repeat rows_of (columns BdSites).
  - unfold normalize_epg_template_data. repeat rows_of (columns EpgTemplates).
  - unfold normalize_epg_site_data. repeat rows_of (columns EpgSites).
  - unfold normalize_contract_template_data.
    repeat rows_of (columns ContractTemplates).
  - unfold normalize_contract_site_data. repeat rows_of (columns ContractSites).
Qed.

Lemma columns_NoDup (t : table) : NoDup (columns t).
Proof.
  destruct t;
    match goal with
    | |- NoDup ?l =>
        replace l with (nodup string_dec l) by (vm_compute; reflexivity);
        apply NoDup_nodup
    end.
Qed.

(** Every row one of the twelve functions returns has the keys of its
    table, in the same order and without repetition: the header
    [write_to_excel] takes from the first row fits all of them. *)
Theorem rows_have_the_columns (t : table) (j : json) (st st' : State)
  (rows : list dict) :
  normalizer t j st = (Normal rows, st') ->
  forall row, In row rows -> Py.keys row = columns t /\ NoDup (Py.keys row).
Proof.
  intros H row Hin.
  pose proof (normalizer_uniform t j st st' rows H) as Hu.
  unfold uniform in Hu. rewrite Forall_forall in Hu.
  rewrite (Hu row Hin). split; [reflexivity | apply columns_NoDup].
Qed.

Lemma rows_have_the_columns_witness :
  Forall (fun row => Py.keys row = columns BdTemplates /\ NoDup (Py.keys row))
    (match fst (normalizer BdTemplates Sample.schemas initial_state) with
     | Normal rows => rows
     | _ => []
     end).
Proof.
  apply Forall_forall.
  apply (rows_have_the_columns BdTemplates Sample.schemas initial_state
           (snd (normalizer BdTemplates Sample.schemas initial_state))).
  vm_compute. reflexivity.
Defined.


(** ** Writing a table to a sheet *)

Lemma nth_error_keys (row : dict) (name : string) :
  In name (Py.keys row) -> exists v, Py.dict_get name row = Some v /\ In (name, v) row.
Proof.
  induction row as [|[k v] row IH]; simpl; [tauto|].
  destruct (String.eqb_spec name k) as [->|N].
  - intros _. exists v. split; auto.
  - intros [H|H]; [congruence|].
    destruct (IH H) as (v' & Hv & Hin). exists v'. split; auto.
Qed.

Lemma storable_row_get (row : dict) (name : string) (v : json) :
  storable_row row = true -> In (name, v) row -> storable v = true.
Proof.
  unfold storable_row. rewrite forallb_forall. intros H Hin.
  exact (H (name, v) Hin).
Qed.

Lemma cell_assign_ok (r c : Z) (v : json) (s : sheet) :
  1 <= r -> 1 <= c -> storable v = true ->
  cell_assign r c v s = Ok (set_cell r c v s).
Proof.
  intros Hr Hc Hv. unfold cell_assign. rewrite Hv.
  replace (r <? 1) with false by (symmetry; apply Z.ltb_ge; lia).
  replace (c <? 1) with false by (symmetry; apply Z.ltb_ge; lia).
  reflexivity.
Qed.

Lemma set_cell_same (r c : Z) (v : json) (s : sheet) :
  set_cell r c v s r c = Some v.
Proof. unfold set_cell. now rewrite !Z.eqb_refl. Qed.

Lemma set_cell_other (r c r' c' : Z) (v : json) (s : sheet) :
  r' <> r \/ c' <> c -> set_cell r c v s r' c' = s r' c'.
Proof.
  unfold set_cell. intros [H|H].
  - apply Z.eqb_neq in H. now rewrite H.
  - apply Z.eqb_neq in H. rewrite H. now rewrite andb_false_r.
Qed.

Lemma write_header_cells (cols : list string) :
  forall (c r : Z) (s : sheet),
    1 <= r -> 1 <= c ->
    exists s',
      write_header (enumerate_from c cols) r s = Ok s' /\
      (forall i name, nth_error cols i = Some name ->
                      s' r (c + Z.of_nat i) = Some (JStr name)) /\
      (forall r' c', r' <> r \/ c' < c \/ c + Z.of_nat (List.length cols) <= c' ->
                     s' r' c' = s r' c').
Proof.
  induction cols as [|name cols IH]; intros c r s Hr Hc; simpl.
  - exists s. split; [reflexivity|]. split; [intros [|i] ? H; discriminate|auto].
  - rewrite cell_assign_ok by (auto; lia). simpl.
    destruct (IH (c + 1) r (set_cell r c (JStr name) s) Hr ltac:(lia))
      as (s' & E & Hin & Hout).
    exists s'. split; [exact E|]. split.
    + intros [|i] n H; simpl in H.
      * injection H as <-. rewrite Hout by lia.
        rewrite Z.add_0_r. apply set_cell_same.
      * rewrite <- (Hin i n H). f_equal. lia.
    + intros r' c' H. rewrite Hout by lia. apply set_cell_other. lia.
Qed.

Lemma write_row_cells (cols : list string) (row : dict) :
  forall (c r : Z) (s : sheet),
    1 <= r -> 1 <= c ->
    incl cols (Py.keys row) -> storable_row row = true ->
    exists s',
      write_row (enumerate_from c cols) r row s = Ok s' /\
      (forall i name v, nth_error cols i = Some name ->
                        Py.dict_get name row = Some v ->
                        s' r (c + Z.of_nat i) = Some v) /\
      (forall r' c', r' <> r \/ c' < c \/ c + Z.of_nat (List.length cols) <= c' ->
                     s' r' c' = s r' c').
Proof.
  induction cols as [|name cols IH]; intros c r s Hr Hc Hk Hs; simpl.
  - exists s. split; [reflexivity|]. split; [intros [|i] ? ? H; discriminate|auto].
  - destruct (nth_error_keys row name) as (v & Hv & Hin); [apply Hk; now left|].
    rewrite Hv. simpl.
    rewrite cell_assign_ok by (eauto using storable_row_get; lia). simpl.
    destruct (IH (c + 1) r (set_cell r c v s) Hr ltac:(lia))
      as (s' & E & Hcells & Hout);
      [intros x Hx; apply Hk; now right | exact Hs |].
    exists s'. split; [exact E|]. split.
    + intros [|i] n w H Hw; simpl in H.
      * injection H as <-. rewrite Hout by lia.
        rewrite Z.add_0_r. rewrite set_cell_same. congruence.
      * rewrite <- (Hcells i n w H Hw). f_equal. lia.
    + intros r' c' H. rewrite Hout by lia. apply set_cell_other. lia.
Qed.

Lemma write_rows_cells (cols : list string) (c : Z) (rows : list dict) :
  forall (r : Z) (s : sheet),
    1 <= r -> 1 <= c ->
    uniform cols rows ->
    forallb storable_row rows = true ->
    exists s',
      write_rows (enumerate_from r rows) cols c s = Ok s' /\
      (forall k row i name v,
          nth_error rows k = Some row ->
          nth_error cols i = Some name ->
          Py.dict_get name row = Some v ->
          s' (r + Z.of_nat k) (c + Z.of_nat i) = Some v) /\
      (forall r' c',
          r' < r \/ r + Z.of_nat (List.length rows) <= r' \/
          c' < c \/ c + Z.of_nat (List.length cols) <= c' ->
          s' r' c' = s r' c').
Proof.
  induction rows as [|row rows IH]; intros r s Hr Hc Hu Hs; simpl.
  - exists s. split; [reflexivity|].
    split; [intros [|k] ? ? ? ? H; discriminate|auto].
  - inversion Hu as [|? ? Hk Hu']; subst.
    simpl in Hs. apply andb_prop in Hs as [Hs1 Hs2].
    destruct (write_row_cells (Py.keys row) row c r s Hr Hc (incl_refl _) Hs1)
      as (s1 & E1 & Hcells1 & Hout1).
    rewrite E1. simpl.
    destruct (IH (r + 1) s1 ltac:(lia) Hc Hu' Hs2) as (s' & E & Hcells & Hout).
    exists s'. split; [exact E|]. split.
    + intros [|k] row' i name v Hrow Hi Hv; simpl in Hrow.
      * injection Hrow as <-. rewrite Hout by lia.
        rewrite Z.add_0_r. eapply Hcells1; eauto.
      * rewrite <- (Hcells k row' i name v Hrow Hi Hv). f_equal. lia.
    + intros r' c' H. rewrite Hout by lia. apply Hout1. lia.
Qed.

Lemma write_to_excel_empty (template : workbook) (file : option workbook)
  (filename sheetname : string) (startCol startRow : Z) (st : State) :
  write_to_excel template file filename sheetname [] startCol startRow st =
  (Raised (match worksheet sheetname (opened template file) with
           | Ok _ => IndexError
           | Err e => e
           end),
   emit (Log INFO "Successfully added data to file %s from template!"
           [JStr filename]) st).
Proof.
  unfold write_to_excel, opened, bind, log, modify, lift.
  destruct (worksheet sheetname _); reflexivity.
Qed.

(** [write_to_excel] called with no row: [data[0]] raises [IndexError]
    once the sheet has been found (a missing sheet raises [KeyError]
    first); the first message is logged and nothing is saved. *)
Theorem write_to_excel_no_rows (template : workbook) (file : option workbook)
  (filename sheetname : string) (startCol startRow : Z) (st : State)
  (s : sheet) :
  worksheet sheetname (opened template file) = Ok s ->
  write_to_excel template file filename sheetname [] startCol startRow st =
  (Raised IndexError,
   emit (Log INFO "Successfully added data to file %s from template!"
           [JStr filename]) st) /\
  forall other,
    worksheet other (opened template file) = Err KeyError ->
    write_to_excel template file filename other [] startCol startRow st =
    (Raised KeyError,
     emit (Log INFO "Successfully added data to file %s from template!"
             [JStr filename]) st).
Proof.
  intros Hs. split.
  - rewrite write_to_excel_empty. now rewrite Hs.
  - intros other Ho. rewrite write_to_excel_empty. now rewrite Ho.
Qed.

Lemma write_to_excel_no_rows_witness :
  fst (write_to_excel Sample.blank None "data.xlsx" "Contract Data" [] 11 3
         initial_state) = Raised IndexError.
Proof.
  destruct (write_to_excel_no_rows Sample.blank None "data.xlsx" "Contract Data"
              11 3 initial_state (fun _ _ => None) eq_refl) as [H _].
  rewrite H. reflexivity.
Defined.

Lemma write_to_excel_run (template : workbook) (file : option workbook)
  (filename sheetname : string) (first : dict) (rest : list dict)
  (startCol startRow : Z) (s : sheet) (st : State) :
  1 <= startCol -> 1 <= startRow ->
  worksheet sheetname (opened template file) = Ok s ->
  uniform (Py.keys first) rest ->
  forallb storable_row (first :: rest) = true ->
  exists s',
    write_to_excel template file filename sheetname (first :: rest)
      startCol startRow st =
    (Normal (with_sheet sheetname s' (opened template file)),
     extend [Log INFO "Successfully added data to file %s from template!"
               [JStr filename];
             Log INFO "Data written to {filename} successfully!" [JStr filename]]
       0 st) /\
    (forall i name,
        nth_error (Py.keys first) i = Some name ->
        s' startRow (startCol + Z.of_nat i) = Some (JStr name)) /\
    (forall k row i name v,
        nth_error (first :: rest) k = Some row ->
        nth_error (Py.keys first) i = Some name ->
        Py.dict_get name row = Some v ->
        s' (startRow + 1 + Z.of_nat k) (startCol + Z.of_nat i) = Some v) /\
    (forall r c,
        r < startRow \/ startRow + 1 + Z.of_nat (List.length (first :: rest)) <= r \/
        c < startCol \/ startCol + Z.of_nat (List.length (Py.keys first)) <= c ->
        s' r c = s r c).
Proof.
  intros Hc Hr Hs Hu Hv.
  destruct (write_header_cells (Py.keys first) startCol startRow s Hr Hc)
    as (s1 & E1 & Hhead & Hout1).
  destruct (write_rows_cells (Py.keys first) startCol (first :: rest)
              (startRow + 1) s1 ltac:(lia) Hc) as (s2 & E2 & Hcells & Hout2);
    [constructor; [reflexivity|exact Hu] | exact Hv |].
  exists s2. split; [|split; [|split]].
  - unfold write_to_excel. fold (opened template file).
    unfold bind, log, modify, lift. rewrite Hs.
    cbn [Py.seq_index Py.norm_index List.length nth_error].
    cbn -[write_header write_rows enumerate_from Z.add].
    unfold dict in *. rewrite E1. rewrite E2.
    rewrite !emit_extend, extend_extend. reflexivity.
  - intros i name H. rewrite Hout2 by lia. now apply Hhead.
  - exact Hcells.
  - intros r c H. rewrite Hout2 by lia. apply Hout1. lia.
Qed.

Lemma worksheet_with_sheet (name : string) (s s' : sheet) (w : workbook) :
  worksheet name w = Ok s ->
  worksheet name (with_sheet name s' w) = Ok s' /\
  forall other, other <> name ->
                worksheet other (with_sheet name s' w) = worksheet other w.
Proof.
  induction w as [|[n x] w IH]; simpl; [discriminate|].
  destruct (String.eqb_spec n name) as [->|N]; intros H.
  - simpl. rewrite String.eqb_refl. split; [reflexivity|].
    intros other Ho. apply String.eqb_neq in Ho.
    now rewrite String.eqb_sym, Ho.
  - destruct (IH H) as [H1 H2]. simpl.
    apply String.eqb_neq in N. rewrite N. split; [exact H1|].
    intros other Ho. destruct (String.eqb n other); auto.
Qed.

(** [write_to_excel] on rows that all have the keys of the first one and
    hold values a cell can take, for a sheet the workbook has and a
    start row and column of at least 1: the keys of the first row are
    written from [startCol] on in row [startRow], row [k] of the data is
    written under them in row [startRow + 1 + k], no other cell of the
    sheet and no other sheet is changed, and both messages are logged. *)
Theorem write_to_excel_cells (template : workbook) (file : option workbook)
  (filename sheetname : string) (first : dict) (rest : list dict)
  (startCol startRow : Z) (s : sheet) (st : State) :
  1 <= startCol -> 1 <= startRow ->
  worksheet sheetname (opened template file) = Ok s ->
  uniform (Py.keys first) rest ->
  forallb storable_row (first :: rest) = true ->
  exists saved s',
    write_to_excel template file filename sheetname (first :: rest)
      startCol startRow st =
    (Normal saved,
     extend [Log INFO "Successfully added data to file %s from template!"
               [JStr filename];
             Log INFO "Data written to {filename} successfully!" [JStr filename]]
       0 st) /\
    worksheet sheetname saved = Ok s' /\
    (forall other, other <> sheetname ->
                   worksheet other saved = worksheet other (opened template file)) /\
    (forall i name,
        nth_error (Py.keys first) i = Some name ->
        s' startRow (startCol + Z.of_nat i) = Some (JStr name)) /\
    (forall k row i name v,
        nth_error (first :: rest) k = Some row ->
        nth_error (Py.keys first) i = Some name ->
        Py.dict_get name row = Some v ->
        s' (startRow + 1 + Z.of_nat k) (startCol + Z.of_nat i) = Some v) /\
    (forall r c,
        r < startRow \/ startRow + 1 + Z.of_nat (List.length (first :: rest)) <= r \/
        c < startCol \/ startCol + Z.of_nat (List.length (Py.keys first)) <= c ->
        s' r c = s r c).
Proof.
  intros Hc Hr Hs Hu Hv.
  destruct (write_to_excel_run template file filename sheetname first rest
              startCol startRow s st Hc Hr Hs Hu Hv) as (s' & E & H1 & H2 & H3).
  destruct (worksheet_with_sheet sheetname s s' _ Hs) as [W1 W2].
  exists (with_sheet sheetname s' (opened template file)), s'.
  repeat split; auto.
Qed.

Lemma write_to_excel_cells_witness :
  exists saved s',
    fst (write_to_excel Sample.blank None "data.xlsx" "Infra"
           [[("Site Name", JStr "A"); ("Site ID", JStr "site-a")];
            [("Site Name", JStr "B"); ("Site ID", JStr "site-b")]] 1 3
           initial_state) = Normal saved /\
    worksheet "Infra" saved = Ok s' /\
    s' 3 1 = Some (JStr "Site Name") /\
    s' 5 2 = Some (JStr "site-b").
Proof.
  destruct (write_to_excel_cells Sample.blank None "data.xlsx" "Infra"
              [("Site Name", JStr "A"); ("Site ID", JStr "site-a")]
              [[("Site Name", JStr "B"); ("Site ID", JStr "site-b")]] 1 3
              (fun _ _ => None) initial_state)
    as (saved & s' & E & W & _ & Hh & Hc & _).
  - lia.
  - lia.
  - reflexivity.
  - repeat constructor.
  - reflexivity.
  - exists saved, s'. split; [exact (f_equal fst E)|].
    split; [exact W|]. split.
    + exact (Hh 0%nat "Site Name" eq_refl).
    + exact (Hc 1%nat [("Site Name", JStr "B"); ("Site ID", JStr "site-b")]
               1%nat "Site ID" (JStr "site-b") eq_refl eq_refl eq_refl).
Defined.

(** A table and the sheet it is written to (the twelve pairs of lines
    750-778):
    the rows a function returns always fit the header taken from the
    first of them, so writing them raises no [KeyError].  With no row the
    write raises [IndexError]; with at least one row, and values that
    cells can hold, it returns and the header of the sheet is the list of
    columns of the table. *)
Theorem table_is_written (t : table) (doc : json) (template : workbook)
  (file : option workbook) (filename sheetname : string) (startCol startRow : Z)
  (s : sheet) (rows : list dict) (st st1 : State) :
  normalizer t doc st = (Normal rows, st1) ->
  1 <= startCol -> 1 <= startRow ->
  worksheet sheetname (opened template file) = Ok s ->
  forallb storable_row rows = true ->
  let step :=
    data <- normalizer t doc ;;
    write_to_excel template file filename sheetname data startCol startRow in
  (rows = [] ->
   step st =
   (Raised IndexError,
    emit (Log INFO "Successfully added data to file %s from template!"
            [JStr filename]) st1)) /\
  (rows <> [] ->
   exists saved s' st2,
     step st = (Normal saved, st2) /\
     worksheet sheetname saved = Ok s' /\
     (forall i name, nth_error (columns t) i = Some name ->
                     s' startRow (startCol + Z.of_nat i) = Some (JStr name)) /\
     (forall k row i name v,
         nth_error rows k = Some row ->
         nth_error (columns t) i = Some name ->
         Py.dict_get name row = Some v ->
         s' (startRow + 1 + Z.of_nat k) (startCol + Z.of_nat i) = Some v)).
Proof.
  intros Hn Hc Hr Hs Hv step.
  assert (Step : step st =
                 write_to_excel template file filename sheetname rows
                   startCol startRow st1)
    by (subst step; unfold bind; now rewrite Hn).
  rewrite Step. clear Step.
  pose proof (normalizer_uniform t doc st st1 rows Hn) as Hu.
  split.
  - intros ->. rewrite write_to_excel_empty. now rewrite Hs.
  - intros Hne. destruct rows as [|first rest]; [congruence|].
    inversion Hu as [|? ? Hk Hu']; subst.
    rewrite <- Hk in Hu'.
    destruct (write_to_excel_run template file filename sheetname first rest
                startCol startRow s st1 Hc Hr Hs Hu' Hv)
      as (s' & E & H1 & H2 & H3).
    destruct (worksheet_with_sheet sheetname s s' _ Hs) as [W1 _].
    do 3 eexists. split; [exact E|]. rewrite <- Hk.
    split; [exact W1|]. split; [exact H1|exact H2].
Qed.

Lemma table_is_written_witness :
  fst ((data <- normalizer Tenants Sample.tenants ;;
        write_to_excel Sample.blank None "data.xlsx" "Infra" data 7 3)
         initial_state)
  <> Raised IndexError.
Proof.
  destruct (table_is_written Tenants Sample.tenants Sample.blank None
              "data.xlsx" "Infra" 7 3 (fun _ _ => None)
              (match fst (normalizer Tenants Sample.tenants initial_state) with
               | Normal rows => rows
               | _ => []
               end)
              initial_state
              (snd (normalizer Tenants Sample.tenants initial_state)))
    as [_ H].
  - vm_compute. reflexivity.
  - lia.
  - lia.
  - reflexivity.
  - vm_compute. reflexivity.
  - destruct H as (saved & s' & st2 & E & _); [vm_compute; discriminate|].
    rewrite E. discriminate.
Defined.

(** ** The sites and the tenants *)

Lemma for_acc_count {A B} (R : A -> nat -> Prop) (l : list A)
  (body : list B -> A -> M (list B)) :
  (forall acc a st acc' st',
      In a l -> body acc a st = (Normal acc', st') ->
      exists n, R a n /\ List.length acc' = (List.length acc + n)%nat) ->
  forall acc st r st',
    for_acc l acc body st = (Normal r, st') ->
    exists counts,
      Forall2 R l counts /\
      List.length r = (List.length acc + list_sum counts)%nat.
Proof.
  induction l as [|a l IH]; intros Hb acc st r st' H; simpl in H.
  - injection H as <- _. exists []. split; [constructor | simpl; lia].
  - apply bind_Normal in H as (acc1 & st1 & H1 & H2).
    destruct (Hb acc a st acc1 st1 (or_introl eq_refl) H1) as (n & Hn & Hl).
    destruct (IH (fun acc a st acc' st' Hin => Hb acc a st acc' st' (or_intror Hin))
                acc1 st1 r st' H2) as (counts & Hc & Hr).
    exists (n :: counts). split; [now constructor | simpl; lia].
Qed.

Lemma for_acc_length {A B} (l : list A) (body : list B -> A -> M (list B)) :
  (forall acc a st acc' st',
      In a l -> body acc a st = (Normal acc', st') ->
      List.length acc' = S (List.length acc)) ->
  forall acc st r st',
    for_acc l acc body st = (Normal r, st') ->
    List.length r = (List.length acc + List.length l)%nat.
Proof.
  induction l as [|a l IH]; intros Hb acc st r st' H; simpl in H.
  - injection H as <- _. simpl. lia.
  - apply bind_Normal in H as (acc1 & st1 & H1 & H2).
    pose proof (Hb acc a st acc1 st1 (or_introl eq_refl) H1) as Hl.
    pose proof (IH (fun acc a st acc' st' Hin => Hb acc a st acc' st' (or_intror Hin))
                  acc1 st1 r st' H2) as Hr.
    simpl. lia.
Qed.

Lemma elements_Normal (j : json) (k : string) (st st' : State) (l : list json) :
  elements j k st = (Normal l, st') ->
  rbind (Py.getitem j k) Py.iter = Ok l /\ st' = st.
Proof. apply lift_Normal. Qed.

(** One row per site association: a tenant that is on no site is not in
    the table. *)
Theorem tenants_rows_count (doc : json) (st st' : State) (rows : list dict) :
  normalize_tenants_data doc st = (Normal rows, st') ->
  exists tenants counts,
    rbind (Py.getitem doc "tenants") Py.iter = Ok tenants /\
    Forall2
      (fun tenant n =>
         exists associations,
           rbind (Py.getitem tenant "siteAssociations") Py.iter = Ok associations /\
           List.length associations = n)
      tenants counts /\
    List.length rows = list_sum counts.
Proof.
  intros H. unfold normalize_tenants_data in H.
  bind_step H. apply elements_Normal in Hm as [Ht ->].
  exists a.
  eapply for_acc_count in H.
  - destruct H as (counts & Hc & Hl). exists counts. split; [exact Ht|].
    split; [exact Hc | exact Hl].
  - clear. intros acc tenant st acc' st' _ H. cbv beta in H.
    repeat bind_step H. injection H as <- _.
    match goal with
    | He : elements _ _ _ = _ |- _ => apply elements_Normal in He as [Ha _]
    end.
    match goal with
    | Hf : for_acc ?l _ _ _ = (Normal _, _) |- _ =>
        exists (List.length l); split; [eauto|];
        eapply for_acc_length in Hf; [exact Hf|]
    end.
    clear. intros acc association st acc' st' _ H. cbv beta in H.
    bind_step H. injection H as <- _. rewrite length_app. simpl. lia.
Qed.

Lemma tenants_rows_count_witness :
  exists tenants counts,
    rbind (Py.getitem Sample.tenants "tenants") Py.iter = Ok tenants /\
    Forall2
      (fun tenant n =>
         exists associations,
           rbind (Py.getitem tenant "siteAssociations") Py.iter = Ok associations /\
           List.length associations = n)
      tenants counts /\
    List.length
      [[("Tenant Name", JStr "prod"); ("Tenant Display Name", JStr "Prod");
        ("Tenand ID", JStr "t1"); ("Site Association", JStr "site-a")];
       [("Tenant Name", JStr "prod"); ("Tenant Display Name", JStr "Prod");
        ("Tenand ID", JStr "t1"); ("Site Association", JStr "site-b")]]
    = list_sum counts.
Proof.
  apply (tenants_rows_count Sample.tenants initial_state
           (snd (normalize_tenants_data Sample.tenants initial_state))).
  vm_compute. reflexivity.
Defined.

Lemma or_none_truthy (v : json) : Builtin.truthy (Builtin.or_ v none) = true.
Proof. unfold Builtin.or_. destruct (Builtin.truthy v) eqn:E; [exact E|reflexivity]. Qed.

Lemma yields_try_except {B} (I : B -> Prop) (m : M B) (exc : Exn) (h : M B) :
  yields I m -> yields I h -> yields I (try_except m exc h).
Proof.
  intros Hm Hh st r st' H. unfold try_except in H.
  destruct (m st) as [[a|e|] s] eqn:E.
  - injection H as <- _. eapply Hm; eauto.
  - destruct (Exn_eqb e exc); [eapply Hh; eauto | discriminate].
  - discriminate.
Qed.

(** One row per site, and no empty cell: a value that is missing for the
    site number, or that is null or empty, is written as the string
    "None". *)
Theorem sites_rows_are_filled (doc : json) (st st' : State) (rows : list dict) :
  normalize_sites_data doc st = (Normal rows, st') ->
  exists sites,
    rbind (Py.getitem doc "sites") Py.iter = Ok sites /\
    List.length rows = List.length sites /\
    Forall filled rows.
Proof.
  intros H. unfold normalize_sites_data in H. cbv zeta in H.
  bind_step H. apply elements_Normal in Hm as [Hs ->].
  exists a. split; [exact Hs|]. split.
  - eapply for_acc_length in H; [exact H|].
    clear. intros acc site st acc' st' _ H.
    repeat (cbv beta zeta in H; bind_step H).
    cbv beta zeta in H. injection H as <- _. rewrite length_app. simpl.
    rewrite Nat.add_1_r. reflexivity.
  - revert H. generalize st st'. clear. intros st st'.
    revert st rows st'.
    match goal with
    | |- forall st rows st', ?m st = _ -> _ =>
        change (yields (Forall filled) m)
    end.
    apply yields_for_acc; [constructor|].
    intros acc site _ Hacc. cbv beta zeta.
    do 5 (apply yields_bind; intros ?).
    apply (yields_bind_with (fun v => Builtin.truthy v = true)).
    + apply yields_try_except.
      * do 2 (apply yields_bind; intros ?). apply yields_ret.
        apply or_none_truthy.
      * apply yields_bind; intros ?. apply yields_ret. reflexivity.
    + intros commonId Hc. do 2 (apply yields_bind; intros ?).
      apply yields_ret. apply Forall_app. split; [exact Hacc|].
      constructor; [|constructor].
      intros k v Hin. simpl in Hin.
      destruct Hin as [E|[E|[E|[E|[]]]]]; injection E as _ <-;
        auto using or_none_truthy.
Qed.

Lemma sites_rows_are_filled_witness :
  exists sites,
    rbind (Py.getitem Sample.sites "sites") Py.iter = Ok sites /\
    List.length
      (match fst (normalize_sites_data Sample.sites initial_state) with
       | Normal rows => rows
       | _ => []
       end) = List.length sites /\
    Forall filled
      (match fst (normalize_sites_data Sample.sites initial_state) with
       | Normal rows => rows
       | _ => []
       end).
Proof.
  apply (sites_rows_are_filled Sample.sites initial_state
           (snd (normalize_sites_data Sample.sites initial_state))).
  vm_compute. reflexivity.
Defined.

(** The number of a site is optional, its id and its names are not: when
    every site has an [id] and a [common] object with [name] and
    [displayName], the function returns a row for each, with or without a
    [siteId]. *)
Theorem named_sites_are_normalized (doc : json) (sites : list json)
  (st : State) :
  rbind (Py.getitem doc "sites") Py.iter = Ok sites ->
  Forall named_site sites ->
  exists rows st',
    normalize_sites_data doc st = (Normal rows, st') /\
    List.length rows = List.length sites.
Proof.
  intros Hs Hf.
  unfold normalize_sites_data. cbv zeta. unfold bind at 1.
  unfold elements, lift. rewrite Hs.
  match goal with
  | |- exists rows st', for_acc _ _ ?body _ = _ /\ _ =>
      assert (G : forall st acc,
                 exists rows st',
                   for_acc sites acc body st = (Normal rows, st') /\
                   List.length rows = (List.length acc + List.length sites)%nat)
  end.
  { clear Hs st.
    induction Hf as [|site sites Hsite _ IH]; intros st acc.
    - exists acc, st. split; [reflexivity | simpl; lia].
    - destruct Hsite as (id & common & name & dn & Hid & Hc & Hn & Hd).
      cbn [for_acc]. unfold bind at 1.
      unfold item, bind, lift, try_except, log, modify, ret.
      rewrite Hid, Hc. cbn [Py.getitem]. rewrite Hn, Hd.
      destruct (Py.dict_get "siteId" common) as [v|]; cbn [Exn_eqb];
        match goal with
        | |- exists rows st', for_acc _ ?acc1 _ ?st1 = _ /\ _ =>
            destruct (IH st1 acc1) as (rows & st' & E & L);
            exists rows, st'; split; [exact E|];
            rewrite L, length_app; simpl; lia
        end. }
  exact (G st []).
Qed.

Lemma named_sites_are_normalized_witness :
  exists rows st',
    normalize_sites_data Sample.sites initial_state = (Normal rows, st') /\
    List.length rows = 2%nat.
Proof.
  apply (named_sites_are_normalized Sample.sites
           [JDict [("id", JStr "site-a");
                   ("common", JDict [("name", JStr "A");
                                     ("displayName", JStr "Site A");
                                     ("siteId", JStr "1")])];
            JDict [("id", JStr "site-b");
                   ("common", JDict [("name", JStr "B");
                                     ("displayName", JStr "")])]]
           initial_state).
  - reflexivity.
  - repeat constructor; do 4 eexists; repeat split; reflexivity.
Defined.

(** ** The numbers of the export are the indices of the migration *)

Lemma yields_enumerated {B} (I : B -> Prop) (j : json)
  (k : list (nat * json) -> M B) :
  (forall l, Py.iter j = Ok l -> yields I (k (enumerate l))) ->
  yields I (bind (enumerated j) k).
Proof.
  intros Hk st r st' H. apply bind_Normal in H as (a & s & Ha & H).
  unfold enumerated in Ha. apply bind_Normal in Ha as (l & s1 & Hl & Ha).
  apply lift_Normal in Hl as [Hl ->]. injection Ha as <- _.
  eapply Hk; eauto.
Qed.

Lemma yields_item_enumerated {B} (I : B -> Prop) (j : json) (key : string)
  (k : list (nat * json) -> M B) :
  (forall l, rbind (Py.getitem j key) Py.iter = Ok l ->
             yields I (k (enumerate l))) ->
  yields I (bind (t <- item j key ;; enumerated t) k).
Proof.
  intros Hk st r st' H. apply bind_Normal in H as (a & s & Ha & H).
  apply bind_Normal in Ha as (t & s1 & Ht & Ha).
  apply lift_Normal in Ht as [Ht ->].
  unfold enumerated in Ha. apply bind_Normal in Ha as (l & s2 & Hl & Ha).
  apply lift_Normal in Hl as [Hl ->]. injection Ha as <- _.
  eapply Hk; eauto. unfold rbind. now rewrite Ht.
Qed.

Lemma yields_len {B} (I : B -> Prop) (j : json) (l : list json)
  (x : nat * json) (k : nat -> M B) :
  Py.iter j = Ok l -> In x (enumerate l) ->
  (forall n, (1 <=? n)%nat = true -> yields I (k n)) ->
  yields I (bind (lift (Builtin.len j)) k).
Proof.
  intros Hi Hx Hk. apply yields_lift. intros n Hn.
  rewrite (len_iter j l Hi) in Hn. injection Hn as <-.
  apply Hk. destruct x as [i a]. apply enumerate_In in Hx.
  destruct l; [destruct i; discriminate|reflexivity].
Qed.

Lemma enumerate_In_list {A} (l : list A) (n : nat) (a : A) :
  In (n, a) (enumerate l) -> In a l.
Proof. intros H. apply enumerate_In in H. eapply nth_error_In; eauto. Qed.

(** An element of a container that can be subscripted with a key is what
    the container holds at its position. *)
Lemma getindex_enumerated (j : json) (l : list json) (n : nat) (x v : json)
  (key : string) :
  Py.iter j = Ok l -> In (n, x) (enumerate l) -> Py.getitem x key = Ok v ->
  Py.getindex j (Z.of_nat n) = Ok x.
Proof.
  intros Hi Hx Hv. apply enumerate_In in Hx.
  assert (Hl : forall l', nth_error l' n = Some x ->
                          Py.seq_index l' (Z.of_nat n) = Ok x).
  { intros l' H. unfold Py.seq_index, Py.norm_index.
    assert (n < List.length l')%nat by (apply nth_error_Some; congruence).
    replace (0 <=? Z.of_nat n) with true by (symmetry; apply Z.leb_le; lia).
    replace (Z.of_nat n <? Z.of_nat (List.length l')) with true
      by (symmetry; apply Z.ltb_lt; lia).
    simpl. rewrite Nat2Z.id. now rewrite H. }
  destruct j; simpl in Hi; try discriminate; injection Hi as <-.
  - exfalso. clear Hl. revert n Hx.
    induction s as [|c s IH]; intros [|n] Hx; simpl in Hx; try discriminate.
    + injection Hx as <-. discriminate.
    + eauto.
  - simpl. now apply Hl.
  - exfalso. apply nth_error_In in Hx. apply in_map_iff in Hx as (kv & <- & _).
    discriminate.
Qed.

(** Every row of the BD table names a bridge domain of the tree by the
    schema id, the template id and the number that the migration uses to
    look it up: [template['bds'][number]] is the bridge domain whose name
    is in the row. *)
Theorem bd_numbers_are_indices (tree : json) (st st' : State)
  (rows : list dict) :
  normalize_bd_template_data tree st = (Normal rows, st') ->
  Forall (exported_bd tree) rows.
Proof.
  revert st rows st'.
  change (yields (Forall (exported_bd tree)) (normalize_bd_template_data tree)).
  unfold normalize_bd_template_data. cbv zeta.
  unfold elements at 1. apply yields_lift. intros schemas Hschemas.
  apply yields_for_acc; [constructor|]. intros acc schema Hschema Hacc.
  unfold item at 1. apply yields_lift. intros sid Hsid.
  apply yields_bind. intros ?.
  apply yields_item_enumerated. intros templates Htemplates.
  apply yields_for_acc; [exact Hacc|].
  clear acc Hacc. intros acc [tmplNum template] Htemplate Hacc.
  apply yields_bind. intros ?.
  unfold item at 1. apply yields_lift. intros tid Htid.
  do 2 (apply yields_bind; intros ?).
  unfold item at 1. apply yields_lift. intros bds Hbds.
  apply yields_enumerated. intros l Hl.
  apply yields_for_acc; [exact Hacc|].
  clear acc Hacc. intros acc [bdNum bd] Hbd Hacc.
  apply (yields_len _ bds l (bdNum, bd)); [exact Hl | exact Hbd |].
  intros n Hn. rewrite Hn.
  apply (yields_bind_with
           (fun vars : json * json * json * json * json * json * json * json =>
              let '(bdName, _, num, _, _, _, _, _) := vars in
              Py.getitem bd "name" = Ok bdName /\ num = JInt (Z.of_nat bdNum))).
  - unfold item at 1. apply yields_lift. intros name Hname.
    do 7 (apply yields_bind; intros ?). apply yields_ret. split; [exact Hname|].
    reflexivity.
  - intros [[[[[[[bdName x1] num] x2] x3] x4] x5] x6] [Hname ->].
    do 2 (apply yields_bind; intros ?). apply yields_ret.
    apply Forall_app. split; [exact Hacc|]. constructor; [|constructor].
    exists schemas, schema, templates, template, bds, bdNum, bd, sid, tid, bdName.
    repeat split; auto.
    + eapply enumerate_In_list; eauto.
    + eapply getindex_enumerated; eauto.
Qed.

Lemma bd_numbers_are_indices_witness :
  Forall (exported_bd Sample.schemas)
    (match fst (normalize_bd_template_data Sample.schemas initial_state) with
     | Normal rows => rows
     | _ => []
     end).
Proof.
  apply (bd_numbers_are_indices Sample.schemas initial_state
           (snd (normalize_bd_template_data Sample.schemas initial_state))).
  vm_compute. reflexivity.
Defined.

(** Every row of the EPG table names an EPG of the tree by the schema
    id, the template id and the two numbers that the migration uses to
    look it up: [template['anps'][anp]['epgs'][epg]] is the EPG whose
    name is in the row. *)
Theorem epg_numbers_are_indices (tree : json) (st st' : State)
  (rows : list dict) :
  normalize_epg_template_data tree st = (Normal rows, st') ->
  Forall (exported_epg tree) rows.
Proof.
  revert st rows st'.
  change (yields (Forall (exported_epg tree)) (normalize_epg_template_data tree)).
  unfold normalize_epg_template_data. cbv zeta.
  unfold elements at 1. apply yields_lift. intros schemas Hschemas.
  apply yields_for_acc; [constructor|]. intros acc schema Hschema Hacc.
  unfold item at 1. apply yields_lift. intros sid Hsid.
  apply yields_bind. intros ?.
  apply yields_item_enumerated. intros templates Htemplates.
  apply yields_for_acc; [exact Hacc|].
  clear acc Hacc. intros acc [tmplNum template] Htemplate Hacc.
  apply yields_bind. intros ?.
  unfold item at 1. apply yields_lift. intros tid Htid.
  do 2 (apply yields_bind; intros ?).
  unfold item at 1. apply yields_lift. intros anps Hanps.
  apply yields_enumerated. intros la Hla.
  apply yields_for_acc; [exact Hacc|].
  clear acc Hacc. intros acc [anpNum anp] Hanp Hacc.
  cbv beta iota zeta.
  apply (yields_len _ anps la (anpNum, anp)); [exact Hla | exact Hanp |].
  intros n Hn. rewrite Hn.
  apply (yields_bind_with
           (fun r : list dict * json => Forall (exported_epg tree) (fst r))).
  - unfold item at 1. apply yields_lift. intros anpName HanpName.
    do 4 (apply yields_bind; intros ?).
    unfold item at 1. apply yields_lift. intros epgs Hepgs.
    apply yields_enumerated. intros le Hle.
    apply (yields_bind_with
             (fun r : list dict * (json * json * json * json * json) =>
                Forall (exported_epg tree) (fst r))).
    + apply yields_for_acc; [exact Hacc|].
      clear acc Hacc. intros [acc vars0] [epgNum epg] Hepg Hacc.
      cbn [fst] in Hacc.
      apply (yields_len _ epgs le (epgNum, epg)); [exact Hle | exact Hepg |].
      intros m Hm. rewrite Hm.
      apply (yields_bind_with
               (fun vars : json * (json * json * json * json * json) =>
                  let '(num, (epgName, _, _, _, _)) := vars in
                  Py.getitem epg "name" = Ok epgName /\
                  num = JInt (Z.of_nat epgNum))).
      * unfold item at 1. apply yields_lift. intros name Hname.
        do 4 (apply yields_bind; intros ?). apply yields_ret.
        split; [exact Hname | reflexivity].
      * intros [num [[[[epgName x1] x2] x3] x4]] [Hname ->].
        apply yields_bind; intros ?. apply yields_ret. cbn [fst].
        apply Forall_app. split; [exact Hacc|]. constructor; [|constructor].
        exists schemas, schema, templates, template, anps, anpNum, anp, epgs,
          epgNum, epg, sid, tid, epgName.
        repeat split; auto.
        -- eapply enumerate_In_list; eauto.
        -- eapply getindex_enumerated; eauto.
        -- eapply getindex_enumerated; eauto.
    + intros r Hr. apply yields_ret. exact Hr.
  - intros [data anpDisplayName] Hr. cbn [fst] in Hr.
    apply yields_bind; intros ?. apply yields_ret. exact Hr.
Qed.

Lemma epg_numbers_are_indices_witness :
  Forall (exported_epg Sample.schemas)
    (match fst (normalize_epg_template_data Sample.schemas initial_state) with
     | Normal rows => rows
     | _ => []
     end).
Proof.
  apply (epg_numbers_are_indices Sample.schemas initial_state
           (snd (normalize_epg_template_data Sample.schemas initial_state))).
  vm_compute. reflexivity.
Defined.

(** ** A source object that lacks a field of the skeleton *)

Lemma copy_items_missing (src : dict) (k : string) :
  forall (ks : list string) (dst : dict),
    In k ks -> Py.dict_get k src = None ->
    snd (copy_items ks (JDict src) dst) = Some KeyError.
Proof.
  induction ks as [|k0 ks IH]; intros dst Hin Hk; [contradiction|].
  simpl. destruct (Py.dict_get k0 src) as [v|] eqn:E.
  - apply IH; [|exact Hk]. destruct Hin as [->|Hin]; [congruence|exact Hin].
  - reflexivity.
Qed.

(** The copy loop of lines 909-912 reads, from the source template BD,
    every key of the skeleton.  When the source BD is stretched and lacks
    one of them (other than [vmac], which line 905 defaults), the unit
    raises [KeyError] before anything is sent; the handler of the unit
    does not catch it, so [migrate_unit] raises it too. *)
Theorem missing_source_field_ends_unit (remote : nat -> Reply) (fuel : nat)
  (session : option Session) (src_epgs : list Src.row) (dst_epgs : list Dst.row)
  (items i : nat) (src : Src.row) (dst : Dst.row) (st st0 : State)
  (d : dict) (k : string) :
  nth_error src_epgs i = Some src ->
  nth_error dst_epgs i = Some dst ->
  resolve src st = (Normal tt, st0) ->
  src_bd_tmpl_data st0 = JDict d ->
  Py.dict_get "l2Stretch" d = Some (JBool true) ->
  In k (Py.keys (ndo_bd_tmpl_dict st0)) ->
  k <> "vmac" ->
  Py.dict_get k d = None ->
  exists st1,
    migrate_unit remote fuel session src_epgs dst_epgs items i st
    = (Raised KeyError, st1) /\
    sent st1 = sent st.
Proof.
  intros Hs Hd Hr Hsrc Hl Hk Hv Hmiss.
  assert (Hcopy : exists st1, map_bd dst st0 = (Raised KeyError, st1)).
  { unfold map_bd. unfold bind at 1. unfold copy_src_bd.
    unfold bind at 1. unfold src_item at 1. unfold bind at 1, gets at 1, lift at 1.
    rewrite Hsrc. cbn [Py.getitem]. rewrite Hl. cbn [Py.is_True].
    unfold bind at 1. rewrite (default_vmac_dict st0 d Hsrc).
    unfold bind at 1. unfold copy_from at 1.
    pose proof (with_vmac_src_data st0 d Hsrc) as Hw. rewrite Hsrc in Hw.
    simpl on_dict in Hw. rewrite Hw.
    destruct (with_vmac_frame st0) as (Ht & _).
    cbn [deref]. rewrite Ht.
    pose proof (copy_items_missing (Py.setdefault "vmac" (JStr "") d) k
                  (Py.keys (ndo_bd_tmpl_dict st0)) (ndo_bd_tmpl_dict st0) Hk) as Hc.
    destruct (copy_items _ _ _) as [d' stop]. simpl in Hc.
    rewrite Hc; [eexists; reflexivity|].
    unfold Py.setdefault. destruct (Py.dict_get "vmac" d); [exact Hmiss|].
    rewrite dict_get_set_other by congruence. exact Hmiss. }
  destruct Hcopy as [st1 Hcopy]. exists st1. split.
  - unfold migrate_unit, try_except, unit_body, row_at. rewrite Hs, Hd.
    unfold bind at 1. unfold ret at 1. unfold bind at 1. unfold ret at 1.
    unfold bind at 1. rewrite Hr. unfold bind at 1. rewrite Hcopy. reflexivity.
  - destruct (resolve_quiet src st _ st0 Hr) as [S0 _].
    destruct (map_bd_quiet dst st0 _ st1 Hcopy) as [S1 _]. congruence.
Qed.

Lemma missing_source_field_ends_unit_witness :
  exists st1,
    migrate_unit Fabric.healthy 5 (Some session_cookie) [Fabric.src1]
      [Fabric.dst1] 1 0 (set_schemas partial_schemas Fabric.bootstrapped)
    = (Raised KeyError, st1) /\
    sent st1 = sent (set_schemas partial_schemas Fabric.bootstrapped).
Proof.
  apply (missing_source_field_ends_unit Fabric.healthy 5 (Some session_cookie)
           [Fabric.src1] [Fabric.dst1] 1 0 Fabric.src1 Fabric.dst1
           (set_schemas partial_schemas Fabric.bootstrapped)
           (snd (resolve Fabric.src1
                   (set_schemas partial_schemas Fabric.bootstrapped)))
           partial_bd "arpFlood").
  - reflexivity.
  - reflexivity.
  - vm_compute. reflexivity.
  - vm_compute. reflexivity.
  - reflexivity.
  - vm_compute. tauto.
  - discriminate.
  - reflexivity.
Defined.

(** ** The references of EPGs *)

Lemma string_app_assoc (a b c : string) :
  ((a ++ b) ++ c)%string = (a ++ (b ++ c))%string.
Proof. induction a as [|x a IH]; simpl; congruence. Qed.

Lemma split_epg_path (schema template anp epg : string) :
  slashes schema = 0%nat -> slashes template = 0%nat ->
  slashes anp = 0%nat -> slashes epg = 0%nat ->
  Py.split_slash (epg_path schema template anp epg) =
  [""; "schemas"; schema; "templates"; template; "anps"; anp; "epgs"; epg].
Proof.
  intros Hs Ht Ha He. unfold epg_path.
  change (String.concat ""
            ["/schemas/"; schema; "/templates/"; template; "/anps/"; anp;
             "/epgs/"; epg])
    with ("" ++ String "/" ("schemas" ++ String "/" (schema ++
            String "/" ("templates" ++ String "/" (template ++
              String "/" ("anps" ++ String "/" (anp ++
                String "/" ("epgs" ++ String "/" epg))))))))%string.
  rewrite !split_slash_app.
  rewrite (split_slash_none _ Hs), (split_slash_none _ Ht),
    (split_slash_none _ Ha), (split_slash_none _ He).
  reflexivity.
Qed.

(** The three patch functions that take an EPG reference apart: for a
    reference of the form
    [/schemas/<schema>/templates/<template>/anps/<anp>/epgs/<epg>] whose
    four names hold no ["/"], the site EPG and the static ports are
    replaced, and the template EPG is removed, in that schema, under that
    template, ANP and EPG; the reference line 968 builds from an ANP
    reference of that form is such a reference. *)
Theorem epg_ref_round_trip (schema template anp epg siteId : string)
  (site : dict) (ports tmpl name : json) (dst : Dst.row) :
  slashes schema = 0%nat -> slashes template = 0%nat ->
  slashes anp = 0%nat -> slashes epg = 0%nat ->
  Py.dict_get "epgRef" site = Some (JStr (epg_path schema template anp epg)) ->
  Py.getitem tmpl "name" = Ok name ->
  site_epgs_request (JDict site) siteId "replace" =
    Ok (PATCH_schemas schema
          [{| op := "replace";
              path := site_epgs_at siteId template anp epg;
              value := Some (JDict site) |}]) /\
  static_ports_request (JDict site) siteId ports "replace" =
    Ok (PATCH_schemas schema
          [{| op := "replace";
              path := site_epgs_staticPorts siteId template anp epg;
              value := Some ports |}]) /\
  tmpl_epgs_request tmpl (JStr (epg_path schema template anp epg)) "remove" =
    Ok (PATCH_schemas schema
          [{| op := "remove"; path := tmpl_epgs_at template anp name;
              value := None |}]) /\
  (Dst.anpRef dst =
     String.concat "" ["/schemas/"; schema; "/templates/"; template; "/anps/"; anp] ->
   dst_epg_ref_of dst epg = epg_path schema template anp epg).
Proof.
  intros Hs Ht Ha He Hr Hn.
  pose proof (split_epg_path schema template anp epg Hs Ht Ha He) as E.
  remember (epg_path schema template anp epg) as ref eqn:Eref.
  assert (X2 : split_at (JStr ref) 2 = Ok schema)
    by (unfold split_at, Py.str_method, rbind; rewrite E; reflexivity).
  assert (X4 : split_at (JStr ref) 4 = Ok template)
    by (unfold split_at, Py.str_method, rbind; rewrite E; reflexivity).
  assert (X6 : split_at (JStr ref) 6 = Ok anp)
    by (unfold split_at, Py.str_method, rbind; rewrite E; reflexivity).
  assert (Xl : split_at (JStr ref) (-1) = Ok epg)
    by (unfold split_at, Py.str_method, rbind; rewrite E; reflexivity).
  assert (Xp : epgRef_parts (JDict site) = Ok (schema, template, anp, epg)).
  { unfold epgRef_parts, Py.getitem. rewrite Hr.
    cbn -[split_at]. rewrite X2. cbn -[split_at]. rewrite X4.
    cbn -[split_at]. rewrite X6. cbn -[split_at]. rewrite Xl. reflexivity. }
  split; [|split; [|split]].
  - unfold site_epgs_request. rewrite Xp. reflexivity.
  - unfold static_ports_request. rewrite Xp. reflexivity.
  - unfold tmpl_epgs_request. rewrite X2, X4, X6.
    cbn -[Py.getitem]. rewrite Hn. reflexivity.
  - intros Hd. subst ref. unfold dst_epg_ref_of, epg_path. rewrite Hd.
    cbn [String.concat].
    repeat (cbn [append]; rewrite ?string_app_assoc). reflexivity.
Qed.

Lemma epg_ref_round_trip_witness :
  static_ports_request Fabric.site_epg1 "1" (JList []) "replace" =
    Ok (PATCH_schemas "S1"
          [{| op := "replace";
              path := site_epgs_staticPorts "1" "T1" "AP1" "EPG1";
              value := Some (JList []) |}]).
Proof.
  apply (epg_ref_round_trip "S1" "T1" "AP1" "EPG1" "1"
           [("domainAssociations", JList []);
            ("epgRef", JStr "/schemas/S1/templates/T1/anps/AP1/epgs/EPG1");
            ("selectors", JList []); ("staticLeafs", JList []);
            ("staticPorts", JList [JDict [("path", JStr "eth1/1")]]);
            ("subnets", JList []); ("uSegAttrs", JList [])]
           (JList []) Fabric.epg1 (JStr "EPG1") Fabric.dst1);
    reflexivity.
Defined.
